(** * app-lists: virtualised list, data window and paginated backing array

    A shallow embedding of the algorithms of [lite-list] (the container
    recycling scroller) and of [DbListMixin] (the cursor paginated backing
    array with manual garbage collection), followed by the properties that
    the design document states about them.

    Conventions.
    - Array indices and counts are JavaScript numbers that only ever hold
      integers here; they are modelled as [Z].
    - Pixel geometry (bounding boxes, scroll offsets, translations) may be
      fractional; it is modelled with exact rationals [Q].
    - [undefined] is modelled with [option]: [None] is [undefined].
    - Where two revisions of a file are present, the definitions follow the
      later revision (the one with [_batchSize], [reverseConstraints] and the
      ['forward'] / ['reverse'] directions); the earlier revision is modelled
      in its own module where a property is stated about it. *)

From Stdlib Require Import ZArith QArith Qround Qabs List String Bool Lia.
From Stdlib Require Import Permutation Lqa.
Import ListNotations.

Local Open Scope Z_scope.

(** ** JavaScript array primitives used by the sources *)

Module JsArray.

Section Ops.

Context {A : Type}.

(** [arr.length] *)
Definition length (l : list A) : Z := Z.of_nat (List.length l).

(** Relative index resolution shared by [slice] and [splice]: a negative
    index counts from the end, and the result is clamped to [0, len]. *)
Definition rel_index (len k : Z) : Z :=
  if k <? 0 then Z.max (len + k) 0 else Z.min k len.

(** [arr.slice(start, end)] *)
Definition slice (l : list A) (start end_ : Z) : list A :=
  let len := length l in
  let k := rel_index len start in
  let final := rel_index len end_ in
  firstn (Z.to_nat (final - k)) (skipn (Z.to_nat k) l).

(** [arr.slice(start)], the end being omitted. *)
Definition slice_from (l : list A) (start : Z) : list A :=
  slice l start (length l).

(** [arr.splice(start, deleteCount, ...items)]; the array after the call. *)
Definition splice (l : list A) (start deleteCount : Z) (items : list A)
  : list A :=
  let len := length l in
  let k := rel_index len start in
  let dc := Z.min (Z.max deleteCount 0) (len - k) in
  firstn (Z.to_nat k) l ++ items ++ skipn (Z.to_nat (k + dc)) l.

(** [arr.at(k)]: [None] when out of range. *)
Definition at_ (l : list A) (k : Z) : option A :=
  let k' := if k <? 0 then length l + k else k in
  if k' <? 0 then None else nth_error l (Z.to_nat k').

(** [Array(count).fill(v)] for a non negative integer [count]. *)
Definition fill (count : Z) (v : A) : list A := repeat v (Z.to_nat count).

End Ops.

End JsArray.

(** ** Data Window: [__computeData] of [lite-list] and [recycled-list] *)

Module DataWindow.

Import JsArray.

Section Window.

Context {A : Type}.

(** [__computeData(infinite, items, count, start)].
    [items] is [None] when the property is still undefined and [start] is
    [None] when it is not a number; the function then returns
    [undefined]. *)
Definition __computeData (infinite : bool) (items : option (list A))
           (count : Z) (start : option Z) : option (list A) :=
  match items, start with
  | Some items, Some start =>
      let end_ := start + count in
      let length := length items in
      if infinite && (length <? end_) then
        let delta := end_ - length in
        let beginning := slice_from items start in
        let ending := slice items 0 delta in
        Some (beginning ++ ending)
      else Some (slice items start end_)
  | _, _ => None
  end.

End Window.

End DataWindow.

(** ** JavaScript truthiness for the value shapes that occur *)

Module Js.

(** [!x] for a number held as a rational. *)
Definition falsyQ (x : Q) : bool := Qeq_bool x 0.

(** [!x] for an integer number. *)
Definition falsyZ (x : Z) : bool := x =? 0.

(** [!s] for a possibly undefined string. *)
Definition falsy_string (s : option string) : bool :=
  match s with
  | None => true
  | Some EmptyString => true
  | Some _ => false
  end.

(** [a < b] and [a >= b] on numbers; both are [false] as soon as one side
    is [undefined] (it converts to NaN). *)
Definition Qltb (a b : Q) : bool := negb (Qle_bool b a).
Definition Qgeb (a b : Q) : bool := Qle_bool b a.

Definition Qltb_undef (a : Q) (b : option Q) : bool :=
  match b with Some b => Qltb a b | None => false end.
Definition Qgeb_undef (a : Q) (b : option Q) : bool :=
  match b with Some b => Qgeb a b | None => false end.

(** [x || 0] for a possibly undefined number. *)
Definition or_zero (x : option Q) : Q :=
  match x with
  | Some q => if falsyQ q then 0%Q else q
  | None => 0%Q
  end.

(** [Math.max] on rationals. *)
Definition Qmax (a b : Q) : Q := if Qle_bool a b then b else a.

(** [Math.round]: the nearest integer, halves going up. *)
Definition round (x : Q) : Z := Qfloor (x + (1 # 2))%Q.

(** [str.includes(needle)] *)
Fixpoint includes (needle hay : string) : bool :=
  String.prefix needle hay ||
  match hay with
  | EmptyString => false
  | String _ rest => includes needle rest
  end.

End Js.

(** ** Geometry shared by the scrollers *)

Module Geometry.

(** The fields of a [DOMRect] that the sources destructure. *)
Record Bbox : Type := mkBbox {
  height : Q;
  left : Q;
  top : Q;
  width : Q
}.

(** [layout === 'vertical'] *)
Definition is_vertical (layout : string) : bool :=
  String.eqb layout "vertical".

(** The coordinate of the box's leading edge along the scroll axis, the
    [beginning] of [__computeVirtualIndex]. *)
Definition leading_edge (layout : string) (b : Bbox) : Q :=
  if is_vertical layout then top b else left b.

(** The extent of the box along the scroll axis, the [size] of
    [__computeVirtualIndex]. *)
Definition extent (layout : string) (b : Bbox) : Q :=
  if is_vertical layout then height b else width b.

(** The scroll direction that [__scrollChanged] of [lite-list] sets and
    reports with each pagination event: ['forward'] or ['reverse']. *)
Inductive Direction : Type := forward | reverse.

End Geometry.

(** ** [lite-list], later revision

    Sizes and offsets are rationals, and the sums, products and quotients
    of this module are exact. [LiteListDouble] has the functions that
    divide or add up measured sizes once more, with the arithmetic of the
    numbers. *)

Module LiteList.

Import Js Geometry.

(** [__computeVirtualIndex(layout, sampleBbox, per, scroll)].
    [scroll] is [None] when [typeof scroll !== 'number']. *)
Definition __computeVirtualIndex (layout : option string)
           (sampleBbox : option Bbox) (per : Z) (scroll : option Q) : Z :=
  if falsy_string layout || falsyZ per then 0
  else
    match layout, sampleBbox, scroll with
    | Some layout, Some sampleBbox, Some scroll =>
        if falsyQ (height sampleBbox) || falsyQ (width sampleBbox) then 0
        else
          let beginning :=
            if is_vertical layout then top sampleBbox else left sampleBbox in
          let size :=
            if is_vertical layout
            then height sampleBbox else width sampleBbox in
          let section := Qfloor (Qabs ((scroll - beginning) / size)) in
          section * per
    | _, _, _ => 0
    end.

(** [__computeContainerIndex(count, virtualIndex)] *)
Definition __computeContainerIndex (count virtualIndex : Z) : Z :=
  if falsyZ count || falsyZ virtualIndex then 0
  else Z.rem virtualIndex count.

(** [__computeMaxSize(infinite, length, per, size)]; [None] is the
    [undefined] that dependents ignore. *)
Definition __computeMaxSize (infinite : bool) (length per : Z) (size : Q)
  : option Q :=
  if infinite || falsyZ length || falsyZ per || falsyQ size then None
  else Some (size * inject_Z (Qceiling (inject_Z length / inject_Z per)))%Q.

(** The [position] property: where an item rests inside the host. *)
Inductive Position : Type := start | center | end_.

(** [getOffset(hostSize, sampleSize, position)] *)
Definition getOffset (hostSize sampleSize : Q) (position : Position) : Q :=
  match position with
  | start => 0
  | center =>
      let hostCenter := hostSize / 2 in
      let sampleCenter := sampleSize / 2 in
      hostCenter - sampleCenter
  | end_ => hostSize - sampleSize
  end%Q.

(** A root margin string once its number has been split off:
    ["12px"] is [Px 12] and ["40%"] is [Percent 40]. *)
Inductive Margin : Type :=
| Px (num : Q)
| Percent (num : Q).

(** A recycled container element: its repeater [index], the cached
    [previous] translation and the translation carried by
    [style.transform] ([None] when no transform is set, or ['none']).
    [base] is the coordinate of the untransformed box along the scroll
    axis, measured in the scrolled content. *)
Record Container : Type := mkContainer {
  index : Z;
  base : Q;
  previous : option Q;
  transform : option Q
}.

(** An element of [_sorted]: the measured side of the bounding box and
    the container it was measured on, named by its place in
    [_containers]. *)
Record Entry : Type := mkEntry {
  rect_side : Q;
  target : nat
}.

(** The reactive properties read by [__reposition]. *)
Record Props : Type := mkProps {
  infinite : bool;
  position : Position;
  _containerCount : Z;
  _containerIndex : option Z;
  _containersPer : Z;
  _direction : Direction;
  _hostSize : Q;
  _margin : Margin;
  _maxSize : option Q;
  _sampleSize : Q;
  _scroll : Q;
  _virtualIndex : Z
}.

(** [__move(container, position)] *)
Definition __move (container : Container) (position : Q) : Container :=
  {| index := index container;
     base := base container;
     previous := Some position;
     transform := Some position |}.

(** The reset [__scrollChanged] applies to every container when the
    scroll returns to 0: [el.previous = 0] and [transform = 'none']. *)
Definition reset_container (container : Container) : Container :=
  {| index := index container;
     base := base container;
     previous := Some 0%Q;
     transform := None |}.

(** [__getMarginNum()] *)
Definition __getMarginNum (p : Props) : Q :=
  match _margin p with
  | Percent num => inject_Z (round (_hostSize p * (num / 100)))
  | Px num => num
  end%Q.

(** [container.getBoundingClientRect()[side]]: the box is displaced by the
    translation and seen relative to the scrolled viewport. *)
Definition getBoundingClientRect_side (scroll : Q) (c : Container) : Q :=
  (base c + match transform c with Some t => t | None => 0 end - scroll)%Q.

(** Ascending insertion; an entry goes in front of the entries it ties
    with, so that folding from the right keeps ties in their original
    order, as the stable [Array.prototype.sort] does with the comparator
    [a[side] - b[side]]. *)
Fixpoint insert_entry (e : Entry) (l : list Entry) : list Entry :=
  match l with
  | [] => [e]
  | x :: rest =>
      if Qle_bool (rect_side e) (rect_side x) then e :: x :: rest
      else x :: insert_entry e rest
  end.

Definition sort_entries (l : list Entry) : list Entry :=
  fold_right insert_entry [] l.

(** [entries] numbered by their place in the array. *)
Fixpoint measure_from (scroll : Q) (n : nat) (containers : list Container)
  : list Entry :=
  match containers with
  | [] => []
  | c :: rest =>
      {| rect_side := getBoundingClientRect_side scroll c; target := n |}
        :: measure_from scroll (S n) rest
  end.

(** [__computeSorted(containers, hidden, side)] once its inputs are
    defined. *)
Definition __computeSorted (scroll : Q) (containers : list Container)
  : list Entry :=
  sort_entries (measure_from scroll 0 containers).

(** Replace the container at place [n]. *)
Fixpoint set_nth (n : nat) (c : Container) (l : list Container)
  : list Container :=
  match n, l with
  | _, [] => []
  | O, _ :: rest => c :: rest
  | S n', x :: rest => x :: set_nth n' c rest
  end.

(** The values [__reposition] derives before visiting the entries. *)
Record Shift : Type := mkShift {
  indexPosition : Q;
  jump : Q;
  currentShiftSize : Q;
  shiftForward : Q;
  shiftBack : Q;
  startPosition : Q
}.

Definition compute_shift (p : Props) : Shift :=
  let offset := getOffset (_hostSize p) (_sampleSize p) (position p) in
  let sectionIndex :=
    (inject_Z (_virtualIndex p) / inject_Z (_containersPer p))%Q in
  let distance := (Qmax 0 (sectionIndex - 1) * _sampleSize p)%Q in
  let indexPosition := (distance + offset)%Q in
  let jump :=
    ((inject_Z (_containerCount p) / inject_Z (_containersPer p))
     * _sampleSize p)%Q in
  let currentShift :=
    Qfloor (sectionIndex / inject_Z (_containerCount p)) in
  let currentShiftSize := (inject_Z currentShift * jump)%Q in
  let shiftForward := (currentShiftSize + jump)%Q in
  let shiftBack := (currentShiftSize - jump)%Q in
  let margin := __getMarginNum p in
  let startPosition :=
    match _direction p with
    | forward => (indexPosition - margin)%Q
    | reverse => (shiftForward + margin)%Q
    end in
  {| indexPosition := indexPosition;
     jump := jump;
     currentShiftSize := currentShiftSize;
     shiftForward := shiftForward;
     shiftBack := shiftBack;
     startPosition := startPosition |}.

(** The local [getPosition(placement)]; [None] when no branch returns. *)
Definition getPosition (p : Props) (s : Shift) (placement : Q) : option Q :=
  if negb (infinite p) && Qltb placement (startPosition s)
     && Qltb_undef (shiftForward s) (_maxSize p)
  then Some (shiftForward s)
  else if negb (infinite p) && Qgeb_undef placement (_maxSize p)
          && Qgeb (shiftBack s) 0
  then Some (shiftBack s)
  else if Qgeb (indexPosition s) (jump s)
  then Some (currentShiftSize s)
  else None.

(** The body of [this._sorted.forEach(entry => ...)] as it acts on the
    entry's target, whose box was measured at [rect]: the container is
    moved, or left as it is. *)
Definition place_container (p : Props) (s : Shift) (rect : Q)
           (target_ : Container) : Container :=
  let previous_ := or_zero (previous target_) in
  let travel := (currentShiftSize s - previous_)%Q in
  let placement := (rect + travel + _scroll p)%Q in
  match getPosition p s placement with
  | Some position_ =>
      if falsyQ position_ then target_ else __move target_ position_
  | None => target_
  end.

(** One turn of the [forEach]: the entry's target is looked up among the
    containers and takes its new state. *)
Definition reposition_entry (place : Q -> Container -> Container)
           (containers : list Container) (entry : Entry) : list Container :=
  match nth_error containers (target entry) with
  | None => containers
  | Some target_ =>
      set_nth (target entry) (place (rect_side entry) target_) containers
  end.

(** [__reposition()], after the awaited frame: the containers as the
    call leaves them. *)
Definition __reposition (p : Props) (sorted : list Entry)
           (containers : list Container) : list Container :=
  match _containerIndex p with
  | None => containers
  | Some _ =>
      if falsyZ (_virtualIndex p) then containers
      else
        fold_left (reposition_entry (place_container p (compute_shift p)))
                  sorted containers
  end.

(** One Reposition as the element performs it: [_sorted] holds the boxes
    measured from the live containers (the call ends by re-assigning
    [_entries], which recomputes [_hidden] and with it [_sorted]). *)
Definition reposition (p : Props) (containers : list Container)
  : list Container :=
  __reposition p (__computeSorted (_scroll p) containers) containers.

(** The cached translation and the applied transform agree; [__move] and
    the scroll-to-top reset of [__scrollChanged] write both together. *)
Definition synced (c : Container) : Prop :=
  (match transform c with Some t => t | None => 0 end
   == or_zero (previous c))%Q.

End LiteList.

(** ** [lite-list], earlier revision (src/lite-list.js) *)

Module LiteListEarly.

Import Js Geometry.
Import LiteList.

(** [__computeVirtualIndex(layout, sampleBbox, per, scroll)] *)
Definition __computeVirtualIndex (layout : option string)
           (sampleBbox : option Bbox) (per : Z) (scroll : option Q) : Z :=
  if falsy_string layout then 0
  else
    match layout, sampleBbox, scroll with
    | Some layout, Some sampleBbox, Some scroll =>
        if falsyQ (height sampleBbox) || falsyQ (width sampleBbox) then 0
        else
          let beginning :=
            if is_vertical layout then top sampleBbox else left sampleBbox in
          let size :=
            if is_vertical layout
            then height sampleBbox else width sampleBbox in
          let section := Qfloor (Qabs ((scroll - beginning) / size)) in
          section * per
    | _, _, _ => 0
    end.

(** The position every container is sent to by [__reposition]. *)
Definition reposition_target (p : Props) (containerIndex : Z) : Q :=
  let section :=
    (inject_Z (_virtualIndex p - containerIndex)
     / inject_Z (_containersPer p))%Q in
  (_sampleSize p * section)%Q.

(** The body of [this._sorted.forEach(entry => ...)] as it acts on the
    entry's target, whose box was measured at [rect]. *)
Definition place_container (p : Props) (position_ : Q) (rect : Q)
           (target_ : Container) : Container :=
  let previous_ := or_zero (previous target_) in
  let travel := (position_ - previous_)%Q in
  let placement := (rect + travel + _scroll p)%Q in
  if negb (infinite p) && Qgeb_undef placement (_maxSize p)
  then target_
  else __move target_ position_.

(** [__reposition()] *)
Definition __reposition (p : Props) (sorted : list Entry)
           (containers : list Container) : list Container :=
  match _containerIndex p with
  | None => containers
  | Some containerIndex =>
      if falsyZ (_virtualIndex p) then containers
      else
        fold_left
          (reposition_entry
             (place_container p (reposition_target p containerIndex)))
          sorted containers
  end.

(** One Reposition with [_sorted] measured from the live containers. *)
Definition reposition (p : Props) (containers : list Container)
  : list Container :=
  __reposition p (__computeSorted (_scroll p) containers) containers.

End LiteListEarly.

(** ** [recycled-list] *)

Module RecycledList.

Import Js Geometry.

(** [__computeVirtualIndex(layout, sampleBbox, scroll)]: one item per
    line, so the section number is the index. *)
Definition __computeVirtualIndex (layout : option string)
           (sampleBbox : option Bbox) (scroll : option Q) : Z :=
  if falsy_string layout then 0
  else
    match layout, sampleBbox, scroll with
    | Some layout, Some sampleBbox, Some scroll =>
        if falsyQ (height sampleBbox) || falsyQ (width sampleBbox) then 0
        else
          let beginning :=
            if is_vertical layout then top sampleBbox else left sampleBbox in
          let dimension :=
            if is_vertical layout
            then height sampleBbox else width sampleBbox in
          Qfloor (Qabs ((scroll - beginning) / dimension))
    | _, _, _ => 0
    end.

End RecycledList.

(** ** [DbListMixin], later revision: pagination and garbage collection *)

Module DbListMixin.

Import Js Geometry JsArray.

(** An opaque Firestore document snapshot, used as a query cursor. *)
Definition Doc : Type := nat.

(** An opaque collection reference. *)
Definition Ref : Type := nat.

(** An element of [_listItems]: [{data, doc}], of which the mixin reads
    [data.uid] and [doc]. *)
Record Item : Type := mkItem {
  uid : option string;
  doc : option Doc
}.

(** The detail of a ['lite-list-pagination-changed'] event. *)
Record Pagination : Type := mkPagination {
  count : Z;
  direction : Direction;
  index : Z;
  itemBbox : Bbox;
  parentBbox : Bbox;
  per : Z
}.

(** Firestore query constraints. *)
Inductive QueryConstraint : Type :=
| userConstraint (id : nat)
| startAt (d : option Doc)
| limit (n : Z).

(** A live [onSnapshot] subscription together with what its callbacks
    captured. *)
Record Subscription : Type := mkSubscription {
  sub_ref : Ref;
  sub_query : list QueryConstraint;
  sub_index : option Z;
  sub_direction : Direction
}.

(** An error handed to [errorCallback]. *)
Record Error : Type := mkError {
  message : option string
}.

(** What the mixin does to the outside. *)
Inductive Effect : Type :=
| Unsubscribed (s : Subscription)
| Subscribed (s : Subscription)
| ConsoleError (e : Error).

(** The element's properties, with the effects performed so far. *)
Record State : Type := mkState {
  constraints : option (list QueryConstraint);
  layout : string;
  reverseConstraints : option (list QueryConstraint);
  visible : bool;
  _busy : bool;
  _endDetected : bool;
  _listItems : option (list (option Item));
  _max : option Z;
  _pagination : option Pagination;
  _paginationWaiting : option Pagination;
  _ref : option Ref;
  _resultsCount : option Z;
  _unsubscribe : option Subscription;
  effects : list Effect
}.

(** How a call ends: normally, or by a [TypeError] thrown on reading a
    property of [undefined]; either way with the state reached. *)
Inductive Completion : Type :=
| Normal (st : State)
| TypeError (st : State).

Definition state_of (c : Completion) : State :=
  match c with Normal st | TypeError st => st end.

(** *** Property writes *)

Definition set_busy (v : bool) (st : State) : State :=
  mkState (constraints st) (layout st) (reverseConstraints st) (visible st)
          v (_endDetected st) (_listItems st) (_max st) (_pagination st)
          (_paginationWaiting st) (_ref st) (_resultsCount st)
          (_unsubscribe st) (effects st).

Definition set_endDetected (v : bool) (st : State) : State :=
  mkState (constraints st) (layout st) (reverseConstraints st) (visible st)
          (_busy st) v (_listItems st) (_max st) (_pagination st)
          (_paginationWaiting st) (_ref st) (_resultsCount st)
          (_unsubscribe st) (effects st).

Definition set_listItems (v : option (list (option Item))) (st : State)
  : State :=
  mkState (constraints st) (layout st) (reverseConstraints st) (visible st)
          (_busy st) (_endDetected st) v (_max st) (_pagination st)
          (_paginationWaiting st) (_ref st) (_resultsCount st)
          (_unsubscribe st) (effects st).

Definition set_pagination (v : option Pagination) (st : State) : State :=
  mkState (constraints st) (layout st) (reverseConstraints st) (visible st)
          (_busy st) (_endDetected st) (_listItems st) (_max st) v
          (_paginationWaiting st) (_ref st) (_resultsCount st)
          (_unsubscribe st) (effects st).

Definition set_paginationWaiting (v : option Pagination) (st : State)
  : State :=
  mkState (constraints st) (layout st) (reverseConstraints st) (visible st)
          (_busy st) (_endDetected st) (_listItems st) (_max st)
          (_pagination st) v (_ref st) (_resultsCount st)
          (_unsubscribe st) (effects st).

Definition set_resultsCount (v : option Z) (st : State) : State :=
  mkState (constraints st) (layout st) (reverseConstraints st) (visible st)
          (_busy st) (_endDetected st) (_listItems st) (_max st)
          (_pagination st) (_paginationWaiting st) (_ref st) v
          (_unsubscribe st) (effects st).

Definition set_unsubscribe (v : option Subscription) (st : State) : State :=
  mkState (constraints st) (layout st) (reverseConstraints st) (visible st)
          (_busy st) (_endDetected st) (_listItems st) (_max st)
          (_pagination st) (_paginationWaiting st) (_ref st)
          (_resultsCount st) v (effects st).

Definition emit (e : Effect) (st : State) : State :=
  mkState (constraints st) (layout st) (reverseConstraints st) (visible st)
          (_busy st) (_endDetected st) (_listItems st) (_max st)
          (_pagination st) (_paginationWaiting st) (_ref st)
          (_resultsCount st) (_unsubscribe st) (effects st ++ [e]).

(** *** Computed properties *)

(** [_min]: read only, [value: 20]. *)
Definition _min : Z := 20.

(** Modelled from the spec: [clamp] of [@longlost/app-core/lambda.js],
    which is not among these sources. The call site reads "Only GC between
    0 and batchSize items at a time": [clamp(min, max, value)] is [value]
    bounded to the range from [min] to [max]. *)
Definition clamp (min max value : Z) : Z := Z.min (Z.max min value) max.

(** [__computeBatchSize(min, max = 1)] *)
Definition __computeBatchSize (min : Z) (max : option Z) : Z :=
  let max := match max with Some m => m | None => 1 end in
  Z.max min max.

(** [__computeIndex(lag, index)] *)
Definition __computeIndex (lag : Z) (index : option Z) : option Z :=
  match index with
  | None => None
  | Some index => Some (Z.max 0 (index + lag))
  end.

(** [__computeLag(direction = 'forward', count = 0)] *)
Definition __computeLag (direction : option Direction) (count : option Z)
  : Z :=
  let direction := match direction with Some d => d | None => forward end in
  let count := match count with Some c => c | None => 0 end in
  let scalar := Qceiling (inject_Z count / 2) in
  match direction with
  | forward => scalar * -1
  | reverse => scalar + count
  end.

(** [__computeResolution(batchSize = 1)] *)
Definition __computeResolution (batchSize : Z) : Z :=
  Qceiling (inject_Z batchSize / 2).

(** [__computeVisibleCount(layout, pagination)] *)
Definition __computeVisibleCount (layout : string)
           (pagination : option Pagination) : Z :=
  match pagination with
  | None => 1
  | Some p =>
      let dim := if is_vertical layout then height else width in
      let sections := Qceiling (dim (parentBbox p) / dim (itemBbox p)) in
      sections * per p
  end.

Definition _batchSize (st : State) : Z := __computeBatchSize _min (_max st).

Definition _visibleCount (st : State) : Z :=
  __computeVisibleCount (layout st) (_pagination st).

Definition _lag (st : State) : Z :=
  __computeLag (option_map direction (_pagination st))
               (Some (_visibleCount st)).

Definition _index (st : State) : option Z :=
  __computeIndex (_lag st) (option_map index (_pagination st)).

Definition _resolution (st : State) : Z :=
  __computeResolution (_batchSize st).

(** Equality of two possibly undefined integers ([===]). *)
Definition optZ_eqb (a b : option Z) : bool :=
  match a, b with
  | Some a, Some b => a =? b
  | None, None => true
  | _, _ => false
  end.

(** *** End detection *)

(** [this._pagination?.direction === 'forward'] *)
Definition paginating_forward (st : State) : bool :=
  match _pagination st with
  | Some p => match direction p with forward => true | reverse => false end
  | None => false
  end.

(** [__resultsCountChanged(newCount, oldCount)] *)
Definition __resultsCountChanged (newCount : Z) (oldCount : option Z)
           (st : State) : State :=
  let lt := match oldCount with Some o => newCount <? o | None => false end in
  if lt && paginating_forward st then set_endDetected true st
  else set_endDetected false st.

(** [this._resultsCount = count]: the property takes the value and its
    observer runs with the new and the old value when they differ
    (a Polymer property observer does not run for an unchanged value). *)
Definition assign_resultsCount (count : Z) (st : State) : State :=
  let old := _resultsCount st in
  if optZ_eqb old (Some count) then st
  else __resultsCountChanged count old (set_resultsCount (Some count) st).

(** *** Garbage collection *)

(** [__garbageCollect(index, direction, batchSize)] *)
Definition __garbageCollect (index : option Z) (direction : Direction)
           (batchSize : Z) (st : State) : Completion :=
  match index, _pagination st with
  | Some index, Some _ =>
      if batchSize <=? _min then Normal st
      else
        let distance := batchSize * 2 in
        let garbageIndex :=
          match direction with
          | forward => index - distance
          | reverse => index + distance
          end in
        let totalGarbage :=
          match direction with
          | forward => Some garbageIndex
          | reverse =>
              option_map (fun items => length items - garbageIndex)
                         (_listItems st)
          end in
        match totalGarbage with
        | None => TypeError st
        | Some totalGarbage =>
            let count := clamp 0 batchSize totalGarbage in
            let clear := fill count (@None Item) in
            let start :=
              match direction with
              | forward => garbageIndex - count
              | reverse => garbageIndex
              end in
            if start <? 0 then Normal st
            else
              match _listItems st with
              | None => TypeError st
              | Some items =>
                  if (length items <? start + count) || (count =? 0)
                  then Normal st
                  else
                    Normal
                      (set_listItems
                         (Some (splice items start count clear))
                         st)
              end
        end
  | _, _ => Normal st
  end.

(** *** Subscription *)

(** [getQueryConstraints({batchSize, constraints, direction, doc, index,
    reverseConstraints})] *)
Definition getQueryConstraints (batchSize : Z)
           (constraints : list QueryConstraint) (direction : Direction)
           (doc : option Doc) (index : option Z)
           (reverseConstraints : list QueryConstraint)
  : list QueryConstraint :=
  let notAtStart := match index with Some i => 0 <? i | None => false end in
  let qConstraints :=
    match direction with
    | reverse => if notAtStart then reverseConstraints else constraints
    | forward => constraints
    end in
  let qConstraints :=
    if notAtStart then qConstraints ++ [startAt doc] else qConstraints in
  qConstraints ++ [limit batchSize].

(** [__unsub()] *)
Definition __unsub (st : State) : State :=
  match _unsubscribe st with
  | Some s => set_unsubscribe None (emit (Unsubscribed s) st)
  | None => st
  end.

(** [!arr?.length] *)
Definition no_length {A : Type} (l : option (list A)) : bool :=
  match l with
  | None => true
  | Some l => length l =? 0
  end.

(** [this._listItems?.at(index)?.doc]; an undefined [index] reads the
    first element. *)
Definition anchor_doc (st : State) (index : option Z) : option Doc :=
  match _listItems st with
  | None => None
  | Some items =>
      match at_ items (match index with Some i => i | None => 0 end) with
      | Some (Some item) => doc item
      | _ => None
      end
  end.

(** No record at [index]: no array yet, an index outside of it, or an
    element that is [undefined] (never loaded, or cleared by
    [__garbageCollect]). *)
Definition entry_absent (st : State) (index : Z) : Prop :=
  match _listItems st with
  | None => True
  | Some items => at_ items index = None \/ at_ items index = Some None
  end.

(** [__updateItems(visible, constraints, reverseConstraints, ref,
    batchSize, index)], up to the point where the subscription is
    handed to [onSnapshot]. *)
Definition __updateItems (visible : bool)
           (constraints reverseConstraints : option (list QueryConstraint))
           (ref : option Ref) (batchSize : Z) (index : option Z)
           (st : State) : Completion :=
  let doc := anchor_doc st index in
  let index_positive :=
    match index with Some i => 0 <? i | None => false end in
  match constraints, reverseConstraints, ref with
  | Some constraints, Some reverseConstraints, Some ref =>
      if no_length (Some constraints)
         || no_length (Some reverseConstraints)
         || falsyZ batchSize
         || (index_positive && match doc with None => true | _ => false end)
      then Normal st
      else
        let st := __unsub st in
        if negb visible then Normal st
        else
          let st := set_busy true st in
          let direction :=
            match _pagination st with
            | Some p => direction p
            | None => forward
            end in
          match __garbageCollect index direction batchSize st with
          | TypeError st => TypeError st
          | Normal st =>
              let qConstraints :=
                getQueryConstraints batchSize constraints direction doc
                                    index reverseConstraints in
              let sub :=
                {| sub_ref := ref;
                   sub_query := qConstraints;
                   sub_index := index;
                   sub_direction := direction |} in
              Normal (set_unsubscribe (Some sub) (emit (Subscribed sub) st))
          end
  | _, _, _ => Normal st
  end.

(** [this.splice('_listItems', start, deleteCount, ...items)]: Polymer
    resolves a negative [start] against the length once and then calls the
    native [splice]. *)
Definition polymer_splice {A : Type} (l : list A) (start deleteCount : Z)
           (items : list A) : list A :=
  let start := if start <? 0 then length l + start else start in
  splice l start deleteCount items.

(** [obj.data.uid] as a condition. *)
Definition has_uid (obj : Item) : bool := negb (falsy_string (uid obj)).

(** Where the results are spliced in. *)
Definition splice_start (direction : Direction) (index : option Z)
           (count : Z) : Z :=
  let lastIndex := count - 1 in
  match direction, index with
  | reverse, Some index => Z.max 0 (index - lastIndex)
  | reverse, None => 0
  | forward, Some index => index
  | forward, None => 0
  end.

(** The [callback] closure of [__updateItems], created for the anchor
    [index] and the cached [direction]: the writes of the closure itself,
    in their order. The observers that the write of a parked pagination
    runs before the closure goes on are added in
    [DbListMixinCascade.callback]. *)
Definition callback (index : option Z) (direction : Direction)
           (raw : list Item) (st : State) : State :=
  if negb (optZ_eqb index (_index st)) then st
  else
    let validResults := filter has_uid raw in
    let results :=
      match direction with
      | reverse => rev validResults
      | forward => validResults
      end in
    let count := length results in
    let st := assign_resultsCount count st in
    let st :=
      match _listItems st with
      | Some items =>
          let start := splice_start direction index count in
          set_listItems
            (Some (polymer_splice items start count (map Some results))) st
      | None => set_listItems (Some (map Some results)) st
      end in
    let st := set_busy false st in
    match _paginationWaiting st with
    | Some waiting =>
        set_paginationWaiting None (set_pagination (Some waiting) st)
    | None => st
    end.

(** The [errorCallback] closure of [__updateItems]. *)
Definition errorCallback (error : Error) (st : State) : State :=
  let benign :=
    match message error with
    | Some m =>
        negb (falsy_string (Some m)) && includes "document does not exist" m
    | None => false
    end in
  if benign then st
  else emit (ConsoleError error) (set_listItems None st).

(** *** Pagination events *)

(** [__paginationChangedHandler(event)], [pagination] being
    [event.detail.value]. *)
Definition __paginationChangedHandler (pagination : Pagination) (st : State)
  : State :=
  let current := _pagination st in
  let index_ge :=
    match current with
    | Some c => index c <=? index pagination
    | None => false
    end in
  if _endDetected st && index_ge then st
  else
    let was_reverse :=
      match current with
      | Some c => match direction c with reverse => true | _ => false end
      | None => false
      end in
    let is_reverse :=
      match direction pagination with reverse => true | _ => false end in
    if is_reverse && was_reverse && (index pagination =? 0) then st
    else
      let remainder := Z.rem (index pagination) (_resolution st) in
      let pageIsThisSection := per pagination <=? remainder in
      let at_zero :=
        match current with Some c => index c =? 0 | None => false end in
      let had_more :=
        match current with
        | Some c => count pagination <? count c
        | None => false
        end in
      if at_zero && had_more then st
      else if negb at_zero && negb (remainder =? 0) && pageIsThisSection
      then st
      else if _busy st then set_paginationWaiting (Some pagination) st
      else set_pagination (Some pagination) st.

(** The observer [__updateItems(visible, constraints, reverseConstraints,
    _ref, _batchSize, _index)] runs when one of its properties changed;
    a pagination event can only move [_index]. *)
Definition run_observers (before after : State) : Completion :=
  if optZ_eqb (_index before) (_index after) then Normal after
  else
    __updateItems (visible after) (constraints after)
                  (reverseConstraints after) (_ref after)
                  (_batchSize after) (_index after) after.

(** A ['lite-list-pagination-changed'] event reaching the element. *)
Definition pagination_changed (pagination : Pagination) (st : State)
  : Completion :=
  run_observers st (__paginationChangedHandler pagination st).

End DbListMixin.

(** ** Further array primitives and number helpers *)

Module JsMore.

Import JsArray.

(** [Math.floor(a / b)] and [Math.ceil(a / b)] on integers. *)
Definition floor_div (a b : Z) : Z := Qfloor (inject_Z a / inject_Z b).
Definition ceil_div (a b : Z) : Z := Qceiling (inject_Z a / inject_Z b).

Section Ops.

Context {A : Type}.

(** [arr.findIndex(f)]: the place of the first match, [-1] without
    one. *)
Fixpoint findIndex_from (f : A -> bool) (l : list A) (n : Z) : Z :=
  match l with
  | [] => -1
  | x :: rest => if f x then n else findIndex_from f rest (n + 1)
  end.

Definition findIndex (f : A -> bool) (l : list A) : Z :=
  findIndex_from f l 0.

(** [arr.find(f)] *)
Definition find (f : A -> bool) (l : list A) : option A := List.find f l.

(** [arr[i] = v] on an array whose elements may be [undefined]: a place
    past the end grows the array, the places in between being holes; a
    negative index is not an array index and leaves the elements
    alone. *)
Definition assign (l : list (option A)) (i : Z) (v : option A)
  : list (option A) :=
  if i <? 0 then l
  else if i <? length l
  then firstn (Z.to_nat i) l ++ v :: skipn (S (Z.to_nat i)) l
  else l ++ repeat None (Z.to_nat (i - length l)) ++ [v].

(** [arr[i]] for an integer [i]: [None] is [undefined]. *)
Definition get (l : list (option A)) (i : Z) : option A :=
  if i <? 0 then None
  else match nth_error l (Z.to_nat i) with
       | Some v => v
       | None => None
       end.

End Ops.

End JsMore.

(** ** [lite-list]: the start of the window and what each container
    shows *)

Module LiteListItems.

Import Js JsArray JsMore DataWindow.

(** [__computeStart(infinite, length, virtualStart)] *)
Definition __computeStart (infinite : bool) (length virtualStart : Z) : Z :=
  if falsyZ length then 0
  else
    let multiple := floor_div virtualStart length in
    if negb (falsyZ multiple) && negb infinite then length
    else virtualStart - length * multiple.

(** [__computeStopRecycling(infinite, length, count, virtualStart)] *)
Definition __computeStopRecycling (infinite : bool)
           (length count virtualStart : Z) : bool :=
  if infinite || falsyZ length || falsyZ count then false
  else
    let last := length - 1 in
    last <? virtualStart + count.

(** [__updateVirtualStart(sorted)]: the value written to
    [_virtualStart]. An entry of [sorted] is given by [target.index], the
    only field read here. *)
Definition __updateVirtualStart (sorted : option (list Z))
           (virtualIndex containerIndex : Z) : Z :=
  match sorted with
  | None => 0
  | Some sorted =>
      if falsyZ virtualIndex then 0
      else
        let offset := findIndex (fun i => i =? containerIndex) sorted in
        virtualIndex - offset
  end.

Section Items.

Context {A : Type}.

(** The [reduce] of [__updateCurrentItems]:
    [accum[entry.target.index] = data[index]] for every entry. *)
Fixpoint arrange_from (sorted : list Z) (data : list (option A)) (n : Z)
         (accum : list (option A)) : list (option A) :=
  match sorted with
  | [] => accum
  | i :: rest => arrange_from rest data (n + 1) (assign accum i (get data n))
  end.

(** [__updateCurrentItems(data)] of the later revision: the value written
    to [_currentItems], [None] when nothing is written. *)
Definition __updateCurrentItems (sorted : option (list Z))
           (data : option (list (option A))) : option (list (option A)) :=
  match data with
  | None => None
  | Some data =>
      match sorted with
      | None => Some data
      | Some sorted =>
          if negb (length data =? length sorted) then None
          else Some (arrange_from sorted data 0 [])
      end
  end.

End Items.

End LiteListItems.

(** ** [DomObserversMixin]: how many containers, and which are hidden *)

Module DomObserversMixin.

Import Js Geometry JsMore.

(** [__computeContainerCount(length, max = 1)] of the later revision;
    [None] is the [undefined] returned while [items.length] is not a
    number. *)
Definition __computeContainerCount (length max : option Z) : option Z :=
  match length with
  | None => None
  | Some length =>
      Some (Z.min length (match max with Some m => m | None => 1 end))
  end.

(** [__computeThreshold(hostSize, sampleSize)] of the earlier
    revision. *)
Definition __computeThreshold (hostSize sampleSize : option Q) : Q :=
  match hostSize, sampleSize with
  | Some hostSize, Some sampleSize =>
      if falsyQ hostSize || falsyQ sampleSize then 0
      else if Qltb sampleSize hostSize then 0
      else
        let percentage := hostSize / sampleSize in
        let threshold := 1 - percentage in
        threshold
  | _, _ => 0
  end%Q.

(** What is read of an [IntersectionObserverEntry]. *)
Record IOEntry : Type := mkIOEntry {
  intersectionRatio : Q;
  io_target : nat
}.

(** The local [signifigantFigures] of [__computeHidden]. *)
Definition signifigantFigures (num : Q) : Z := round (num * 1000).

(** [__computeHidden(entries, threshold)] *)
Definition __computeHidden (entries : option (list IOEntry))
           (threshold : option Q) : option (list IOEntry) :=
  match entries, threshold with
  | Some entries, Some threshold =>
      if Qeq_bool threshold 0
      then Some (filter (fun entry =>
                           Qeq_bool (intersectionRatio entry) 0) entries)
      else Some (filter (fun entry =>
                           signifigantFigures (intersectionRatio entry)
                           <? signifigantFigures threshold) entries)
  | _, _ => None
  end.

(** The [callback] handed to the [IntersectionObserver] by
    [__observeContainers], later revision: the new value of
    [_entries]. *)
Definition observe_callback (containerCount : Z)
           (current : option (list IOEntry)) (entries : list IOEntry)
  : option (list IOEntry) :=
  match current with
  | None => Some entries
  | Some current =>
      if JsArray.length entries =? containerCount then Some entries
      else
        Some (map (fun entry =>
                     match find (fun update =>
                                   Nat.eqb (io_target update)
                                           (io_target entry)) entries with
                     | Some match_ => match_
                     | None => entry
                     end) current)
  end.

End DomObserversMixin.

(** ** [lite-list]: recycling the hidden containers *)

Module LiteListRecycle.

Import Js Geometry.

(** The sides of a [DOMRect] read while recycling. *)
Record Rect : Type := mkRect {
  r_bottom : Q;
  r_left : Q;
  r_right : Q;
  r_top : Q
}.

(** An element of [_sorted] as the recycling reads it. *)
Record SortedEntry : Type := mkSortedEntry {
  boundingClientRect : Rect;
  entry_target : nat
}.

(** Modelled from the spec: [head] and [tail] of
    [@longlost/app-core/lambda.js], which is not among these sources.
    They pick the reference slot out of the visible ones sorted
    ascending: the one closest to the leading edge, the first, and the
    one closest to the trailing edge, the last. *)
Definition head {A : Type} (l : list A) : option A := hd_error l.
Definition tail {A : Type} (l : list A) : option A := hd_error (rev l).

(** [filterAvailable({direction, hidden, layout, visible})]; [None] is
    the [TypeError] of reading the box of a missing reference. *)
Definition filterAvailable (direction : Direction)
           (hidden : list SortedEntry) (layout : string)
           (visible : list SortedEntry) : option (list SortedEntry) :=
  let reference :=
    match direction with
    | forward => head visible
    | reverse => tail visible
    end in
  let refDim := if is_vertical layout then r_top else r_left in
  let entryDim := if is_vertical layout then r_bottom else r_right in
  match reference with
  | None => None
  | Some reference =>
      let refMeasurement := refDim (boundingClientRect reference) in
      match direction with
      | forward =>
          Some (filter (fun entry =>
                          Qle_bool (entryDim (boundingClientRect entry))
                                   refMeasurement) hidden)
      | reverse =>
          Some (filter (fun entry =>
                          Qgeb (entryDim (boundingClientRect entry))
                               refMeasurement) hidden)
      end
  end.

(** The body of the [forEach] of [__reverse] as it acts on the entry's
    target. *)
Definition reverse_container (travel : Q) (target_ : LiteList.Container)
  : LiteList.Container :=
  let previous_ := or_zero (LiteList.previous target_) in
  if falsyQ previous_ then target_
  else
    let position_ := (previous_ - travel)%Q in
    if Qltb position_ 0 then target_
    else LiteList.__move target_ position_.

(** One turn of a [forEach] over entries: the entry's target takes its
    new state. *)
Definition visit_target (f : LiteList.Container -> LiteList.Container)
           (containers : list LiteList.Container) (entry : SortedEntry)
  : list LiteList.Container :=
  match nth_error containers (entry_target entry) with
  | None => containers
  | Some target_ =>
      LiteList.set_nth (entry_target entry) (f target_) containers
  end.

(** [__reverse(grouped)] for a measured [_travel]: the containers as the
    call leaves them, [None] for the [TypeError]. *)
Definition __reverse (layout : string) (travel : Q)
           (hidden visible : list SortedEntry)
           (containers : list LiteList.Container)
  : option (list LiteList.Container) :=
  match filterAvailable reverse hidden layout visible with
  | None => None
  | Some available =>
      Some (fold_left (visit_target (reverse_container travel))
                      available containers)
  end.

End LiteListRecycle.

(** ** [drag-drop-list]: moving an item *)

Module DragDropList.

Import JsArray JsMore.

Section Move.

Context {A : Type}.

(** The elements [arr.splice(start, deleteCount)] returns. *)
Definition spliced (l : list A) (start deleteCount : Z) : list A :=
  let len := length l in
  let k := rel_index len start in
  let dc := Z.min (Z.max deleteCount 0) (len - k) in
  firstn (Z.to_nat dc) (skipn (Z.to_nat k) l).

End Move.

Section MoveItem.

Context {A : Type}.

(** [__moveItemArray(array, oldIndex, newIndex)] for integer indices; the
    elements may be [undefined]. *)
Definition __moveItemArray (array : list (option A)) (oldIndex newIndex : Z)
  : list (option A) :=
  let array :=
    if length array <=? newIndex
    then array ++ repeat None (Z.to_nat (newIndex - length array + 1))
    else array in
  let removed := spliced array oldIndex 1 in
  let array := splice array oldIndex 1 [] in
  let item := match removed with x :: _ => x | [] => None end in
  splice array newIndex 0 [item].

End MoveItem.

End DragDropList.

(** ** [DbListMixin]: programmatic moves *)

Module DbListMixinOps.

Import Js JsArray JsMore DbListMixin.

(** [moveTo(index, tempIndex, tempItems)] up to the call of the
    scroller's own move: the placeholders are spliced in. Without
    placeholders nothing is written; without a backing array the splice
    throws. *)
Definition moveTo (index : Z) (tempIndex : option Z)
           (tempItems : option (list (option Item))) (st : State)
  : Completion :=
  match tempIndex, tempItems with
  | Some tempIndex, Some tempItems =>
      let start := index - tempIndex in
      match _listItems st with
      | None => TypeError st
      | Some items =>
          Normal
            (set_listItems
               (Some (polymer_splice items start (length tempItems)
                                     tempItems)) st)
      end
  | _, _ => Normal st
  end.

End DbListMixinOps.

(** ** JavaScript numbers

    A JavaScript number is an IEEE 754 binary64 value. A finite number is
    held as the rational it denotes, and an arithmetic operation returns
    the exact result rounded to the nearest number of the format, ties
    going to the even significand. Infinities, NaN, the sign of zero and
    overflow are outside of this model: no size or offset of the lists
    comes near them. *)

Module Double.

(** The significand has 53 bits; the last bit of a number weighs at least
    [2 ^ emin]. *)
Definition prec : Z := 53.
Definition emin : Z := -1074.

(** [floor(log2(n / d))] *)
Definition log2_floor (n d : positive) : Z :=
  let k := Z.log2 (Zpos n) - Z.log2 (Zpos d) in
  if 0 <=? k
  then if Zpos d * 2 ^ k <=? Zpos n then k else k - 1
  else if Zpos d <=? Zpos n * 2 ^ (- k) then k else k - 1.

(** The integer nearest to [n / d], the even one of two that are equally
    near. *)
Definition nearest_even (n d : Z) : Z :=
  let f := n / d in
  let r := n mod d in
  match 2 * r ?= d with
  | Lt => f
  | Gt => f + 1
  | Eq => if Z.even f then f else f + 1
  end.

(** [m * 2 ^ e] *)
Definition scale (m e : Z) : Q :=
  if 0 <=? e then inject_Z (m * 2 ^ e) else m # Z.to_pos (2 ^ (- e)).

(** The number nearest to the positive rational [n / d]. *)
Definition round_pos (n d : positive) : Q :=
  let e := Z.max (log2_floor n d - (prec - 1)) emin in
  let m :=
    if 0 <=? e then nearest_even (Zpos n) (Zpos d * 2 ^ e)
    else nearest_even (Zpos n * 2 ^ (- e)) (Zpos d) in
  scale m e.

(** The number nearest to [q]. *)
Definition round (q : Q) : Q :=
  match Qnum q with
  | Z0 => 0%Q
  | Zpos n => round_pos n (Qden q)
  | Zneg n => Qopp (round_pos n (Qden q))
  end.

(** [a + b], [a - b], [a * b] and [a / b] on numbers. *)
Definition add (a b : Q) : Q := round (a + b).
Definition sub (a b : Q) : Q := round (a - b).
Definition mul (a b : Q) : Q := round (a * b).
Definition div (a b : Q) : Q := round (a / b).

End Double.

(** ** [lite-list], later revision, with the arithmetic of the numbers *)

Module LiteListDouble.

Import Js Geometry.
Import LiteList.

(** [__computeVirtualIndex(layout, sampleBbox, per, scroll)].
    [scroll] is [None] when [typeof scroll !== 'number']. *)
Definition __computeVirtualIndex (layout : option string)
           (sampleBbox : option Bbox) (per : Z) (scroll : option Q) : Z :=
  if falsy_string layout || falsyZ per then 0
  else
    match layout, sampleBbox, scroll with
    | Some layout, Some sampleBbox, Some scroll =>
        if falsyQ (height sampleBbox) || falsyQ (width sampleBbox) then 0
        else
          let beginning :=
            if is_vertical layout then top sampleBbox else left sampleBbox in
          let size :=
            if is_vertical layout
            then height sampleBbox else width sampleBbox in
          let section :=
            Qfloor (Qabs (Double.div (Double.sub scroll beginning) size)) in
          section * per
    | _, _, _ => 0
    end.

(** [getOffset(hostSize, sampleSize, position)] *)
Definition getOffset (hostSize sampleSize : Q) (position : Position) : Q :=
  match position with
  | start => 0%Q
  | center =>
      let hostCenter := Double.div hostSize 2 in
      let sampleCenter := Double.div sampleSize 2 in
      Double.sub hostCenter sampleCenter
  | end_ => Double.sub hostSize sampleSize
  end.

(** [__getMarginNum()] *)
Definition __getMarginNum (p : Props) : Q :=
  match _margin p with
  | Percent num =>
      inject_Z (round (Double.mul (_hostSize p) (Double.div num 100)))
  | Px num => num
  end.

(** [container.getBoundingClientRect()[side]]: the box is displaced by the
    translation and seen relative to the scrolled viewport; the browser
    reports the coordinate as the nearest number. *)
Definition getBoundingClientRect_side (scroll : Q) (c : Container) : Q :=
  Double.round
    (base c + match transform c with Some t => t | None => 0 end - scroll)%Q.

(** [entries] numbered by their place in the array. *)
Fixpoint measure_from (scroll : Q) (n : nat) (containers : list Container)
  : list Entry :=
  match containers with
  | [] => []
  | c :: rest =>
      {| rect_side := getBoundingClientRect_side scroll c; target := n |}
        :: measure_from scroll (S n) rest
  end.

(** [__computeSorted(containers, hidden, side)] once its inputs are
    defined. *)
Definition __computeSorted (scroll : Q) (containers : list Container)
  : list Entry :=
  sort_entries (measure_from scroll 0 containers).

(** The values [__reposition] derives before visiting the entries. *)
Definition compute_shift (p : Props) : Shift :=
  let offset := getOffset (_hostSize p) (_sampleSize p) (position p) in
  let sectionIndex :=
    Double.div (inject_Z (_virtualIndex p)) (inject_Z (_containersPer p)) in
  let distance :=
    Double.mul (Qmax 0 (Double.sub sectionIndex 1)) (_sampleSize p) in
  let indexPosition := Double.add distance offset in
  let jump :=
    Double.mul
      (Double.div (inject_Z (_containerCount p))
                  (inject_Z (_containersPer p)))
      (_sampleSize p) in
  let currentShift :=
    Qfloor (Double.div sectionIndex (inject_Z (_containerCount p))) in
  let currentShiftSize := Double.mul (inject_Z currentShift) jump in
  let shiftForward := Double.add currentShiftSize jump in
  let shiftBack := Double.sub currentShiftSize jump in
  let margin := __getMarginNum p in
  let startPosition :=
    match _direction p with
    | forward => Double.sub indexPosition margin
    | reverse => Double.add shiftForward margin
    end in
  {| indexPosition := indexPosition;
     jump := jump;
     currentShiftSize := currentShiftSize;
     shiftForward := shiftForward;
     shiftBack := shiftBack;
     startPosition := startPosition |}.

(** The body of [this._sorted.forEach(entry => ...)] as it acts on the
    entry's target, whose box was measured at [rect]: the container is
    moved, or left as it is. The comparisons of [getPosition] are
    exact. *)
Definition place_container (p : Props) (s : Shift) (rect : Q)
           (target_ : Container) : Container :=
  let previous_ := or_zero (previous target_) in
  let travel := Double.sub (currentShiftSize s) previous_ in
  let placement := Double.add (Double.add rect travel) (_scroll p) in
  match getPosition p s placement with
  | Some position_ =>
      if falsyQ position_ then target_ else __move target_ position_
  | None => target_
  end.

(** [__reposition()], after the awaited frame: the containers as the
    call leaves them. *)
Definition __reposition (p : Props) (sorted : list Entry)
           (containers : list Container) : list Container :=
  match _containerIndex p with
  | None => containers
  | Some _ =>
      if falsyZ (_virtualIndex p) then containers
      else
        fold_left (reposition_entry (place_container p (compute_shift p)))
                  sorted containers
  end.

(** One Reposition as the element performs it: [_sorted] holds the boxes
    measured from the live containers (the call ends by re-assigning
    [_entries], which recomputes [_hidden] and with it [_sorted]). *)
Definition reposition (p : Props) (containers : list Container)
  : list Container :=
  __reposition p (__computeSorted (_scroll p) containers) containers.

End LiteListDouble.

(** ** [lite-list], earlier revision, and [recycled-list], with the
    arithmetic of the numbers *)

Module LiteListEarlyDouble.

Import Js Geometry.

(** [__computeVirtualIndex(layout, sampleBbox, per, scroll)] of
    src/lite-list.js, which lacks the [!per] guard. *)
Definition __computeVirtualIndex (layout : option string)
           (sampleBbox : option Bbox) (per : Z) (scroll : option Q) : Z :=
  if falsy_string layout then 0
  else
    match layout, sampleBbox, scroll with
    | Some layout, Some sampleBbox, Some scroll =>
        if falsyQ (height sampleBbox) || falsyQ (width sampleBbox) then 0
        else
          let beginning :=
            if is_vertical layout then top sampleBbox else left sampleBbox in
          let size :=
            if is_vertical layout
            then height sampleBbox else width sampleBbox in
          let section :=
            Qfloor (Qabs (Double.div (Double.sub scroll beginning) size)) in
          section * per
    | _, _, _ => 0
    end.

End LiteListEarlyDouble.

Module RecycledListDouble.

Import Js Geometry.

(** [__computeVirtualIndex(layout, sampleBbox, scroll)] of
    src/recycled-list.js: one item per line, so the section number is the
    index. *)
Definition __computeVirtualIndex (layout : option string)
           (sampleBbox : option Bbox) (scroll : option Q) : Z :=
  if falsy_string layout then 0
  else
    match layout, sampleBbox, scroll with
    | Some layout, Some sampleBbox, Some scroll =>
        if falsyQ (height sampleBbox) || falsyQ (width sampleBbox) then 0
        else
          let beginning :=
            if is_vertical layout then top sampleBbox else left sampleBbox in
          let dimension :=
            if is_vertical layout
            then height sampleBbox else width sampleBbox in
          Qfloor (Qabs (Double.div (Double.sub scroll beginning) dimension))
    | _, _, _ => 0
    end.

End RecycledListDouble.

(** ** [DbListMixin], later revision: the response callback with the
    observers it triggers *)

Module DbListMixinCascade.

Import Js Geometry JsArray DbListMixin.

(** The [callback] closure of [__updateItems], created for the anchor
    [index] and the cached [direction], from the filtering of the raw
    results up to and including its write to [_listItems], for a response
    that is not stale. *)
Definition callback_splice (index : option Z) (direction : Direction)
           (raw : list Item) (st : State) : State :=
  let validResults := filter has_uid raw in
  let results :=
    match direction with
    | reverse => rev validResults
    | forward => validResults
    end in
  let count := length results in
  let st := assign_resultsCount count st in
  match _listItems st with
  | Some items =>
      let start := splice_start direction index count in
      set_listItems
        (Some (polymer_splice items start count (map Some results))) st
  | None => set_listItems (Some (map Some results)) st
  end.

(** The whole [callback] closure. Polymer applies a property write at
    once: [this._pagination = this._paginationWaiting] recomputes
    [_index] and, when it moved, runs the observer [__updateItems] before
    the next statement of the callback; an exception of the observer ends
    the callback there. *)
Definition callback (index : option Z) (direction : Direction)
           (raw : list Item) (st : State) : Completion :=
  if negb (optZ_eqb index (_index st)) then Normal st
  else
    let st := callback_splice index direction raw st in
    let st := set_busy false st in
    match _paginationWaiting st with
    | Some waiting =>
        match run_observers st (set_pagination (Some waiting) st) with
        | Normal st => Normal (set_paginationWaiting None st)
        | TypeError st => TypeError st
        end
    | None => Normal st
    end.

End DbListMixinCascade.

(** ** [DbListMixin], earlier revision (src/db-list-mixin.js) *)

Module DbListMixinEarly.

Import Js Geometry JsArray DbListMixin.

(** [_min]: [value: 8]. *)
Definition _min : Z := 8.

(** How a call ends: it returns, or it throws; either way with the state
    reached. *)
Inductive Outcome : Type :=
| Returned (st : State)
| Thrown (st : State).

(** [__garbageCollect(index, direction)]. There is no batch size: the
    collection works at the distance [_max] from the anchor. While
    [_max] is still undefined the guard [_max <= _min] is false, every
    number derived from [_max] is NaN and [Array(count)] throws; without
    a backing array reading its length or calling its [splice]
    throws. *)
Definition __garbageCollect (index : option Z) (direction : Direction)
           (st : State) : Outcome :=
  match index, _pagination st with
  | Some index, Some _ =>
      match _max st with
      | None => Thrown st
      | Some max =>
          if max <=? _min then Returned st
          else
            let garbageIndex :=
              match direction with
              | forward => index - max
              | reverse => index + max
              end in
            let totalGarbage :=
              match direction with
              | forward => Some garbageIndex
              | reverse =>
                  option_map (fun items => length items - garbageIndex)
                             (_listItems st)
              end in
            match totalGarbage with
            | None => Thrown st
            | Some totalGarbage =>
                let count := clamp 0 max totalGarbage in
                let clear := fill count (@None Item) in
                match _listItems st with
                | None => Thrown st
                | Some items =>
                    Returned
                      (set_listItems
                         (Some (splice items garbageIndex (length clear)
                                       clear))
                         st)
                end
            end
      end
  | _, _ => Returned st
  end.

(** The [callback] closure of [__updateItems], created for the anchor
    [index] and the cached [direction] ([None] while no pagination is
    stored), up to and including its write to [_listItems]. [current] is
    the value of [this._index] when the response arrives. The results
    are spliced in the order fetched; an undefined [index] makes the
    start 0. *)
Definition callback_splice (index : option Z) (direction : option Direction)
           (current : option Z) (results : list Item) (st : State) : State :=
  if _busy st && negb (optZ_eqb index current) then st
  else
    let validResults := filter has_uid results in
    let st := assign_resultsCount (length validResults) st in
    match _listItems st with
    | Some items =>
        let start :=
          match direction, index with
          | Some reverse, Some index => index - (length validResults - 1)
          | _, Some index => index
          | _, None => 0
          end in
        set_listItems
          (Some (polymer_splice items start (length validResults)
                                (map Some validResults))) st
    | None => set_listItems (Some (map Some validResults)) st
    end.

End DbListMixinEarly.

(** ** States and batches for the scenarios *)

Module Samples.

Import Geometry DbListMixin.

(** The host and the items measure 100px each way. *)
Definition sample_box : Bbox :=
  {| height := 100; left := 0; top := 0; width := 100 |}.

(** The pagination event for direction [d] and index [i]. *)
Definition sample_pagination (d : Direction) (i : Z) : Pagination :=
  {| count := 25; direction := d; index := i;
     itemBbox := sample_box; parentBbox := sample_box; per := 1 |}.

(** Nothing loaded yet, the list at its top and scrolling forward. *)
Definition sample_state : State :=
  {| constraints := Some [userConstraint 0];
     layout := "vertical";
     reverseConstraints := Some [userConstraint 1];
     visible := true;
     _busy := true;
     _endDetected := false;
     _listItems := None;
     _max := Some 25;
     _pagination := Some (sample_pagination forward 0);
     _paginationWaiting := None;
     _ref := Some 0%nat;
     _resultsCount := None;
     _unsubscribe := None;
     effects := [] |}.

(** A batch of [n] valid results. *)
Definition sample_batch (n : nat) : list Item :=
  repeat {| uid := Some "u"%string; doc := Some 1%nat |} n.

(** A finite vertical list of 100 items, 100px each, shown through four
    containers and scrolled to 1000px. *)
Definition sample_props : LiteList.Props :=
  {| LiteList.infinite := false;
     LiteList.position := LiteList.start;
     LiteList._containerCount := 4;
     LiteList._containerIndex := Some (LiteList.__computeContainerIndex 4 10);
     LiteList._containersPer := 1;
     LiteList._direction := forward;
     LiteList._hostSize := 300;
     LiteList._margin := LiteList.Px 0;
     LiteList._maxSize := LiteList.__computeMaxSize false 100 1 100;
     LiteList._sampleSize := 100;
     LiteList._scroll := 1000;
     LiteList._virtualIndex := 10 |}.

(** The four containers as stamped, none moved yet. *)
Definition sample_containers : list LiteList.Container :=
  [ LiteList.mkContainer 0 0 None None;
    LiteList.mkContainer 1 100 None None;
    LiteList.mkContainer 2 200 None None;
    LiteList.mkContainer 3 300 None None ].





End Samples.

(** * Properties *)

(** ** Facts about the array primitives *)

Module JsArrayFacts.

Import JsArray.

Section Facts.

Context {A : Type}.

Lemma length_nonneg (l : list A) : 0 <= length l.
Proof. unfold length. lia. Qed.

Lemma length_app (l1 l2 : list A) :
  length (l1 ++ l2) = length l1 + length l2.
Proof. unfold length. rewrite List.length_app. lia. Qed.

Lemma rel_index_inside (len k : Z) :
  0 <= k <= len -> rel_index len k = k.
Proof.
  intros H. unfold rel_index.
  destruct (Z.ltb_spec k 0); lia.
Qed.

Lemma rel_index_beyond (len k : Z) :
  0 <= len <= k -> rel_index len k = len.
Proof.
  intros H. unfold rel_index.
  destruct (Z.ltb_spec k 0); lia.
Qed.

(** A slice between two positions of the array is the segment between
    them. *)
Lemma slice_inside (l : list A) (a b : Z) :
  0 <= a <= length l -> 0 <= b <= length l ->
  slice l a b = firstn (Z.to_nat (b - a)) (skipn (Z.to_nat a) l).
Proof.
  intros Ha Hb. unfold slice.
  rewrite !rel_index_inside by assumption. reflexivity.
Qed.

Lemma length_slice (l : list A) (a b : Z) :
  0 <= a -> a <= b -> b <= length l ->
  length (slice l a b) = b - a.
Proof.
  intros Ha Hab Hb.
  rewrite slice_inside by lia.
  unfold length in *.
  rewrite List.length_firstn, List.length_skipn. lia.
Qed.

Lemma length_slice_from (l : list A) (a : Z) :
  0 <= a <= length l ->
  length (slice_from l a) = length l - a.
Proof.
  intros Ha. unfold slice_from. apply length_slice; lia.
Qed.

(** A slice that asks for more than the array holds stops at its end. *)
Lemma slice_clamped (l : list A) (a b : Z) :
  0 <= a <= length l -> length l <= b ->
  slice l a b = slice_from l a.
Proof.
  intros Ha Hb. unfold slice_from, slice.
  rewrite (rel_index_beyond (length l) b) by lia.
  rewrite (rel_index_inside (length l) (length l)) by lia.
  reflexivity.
Qed.

End Facts.

End JsArrayFacts.

(** ** Data Window *)

Module DataWindowFacts.

Import JsArray JsArrayFacts DataWindow.

Section Facts.

Context {A : Type}.

(** Outside of [infinite] mode the window is the plain slice. *)
Lemma computeData_finite (items : list A) (count start : Z) :
  __computeData false (Some items) count (Some start)
  = Some (slice items start (start + count)).
Proof. reflexivity. Qed.

(** In [infinite] mode a window that runs past the end wraps around. *)
Lemma computeData_wrapped (items : list A) (count start : Z) :
  length items < start + count ->
  __computeData true (Some items) count (Some start)
  = Some (slice_from items start
          ++ slice items 0 (start + count - length items)).
Proof.
  intros H. unfold __computeData. cbn [andb].
  destruct (Z.ltb_spec (length items) (start + count)); [reflexivity | lia].
Qed.

(** In [infinite] mode a window that fits is the plain slice. *)
Lemma computeData_infinite_fits (items : list A) (count start : Z) :
  start + count <= length items ->
  __computeData true (Some items) count (Some start)
  = Some (slice items start (start + count)).
Proof.
  intros H. unfold __computeData. cbn [andb].
  destruct (Z.ltb_spec (length items) (start + count)); [lia | reflexivity].
Qed.

(** C1 (as amended). For an items array of length [L], a container count
    [P >= 0] and a start index [s] with [0 <= s <= L]: outside of
    [infinite] mode [__computeData] returns [items.slice(s, s + P)],
    which holds exactly [P] items when [s + P <= L]; in [infinite] mode
    with [s + P > L] it returns the tail slice [items.slice(s)] followed
    by the head slice [items.slice(0, s + P - L)], and the total length
    is exactly [P] provided the head slice does not ask for more than
    the array holds, [s + P - L <= L] (which is the case whenever
    [P <= L]). *)
Theorem computeData_window (items : list A) (P s : Z) :
  0 <= s <= length items ->
  0 <= P ->
  __computeData false (Some items) P (Some s)
    = Some (slice items s (s + P))
  /\ (s + P <= length items -> length (slice items s (s + P)) = P)
  /\ (length items < s + P ->
      __computeData true (Some items) P (Some s)
        = Some (slice_from items s
                ++ slice items 0 (s + P - length items))
      /\ (s + P - length items <= length items ->
          length (slice_from items s
                  ++ slice items 0 (s + P - length items)) = P)).
Proof.
  intros Hs HP. split; [apply computeData_finite | split].
  - intros Hfit. rewrite length_slice by lia. lia.
  - intros Hover. split; [apply computeData_wrapped; assumption |].
    intros Hhead.
    rewrite length_app, length_slice_from, length_slice by lia. lia.
Qed.

End Facts.

(** The pool size of the spec's statement, [P <= L], is enough for the
    wrapped window to hold [P] items. *)
Lemma computeData_window_pool {A : Type} (items : list A) (P s : Z) :
  0 <= s <= length items -> 0 <= P <= length items ->
  length items < s + P ->
  exists w,
    __computeData true (Some items) P (Some s) = Some w /\ length w = P.
Proof.
  intros Hs HP Hover.
  eexists. split; [apply computeData_wrapped; assumption |].
  rewrite length_app, length_slice_from, length_slice by lia. lia.
Qed.

(** Witness of C1: six containers over ten items, starting at 7. *)
Lemma computeData_window_witness :
  let items := [0; 1; 2; 3; 4; 5; 6; 7; 8; 9]%nat in
  0 <= 7 <= length items /\ 0 <= 6 /\
  __computeData true (Some items) 6 (Some 7)
  = Some [7; 8; 9; 0; 1; 2]%nat.
Proof.
  intro items.
  assert (Hs : 0 <= 7 <= length items) by (vm_compute; split; discriminate).
  assert (HP : 0 <= 6) by discriminate.
  split; [exact Hs | split; [exact HP |]].
  destruct (computeData_window items 6 7 Hs HP) as (_ & _ & H).
  destruct H as [Heq _]; [reflexivity |].
  rewrite Heq. reflexivity.
Defined.

(** The scenario of the design document: of 100 items, six containers
    from the virtual start 6 show the items 6 to 11. *)
Example computeData_scenario :
  __computeData false (Some (seq 0 100)) 6 (Some 6)
  = Some [6; 7; 8; 9; 10; 11]%nat.
Proof. reflexivity. Qed.

(** C1 as stated fails without a bound on the container count: over two
    items, five containers in [infinite] mode get four items, not five. *)
Lemma computeData_wrap_short :
  let items := [0; 1]%nat in
  0 <= 0 <= length items /\
  exists w,
    __computeData true (Some items) 5 (Some 0) = Some w
    /\ w = [0; 1; 0; 1]%nat
    /\ length w <> 5.
Proof.
  split; [vm_compute; split; discriminate |].
  eexists. split; [reflexivity | split; [reflexivity | discriminate]].
Qed.

End DataWindowFacts.

(** ** Virtual Index Calculator *)

Module VirtualIndexFacts.

Import Js Geometry.

Local Open Scope Q_scope.

Lemma falsyQ_false_iff (x : Q) : falsyQ x = false <-> ~ x == 0.
Proof.
  unfold falsyQ. split.
  - apply Qeq_bool_neq.
  - intros H. destruct (Qeq_bool x 0) eqn:E; [| reflexivity].
    apply Qeq_bool_eq in E. contradiction.
Qed.

Lemma falsyQ_true_iff (x : Q) : falsyQ x = true <-> x == 0.
Proof. unfold falsyQ. apply Qeq_bool_iff. Qed.

Lemma falsyQ_pos (x : Q) : 0 < x -> falsyQ x = false.
Proof.
  intros H. apply falsyQ_false_iff. intros E.
  rewrite E in H. exact (Qlt_irrefl 0 H).
Qed.

Lemma falsy_string_nonempty (s : string) :
  s <> EmptyString -> falsy_string (Some s) = false.
Proof. destruct s; [contradiction | reflexivity]. Qed.

(** [Math.abs(x / size)] is [|x| / size] for a positive size. *)
Lemma Qabs_div_pos (x size : Q) :
  0 < size -> Qabs (x / size) == Qabs x / size.
Proof.
  intros H. unfold Qdiv.
  rewrite Qabs_Qmult, Qabs_Qinv, (Qabs_pos size) by (apply Qlt_le_weak, H).
  reflexivity.
Qed.

(** Past the leading edge the section number grows with the offset. *)
Lemma section_monotone (beginning size s1 s2 : Q) :
  beginning <= s1 -> s1 <= s2 ->
  (Qfloor (Qabs ((s1 - beginning) / size))
   <= Qfloor (Qabs ((s2 - beginning) / size)))%Z.
Proof.
  intros H1 H12. apply Qfloor_resp_le.
  unfold Qdiv. rewrite !Qabs_Qmult.
  apply Qmult_le_compat_r; [| apply Qabs_nonneg].
  assert (0 <= s1 - beginning) as P1
      by (unfold Qminus; rewrite <- Qle_minus_iff; exact H1).
  assert (0 <= s2 - beginning) as P2
      by (unfold Qminus; rewrite <- Qle_minus_iff;
          apply Qle_trans with s1; assumption).
  rewrite !Qabs_pos by assumption.
  unfold Qminus. apply Qplus_le_compat; [assumption | apply Qle_refl].
Qed.

(** The result in the measured case, for either revision of
    [lite-list]. *)
Lemma computeVirtualIndex_measured (layout : string) (b : Bbox) (per : Z)
      (scroll : Q) :
  layout <> EmptyString ->
  falsyQ (height b) = false -> falsyQ (width b) = false ->
  LiteList.__computeVirtualIndex (Some layout) (Some b) per (Some scroll)
  = (Qfloor (Qabs ((scroll - leading_edge layout b) / extent layout b))
     * per)%Z.
Proof.
  intros Hl Hh Hw. unfold LiteList.__computeVirtualIndex.
  rewrite falsy_string_nonempty by assumption.
  rewrite Hh, Hw. cbn [orb].
  unfold falsyZ. destruct (Z.eqb_spec per 0) as [-> | _].
  - rewrite Z.mul_0_r. reflexivity.
  - reflexivity.
Qed.

(** The earlier revision lacks the [!per] guard and computes the same
    index. *)
Lemma computeVirtualIndex_early_same (layout : option string)
      (b : option Bbox) (per : Z) (scroll : option Q) :
  LiteListEarly.__computeVirtualIndex layout b per scroll
  = LiteList.__computeVirtualIndex layout b per scroll.
Proof.
  unfold LiteListEarly.__computeVirtualIndex, LiteList.__computeVirtualIndex.
  destruct (falsy_string layout); [reflexivity |]. cbn [orb].
  unfold falsyZ. destruct (Z.eqb_spec per 0) as [-> | _]; [| reflexivity].
  destruct layout, b, scroll; try reflexivity.
  destruct (falsyQ _ || falsyQ _)%bool; [reflexivity |].
  apply Z.mul_0_r.
Qed.

(** [recycled-list] lays out one item per line. *)
Lemma computeVirtualIndex_recycled (layout : option string)
      (b : option Bbox) (scroll : option Q) :
  RecycledList.__computeVirtualIndex layout b scroll
  = LiteList.__computeVirtualIndex layout b 1 scroll.
Proof.
  unfold RecycledList.__computeVirtualIndex, LiteList.__computeVirtualIndex.
  destruct (falsy_string layout); [reflexivity |]. cbn [orb falsyZ Z.eqb].
  destruct layout, b, scroll; try reflexivity.
  destruct (falsyQ _ || falsyQ _)%bool; [reflexivity |].
  symmetry. apply Z.mul_1_r.
Qed.

(** C6 (as amended). For a fixed sample box, layout and items-per-line
    count [per >= 0], the virtual index does not decrease while the scroll
    offset grows at or past the item's leading edge: for
    [itemStart <= s1 <= s2], [virtualIndex(s1) <= virtualIndex(s2)]. *)
Theorem computeVirtualIndex_monotone (layout : string) (b : Bbox) (per : Z)
        (s1 s2 : Q) :
  (0 <= per)%Z ->
  leading_edge layout b <= s1 ->
  s1 <= s2 ->
  (LiteList.__computeVirtualIndex (Some layout) (Some b) per (Some s1)
   <= LiteList.__computeVirtualIndex (Some layout) (Some b) per (Some s2))%Z.
Proof.
  intros Hper H1 H12. unfold LiteList.__computeVirtualIndex.
  destruct (falsy_string (Some layout) || falsyZ per)%bool;
    [apply Z.le_refl |].
  destruct (falsyQ (height b) || falsyQ (width b))%bool; [apply Z.le_refl |].
  apply Z.mul_le_mono_nonneg_r; [assumption |].
  apply section_monotone; assumption.
Qed.

(** Witness of C6. *)
Lemma computeVirtualIndex_monotone_witness :
  let b := {| height := 100; left := 0; top := 300; width := 100 |} in
  (0 <= 2)%Z /\ leading_edge "vertical" b <= 350 /\ 350 <= 520 /\
  (LiteList.__computeVirtualIndex (Some "vertical"%string) (Some b) 2
                                  (Some 350%Q)
   <= LiteList.__computeVirtualIndex (Some "vertical"%string) (Some b) 2
                                     (Some 520%Q))%Z.
Proof.
  intro b.
  assert (Hp : (0 <= 2)%Z) by discriminate.
  assert (H1 : leading_edge "vertical" b <= 350) by discriminate.
  assert (H2 : 350 <= 520) by discriminate.
  split; [exact Hp | split; [exact H1 | split; [exact H2 |]]].
  exact (computeVirtualIndex_monotone "vertical" b 2 350 520 Hp H1 H2).
Defined.

(** C6 as stated fails before the leading edge: with the sample box
    measured 300px down the page, scrolling from 0 to 100 takes the index
    from 3 down to 2. *)
Lemma computeVirtualIndex_not_monotone :
  let b := {| height := 100; left := 0; top := 300; width := 100 |} in
  let vi := fun s =>
    LiteList.__computeVirtualIndex (Some "vertical"%string) (Some b) 1
                                   (Some s) in
  0 <= 100 /\ vi 0 = 3%Z /\ vi 100 = 2%Z /\ ~ (vi 0%Q <= vi 100%Q)%Z.
Proof.
  cbv zeta. split; [discriminate |].
  split; [reflexivity | split; [reflexivity |]].
  vm_compute. intros H. apply H. reflexivity.
Qed.

End VirtualIndexFacts.

(** ** Pagination and garbage collection *)

Module DbListFacts.

Import Js Geometry JsArray JsArrayFacts DbListMixin Samples.

(** *** Splicing *)

Section Splice.

Context {A : Type}.

(** A splice replaces the [deleteCount] elements from [start] on (fewer
    when the array ends before) by the new ones; a [start] past the end
    appends them. *)
Lemma splice_inside (l : list A) (start deleteCount : Z) (ins : list A) :
  0 <= start -> 0 <= deleteCount ->
  splice l start deleteCount ins
  = firstn (Z.to_nat start) l ++ ins
    ++ skipn (Z.to_nat (start + deleteCount)) l.
Proof.
  intros Hs Hd. unfold splice.
  pose proof (length_nonneg l) as Hl.
  destruct (Z.le_gt_cases start (length l)) as [Hin | Hout].
  - rewrite rel_index_inside by lia.
    do 2 f_equal.
    destruct (Z.le_gt_cases deleteCount (length l - start)) as [Hle | Hgt].
    + rewrite Z.max_l, Z.min_l by lia. reflexivity.
    + rewrite Z.max_l, Z.min_r by lia.
      replace (start + (length l - start)) with (length l) by lia.
      unfold length in *.
      rewrite !skipn_all2; [reflexivity | lia | lia].
  - rewrite rel_index_beyond by lia.
    rewrite Z.max_l, Z.min_r by lia.
    unfold length in *.
    rewrite !firstn_all2 by lia.
    rewrite !skipn_all2 by lia. reflexivity.
Qed.

Lemma polymer_splice_nonneg (l : list A) (start deleteCount : Z)
      (ins : list A) :
  0 <= start ->
  polymer_splice l start deleteCount ins = splice l start deleteCount ins.
Proof.
  intros H. unfold polymer_splice.
  destruct (Z.ltb_spec start 0); [lia | reflexivity].
Qed.

(** Replacing a segment that lies inside the array by as many elements
    keeps the length. *)
Lemma splice_same_length (l : list A) (start dc : Z) (ins : list A) :
  0 <= start -> length ins = dc -> start + dc <= length l ->
  List.length (splice l start dc ins) = List.length l.
Proof.
  intros Hs Hi He. pose proof (length_nonneg ins).
  rewrite splice_inside by lia.
  unfold length in *.
  rewrite !List.length_app, List.length_firstn, List.length_skipn. lia.
Qed.

(** Elements in front of the replaced segment stay. *)
Lemma splice_before (l : list A) (start dc : Z) (ins : list A) (k : nat) :
  0 <= start -> length ins = dc -> start + dc <= length l ->
  Z.of_nat k < start ->
  nth_error (splice l start dc ins) k = nth_error l k.
Proof.
  intros Hs Hi He Hk. pose proof (length_nonneg ins).
  rewrite splice_inside by lia.
  unfold length in *.
  rewrite nth_error_app1 by (rewrite List.length_firstn; lia).
  rewrite nth_error_firstn.
  destruct (Nat.ltb_spec k (Z.to_nat start)); [reflexivity | lia].
Qed.

(** Elements behind the replaced segment stay. *)
Lemma splice_after (l : list A) (start dc : Z) (ins : list A) (k : nat) :
  0 <= start -> length ins = dc -> start + dc <= length l ->
  start + dc <= Z.of_nat k ->
  nth_error (splice l start dc ins) k = nth_error l k.
Proof.
  intros Hs Hi He Hk. pose proof (length_nonneg ins).
  rewrite splice_inside by lia.
  unfold length in *.
  rewrite nth_error_app2 by (rewrite List.length_firstn; lia).
  rewrite nth_error_app2 by (rewrite List.length_firstn; lia).
  rewrite nth_error_skipn. f_equal.
  rewrite List.length_firstn. lia.
Qed.

(** The replaced segment holds the new elements. *)
Lemma splice_segment (l : list A) (start deleteCount : Z) (ins : list A)
      (j : nat) :
  0 <= start <= length l -> 0 <= deleteCount ->
  nth_error (splice l start deleteCount ins) (Z.to_nat start + j)
  = match nth_error ins j with
    | Some x => Some x
    | None =>
        nth_error (skipn (Z.to_nat (start + deleteCount)) l)
                  (j - List.length ins)
    end.
Proof.
  intros Hs Hd. rewrite splice_inside by lia.
  unfold length in *.
  rewrite nth_error_app2 by (rewrite List.length_firstn; lia).
  replace (Z.to_nat start + j
           - List.length (firstn (Z.to_nat start) l))%nat with j
    by (rewrite List.length_firstn; lia).
  destruct (nth_error ins j) eqn:E.
  - rewrite nth_error_app1; [assumption |].
    apply nth_error_Some. congruence.
  - apply nth_error_None in E.
    rewrite nth_error_app2 by assumption. reflexivity.
Qed.

End Splice.

Lemma length_fill {A : Type} (count : Z) (v : A) :
  0 <= count -> length (fill count v) = count.
Proof.
  intros H. unfold length, fill. rewrite repeat_length. lia.
Qed.

(** *** Garbage collection *)

Lemma set_listItems_same (st : State) :
  set_listItems (_listItems st) st = st.
Proof. destruct st; reflexivity. Qed.

Lemma clamp_range (hi v : Z) : 0 <= hi -> 0 <= clamp 0 hi v <= hi.
Proof. unfold clamp. lia. Qed.

(** The later revision over an existing array: [__garbageCollect] ends
    normally and leaves an array of the same length in which every
    element either holds what it held or is [undefined], and in which
    every element at an index [k] with [i - 2b <= k < i + 2b] holds what
    it held. *)
Lemma garbageCollect_window_later (index : option Z)
        (direction : Direction) (batchSize : Z) (st : State)
        (items : list (option Item)) :
  _listItems st = Some items ->
  exists items',
    __garbageCollect index direction batchSize st
      = Normal (set_listItems (Some items') st)
    /\ List.length items' = List.length items
    /\ (forall k,
          nth_error items' k = nth_error items k
          \/ nth_error items' k = Some None)
    /\ (forall i k,
          index = Some i ->
          i - 2 * batchSize <= Z.of_nat k < i + 2 * batchSize ->
          nth_error items' k = nth_error items k).
Proof.
  intros Hitems.
  assert (Hnoop :
            exists items',
              Normal st = Normal (set_listItems (Some items') st)
              /\ List.length items' = List.length items
              /\ (forall k,
                    nth_error items' k = nth_error items k
                    \/ nth_error items' k = Some None)
              /\ (forall i k,
                    index = Some i ->
                    i - 2 * batchSize <= Z.of_nat k < i + 2 * batchSize ->
                    nth_error items' k = nth_error items k)).
  { exists items. rewrite <- Hitems, set_listItems_same. auto. }
  unfold __garbageCollect.
  destruct index as [i |]; [| exact Hnoop].
  destruct (_pagination st); [| exact Hnoop].
  destruct (Z.leb_spec batchSize _min) as [| Hb]; [exact Hnoop |].
  unfold _min in Hb.
  rewrite Hitems. cbn [option_map].
  set (garbageIndex :=
         match direction with
         | forward => i - batchSize * 2
         | reverse => i + batchSize * 2
         end).
  set (totalGarbage :=
         match direction with
         | forward => garbageIndex
         | reverse => length items - garbageIndex
         end).
  replace (match direction with
           | forward => Some garbageIndex
           | reverse => Some (length items - garbageIndex)
           end) with (Some totalGarbage)
    by (destruct direction; reflexivity).
  set (count := clamp 0 batchSize totalGarbage).
  set (start :=
         match direction with
         | forward => garbageIndex - count
         | reverse => garbageIndex
         end).
  destruct (Z.ltb_spec start 0) as [| Hstart]; [exact Hnoop |].
  destruct (Z.ltb_spec (length items) (start + count)) as [| Hend];
    [exact Hnoop |].
  destruct (Z.eqb_spec count 0) as [| Hcount]; [exact Hnoop |].
  cbn [orb].
  assert (Hrange : 0 <= count <= batchSize)
    by (apply clamp_range; lia).
  assert (Hfill : length (fill count (@None Item)) = count)
    by (apply length_fill; lia).
  eexists. split; [reflexivity |].
  split; [apply splice_same_length; assumption |].
  split.
  - intros k.
    destruct (Z.lt_ge_cases (Z.of_nat k) start) as [Hlt | Hge].
    { left. apply splice_before; assumption. }
    destruct (Z.le_gt_cases (start + count) (Z.of_nat k)) as [Hle | Hgt].
    { left. apply splice_after; assumption. }
    right.
    replace k with (Z.to_nat start + (k - Z.to_nat start))%nat by lia.
    rewrite splice_segment by lia.
    unfold fill. rewrite nth_error_repeat by lia. reflexivity.
  - intros i' k Hi Hk. injection Hi as <-.
    destruct direction; subst start garbageIndex.
    + apply splice_after; try assumption. lia.
    + apply splice_before; try assumption. lia.
Qed.

(** Without a backing array nothing is written, however the call ends. *)
Lemma garbageCollect_no_array (index : option Z) (direction : Direction)
      (batchSize : Z) (st : State) :
  _listItems st = None ->
  state_of (__garbageCollect index direction batchSize st) = st.
Proof.
  intros Hnone. unfold __garbageCollect.
  destruct index; [| reflexivity].
  destruct (_pagination st); [| reflexivity].
  destruct (batchSize <=? _min); [reflexivity |].
  rewrite Hnone.
  destruct direction; cbn [option_map]; [| reflexivity].
  destruct (_ <? 0); reflexivity.
Qed.

(** *** End detection *)

Lemma optZ_eqb_refl (a : option Z) : optZ_eqb a a = true.
Proof. destruct a; [apply Z.eqb_refl | reflexivity]. Qed.

Lemma optZ_eqb_eq (a b : option Z) : optZ_eqb a b = true <-> a = b.
Proof.
  destruct a, b; cbn; split; intros H;
    try discriminate; try reflexivity.
  - apply Z.eqb_eq in H. congruence.
  - injection H as ->. apply Z.eqb_refl.
Qed.

(** What a run of the observer leaves in [_endDetected]. *)
Lemma resultsCountChanged_endDetected (newCount : Z) (oldCount : option Z)
      (st : State) :
  _endDetected (__resultsCountChanged newCount oldCount st)
  = (match oldCount with Some o => newCount <? o | None => false end
     && paginating_forward st)%bool.
Proof.
  unfold __resultsCountChanged.
  destruct (_ && _)%bool; reflexivity.
Qed.

Lemma length_rev {A : Type} (l : list A) : length (rev l) = length l.
Proof. unfold length. rewrite List.length_rev. reflexivity. Qed.

(** A response that is not stale records its count of valid results; the
    rest of the callback leaves the count and the flag alone. *)
Lemma callback_counts (index : option Z) (direction : Direction)
      (raw : list Item) (st : State) :
  optZ_eqb index (_index st) = true ->
  let st' := callback index direction raw st in
  let counted := assign_resultsCount (length (filter has_uid raw)) st in
  _endDetected st' = _endDetected counted
  /\ _resultsCount st' = _resultsCount counted.
Proof.
  intros Hfresh. unfold callback. rewrite Hfresh. cbn [negb].
  replace (length match direction with
                  | forward => filter has_uid raw
                  | reverse => rev (filter has_uid raw)
                  end)
    with (length (filter has_uid raw))
    by (destruct direction; [reflexivity | symmetry; apply length_rev]).
  set (counted := assign_resultsCount _ st).
  destruct (_listItems counted); cbn;
    destruct (_paginationWaiting counted); cbn; split; reflexivity.
Qed.

(** A stale response is dropped. *)
Lemma callback_stale (index : option Z) (direction : Direction)
      (raw : list Item) (st : State) :
  optZ_eqb index (_index st) = false ->
  callback index direction raw st = st.
Proof. intros H. unfold callback. rewrite H. reflexivity. Qed.

(** What assigning a count leaves in [_endDetected]. *)
Lemma assign_resultsCount_endDetected (count : Z) (st : State) :
  _endDetected (assign_resultsCount count st)
  = match _resultsCount st with
    | Some old =>
        if old =? count then _endDetected st
        else ((count <? old) && paginating_forward st)%bool
    | None => false
    end.
Proof.
  unfold assign_resultsCount.
  destruct (_resultsCount st) as [old |] eqn:E; cbn [optZ_eqb].
  - destruct (old =? count); [reflexivity |].
    rewrite resultsCountChanged_endDetected. reflexivity.
  - rewrite resultsCountChanged_endDetected. reflexivity.
Qed.

(** C3 (as amended). When a fetch resolves (its response not being
    stale) with [n] valid results: [_endDetected] becomes true only if
    the pagination direction is forward and [n] is strictly smaller than
    the count of the previous fetch, whichever direction that fetch had;
    it is set in that case; it is cleared when [n] is larger than the
    previous count, when [n] differs from it while the direction is not
    forward, and on the first fetch; a fetch that returns the same count
    as the previous one leaves the flag as it was. *)
Theorem endDetected_transitions (index : option Z) (dir : Direction)
        (raw : list Item) (st : State) :
  optZ_eqb index (_index st) = true ->
  let n := length (filter has_uid raw) in
  let st' := callback index dir raw st in
  _resultsCount st' = Some n
  /\ (_endDetected st = false -> _endDetected st' = true ->
      paginating_forward st = true
      /\ exists old, _resultsCount st = Some old /\ n < old)
  /\ (forall old,
        _resultsCount st = Some old -> n < old ->
        paginating_forward st = true -> _endDetected st' = true)
  /\ (forall old,
        _resultsCount st = Some old -> old < n -> _endDetected st' = false)
  /\ (_resultsCount st <> Some n -> paginating_forward st = false ->
      _endDetected st' = false)
  /\ (_resultsCount st = None -> _endDetected st' = false)
  /\ (_resultsCount st = Some n -> _endDetected st' = _endDetected st).
Proof.
  intros Hfresh n st'.
  destruct (callback_counts index dir raw st Hfresh) as [Hend Hcount].
  fold n in Hend, Hcount. fold st' in Hend, Hcount.
  rewrite assign_resultsCount_endDetected in Hend.
  split.
  { rewrite Hcount. unfold assign_resultsCount.
    destruct (optZ_eqb (_resultsCount st) (Some n)) eqn:E.
    - apply optZ_eqb_eq. assumption.
    - unfold __resultsCountChanged.
      destruct (_ && _)%bool; reflexivity. }
  rewrite Hend. clear Hend Hcount.
  destruct (_resultsCount st) as [old |].
  - destruct (Z.eqb_spec old n) as [-> | Hne].
    + repeat split.
      * congruence.
      * exists n. split; [reflexivity |]. congruence.
      * intros old' [= <-] Hlt. lia.
      * intros old' [= <-] Hlt. lia.
      * intros Hc. congruence.
      * discriminate.
    + destruct (Z.ltb_spec n old) as [Hlt | Hge]; cbn [andb].
      * repeat split; try discriminate.
        -- assumption.
        -- exists old. split; [reflexivity | assumption].
        -- intros old' [= <-] _ Hf. exact Hf.
        -- intros old' [= <-] Hlt'. lia.
        -- intros _ Hf. exact Hf.
        -- intros [= E]. contradiction.
      * repeat split; try discriminate; try reflexivity.
        -- intros old' [= <-] Hlt. lia.
        -- intros [= E]. contradiction.
  - repeat split; try discriminate; try reflexivity.
Qed.

(** Witness of C3, the scenario of the design document: forward fetches
    returning 20 and then 12 results. *)
Lemma endDetected_transitions_witness :
  let st1 := callback (Some 0) forward (sample_batch 20) sample_state in
  let st2 := callback (Some 0) forward (sample_batch 12) st1 in
  optZ_eqb (Some 0) (_index st1) = true /\
  _resultsCount st2 = Some 12 /\ _endDetected st2 = true.
Proof.
  intros st1 st2.
  assert (Hfresh : optZ_eqb (Some 0) (_index st1) = true) by reflexivity.
  split; [exact Hfresh |].
  destruct (endDetected_transitions (Some 0) forward (sample_batch 12) st1
                                    Hfresh)
    as (Hcount & _ & Hset & _).
  split; [exact Hcount |].
  apply (Hset 20); reflexivity.
Defined.

(** C3 as stated fails where it compares with the previous forward fetch:
    a forward fetch of 10 results, a reverse fetch of 20 and a forward
    fetch of 15. The last count is not smaller than that of the previous
    forward fetch, and the flag is set all the same, 15 being smaller than
    the 20 of the fetch just before. *)
Lemma endDetected_not_cleared :
  let st1 := callback (Some 0) forward (sample_batch 10) sample_state in
  let st1r := set_pagination (Some (sample_pagination reverse 40)) st1 in
  let st2 := callback (_index st1r) reverse (sample_batch 20) st1r in
  let st2f := set_pagination (Some (sample_pagination forward 40)) st2 in
  let st3 := callback (_index st2f) forward (sample_batch 15) st2f in
  (_resultsCount st1 = Some 10 /\ paginating_forward sample_state = true)
  /\ (_resultsCount st2 = Some 20 /\ paginating_forward st1r = false)
  /\ (_resultsCount st3 = Some 15 /\ paginating_forward st2f = true)
  /\ ~ 15 < 10
  /\ _endDetected st3 = true.
Proof.
  cbv zeta. repeat split; try reflexivity. discriminate.
Qed.

(** A forward fetch that returns the same count as the one before does
    not run the observer: the flag set by 20 then 12 results stays set
    after 12 more. *)
Example endDetected_same_count :
  let st1 := callback (Some 0) forward (sample_batch 20) sample_state in
  let st2 := callback (Some 0) forward (sample_batch 12) st1 in
  let st3 := callback (Some 0) forward (sample_batch 12) st2 in
  _endDetected st2 = true /\ _endDetected st3 = true.
Proof. split; reflexivity. Qed.

(** *** Splice-in of a resolved fetch *)

Lemma assign_resultsCount_listItems (count : Z) (st : State) :
  _listItems (assign_resultsCount count st) = _listItems st.
Proof.
  unfold assign_resultsCount.
  destruct (optZ_eqb _ _); [reflexivity |].
  unfold __resultsCountChanged.
  destruct (_ && _)%bool; reflexivity.
Qed.

(** The array a response that is not stale leaves behind. *)
Lemma callback_listItems (index : option Z) (dir : Direction)
      (raw : list Item) (st : State) (items : list (option Item)) :
  optZ_eqb index (_index st) = true ->
  _listItems st = Some items ->
  let results :=
    match dir with
    | forward => filter has_uid raw
    | reverse => rev (filter has_uid raw)
    end in
  _listItems (callback index dir raw st)
  = Some (polymer_splice items
            (splice_start dir index (length results)) (length results)
            (map Some results)).
Proof.
  intros Hfresh Hitems results. unfold callback.
  rewrite Hfresh. cbn [negb]. fold results.
  set (counted := assign_resultsCount (length results) st).
  assert (Hc : _listItems counted = Some items)
    by (unfold counted; rewrite assign_resultsCount_listItems; assumption).
  rewrite Hc.
  destruct (_paginationWaiting _); reflexivity.
Qed.

Lemma length_map {A B : Type} (f : A -> B) (l : list A) :
  length (map f l) = length l.
Proof. unfold length. rewrite List.length_map. reflexivity. Qed.

(** *** Suppression at the end of the data *)

(** C7. While [_endDetected] is set, a pagination request whose index is
    at or beyond the index of the stored pagination is dropped by
    [__paginationChangedHandler]: the state, the stored and the waiting
    pagination included, is what it was, the subscription observer does
    not run and no effect (no unsubscription, no new subscription) is
    performed. *)
Theorem paginationChanged_suppressed (pagination current : Pagination)
        (st : State) :
  _endDetected st = true ->
  _pagination st = Some current ->
  index current <= index pagination ->
  __paginationChangedHandler pagination st = st
  /\ pagination_changed pagination st = Normal st.
Proof.
  intros Hend Hcur Hge.
  assert (Hh : __paginationChangedHandler pagination st = st).
  { unfold __paginationChangedHandler. rewrite Hend, Hcur. cbn [andb].
    destruct (Z.leb_spec (index current) (index pagination));
      [reflexivity | lia]. }
  split; [exact Hh |].
  unfold pagination_changed, run_observers.
  rewrite Hh, optZ_eqb_refl. reflexivity.
Qed.

(** Witness of C7, the scenario of the design document: after 20 and
    then 12 results the request for a higher index is dropped. *)
Lemma paginationChanged_suppressed_witness :
  let st1 := callback (Some 0) forward (sample_batch 20) sample_state in
  let st2 := callback (Some 0) forward (sample_batch 12) st1 in
  let request := sample_pagination forward 13 in
  _endDetected st2 = true /\
  _pagination st2 = Some (sample_pagination forward 0) /\
  index (sample_pagination forward 0) <= index request /\
  pagination_changed request st2 = Normal st2.
Proof.
  intros st1 st2 request.
  assert (H1 : _endDetected st2 = true) by reflexivity.
  assert (H2 : _pagination st2 = Some (sample_pagination forward 0))
    by reflexivity.
  assert (H3 : index (sample_pagination forward 0) <= index request)
    by discriminate.
  split; [exact H1 | split; [exact H2 | split; [exact H3 |]]].
  exact (proj2 (paginationChanged_suppressed request _ st2 H1 H2 H3)).
Defined.

(** *** Fetch errors *)

Lemma includes_nonempty (hay : string) :
  includes "document does not exist" hay = true ->
  falsy_string (Some hay) = false.
Proof. destruct hay; [discriminate | reflexivity]. Qed.

(** C9. For every error handed to [errorCallback]: when its message
    contains 'document does not exist' the state is left as it was, the
    backing array included; for every other error the backing array
    becomes [undefined] and the error is reported on the console, which
    is the only effect performed: nothing is subscribed anew and every
    other property keeps its value. *)
Theorem errorCallback_cases (error : Error) (st : State) :
  (forall m,
      message error = Some m ->
      includes "document does not exist" m = true ->
      errorCallback error st = st)
  /\ ((message error = None
       \/ exists m,
           message error = Some m
           /\ includes "document does not exist" m = false) ->
      errorCallback error st
      = emit (ConsoleError error) (set_listItems None st)
      /\ _listItems (errorCallback error st) = None
      /\ effects (errorCallback error st)
         = effects st ++ [ConsoleError error]
      /\ _unsubscribe (errorCallback error st) = _unsubscribe st
      /\ _busy (errorCallback error st) = _busy st
      /\ _pagination (errorCallback error st) = _pagination st
      /\ _paginationWaiting (errorCallback error st)
         = _paginationWaiting st).
Proof.
  split.
  - intros m Hm Hinc. unfold errorCallback.
    rewrite Hm, Hinc, (includes_nonempty m Hinc). reflexivity.
  - intros Hother.
    assert (H : errorCallback error st
                = emit (ConsoleError error) (set_listItems None st)).
    { unfold errorCallback.
      destruct Hother as [Hnone | (m & Hm & Hinc)].
      - rewrite Hnone. reflexivity.
      - rewrite Hm, Hinc, andb_false_r. reflexivity. }
    rewrite H. repeat split.
Qed.

(** Witness of C9: a deleted anchor, and a permission error. *)
Lemma errorCallback_cases_witness :
  let missing :=
    {| message :=
         Some "No document to update: document does not exist"%string |} in
  let denied := {| message := Some "permission-denied"%string |} in
  let st := set_listItems (Some [None; None]) sample_state in
  errorCallback missing st = st
  /\ _listItems (errorCallback denied st) = None
  /\ effects (errorCallback denied st) = [ConsoleError denied].
Proof.
  intros missing denied st. split.
  - apply (proj1 (errorCallback_cases missing st)) with
      (m := "No document to update: document does not exist"%string);
      reflexivity.
  - destruct (proj2 (errorCallback_cases denied st)) as (_ & Hl & He & _).
    + right. exists "permission-denied"%string. split; reflexivity.
    + split; [exact Hl | exact He].
Defined.

(** *** The anchor of a subscription *)

Lemma entry_absent_no_doc (st : State) (i : Z) :
  entry_absent st i -> anchor_doc st (Some i) = None.
Proof.
  unfold entry_absent, anchor_doc.
  destruct (_listItems st) as [items |]; [| reflexivity].
  intros [-> | ->]; reflexivity.
Qed.

(** Past the start the query built for a subscription carries the cursor
    it was given. *)
Lemma getQueryConstraints_cursor (batchSize : Z)
      (cs rcs : list QueryConstraint) (dir : Direction) (d : option Doc)
      (i : Z) :
  0 < i ->
  In (startAt d) (getQueryConstraints batchSize cs dir d (Some i) rcs).
Proof.
  intros Hi. unfold getQueryConstraints.
  destruct (Z.ltb_spec 0 i); [| lia].
  apply in_or_app. left. apply in_or_app. right. left. reflexivity.
Qed.

(** C10. For a target anchor index [i > 0] at which the backing array
    holds no record (no array, an index outside of it, or an element that
    was never loaded or was cleared by the garbage collection),
    [__updateItems] returns at its guard: it ends normally in the state
    it started from, so that nothing is unsubscribed, nothing is
    subscribed, nothing is collected, and no query is built from a
    missing record. *)
Theorem updateItems_absent_anchor (visible : bool)
        (cs rcs : option (list QueryConstraint)) (ref : option Ref)
        (batchSize i : Z) (st : State) :
  0 < i ->
  entry_absent st i ->
  __updateItems visible cs rcs ref batchSize (Some i) st = Normal st.
Proof.
  intros Hi Habsent. unfold __updateItems.
  rewrite (entry_absent_no_doc st i Habsent).
  destruct cs as [cs |], rcs as [rcs |], ref as [ref |]; try reflexivity.
  destruct (Z.ltb_spec 0 i); [| lia].
  cbn [andb]. rewrite !orb_true_r. reflexivity.
Qed.

(** Witness of C10: the element at the anchor 3 was cleared. *)
Lemma updateItems_absent_anchor_witness :
  let loaded n := Some {| uid := Some "u"%string; doc := Some n |} in
  let items := [loaded 0; loaded 1; loaded 2; None; loaded 4]%nat in
  let st := set_listItems (Some items) sample_state in
  0 < 3 /\ entry_absent st 3 /\
  __updateItems true (constraints st) (reverseConstraints st) (_ref st)
                (_batchSize st) (Some 3) st
  = Normal st.
Proof.
  intros loaded items st.
  assert (H1 : 0 < 3) by reflexivity.
  assert (H2 : entry_absent st 3) by (right; reflexivity).
  split; [exact H1 | split; [exact H2 |]].
  exact (updateItems_absent_anchor true _ _ _ _ 3 st H1 H2).
Defined.

(** With a record at the anchor the subscription does start, and its
    query carries the record's document as cursor. *)
Example updateItems_present_anchor :
  let loaded n := Some {| uid := Some "u"%string; doc := Some n |} in
  let items := [loaded 0; loaded 1; loaded 2; loaded 3; loaded 4]%nat in
  let st := set_listItems (Some items) sample_state in
  exists st' sub,
    __updateItems true (constraints st) (reverseConstraints st) (_ref st)
                  (_batchSize st) (Some 3) st
    = Normal st'
    /\ effects st' = [Subscribed sub]
    /\ sub_query sub
       = [userConstraint 0; startAt (Some 3%nat); limit 25].
Proof. do 2 eexists. repeat split. Qed.

End DbListFacts.

(** ** Reposition *)

Module RepositionFacts.

Import Js Geometry LiteList Samples.

Local Open Scope nat_scope.

(** *** The sorted entries name every container once *)

Lemma insert_entry_perm (e : Entry) (l : list Entry) :
  Permutation (insert_entry e l) (e :: l).
Proof.
  induction l as [| x rest IH]; cbn.
  - apply Permutation_refl.
  - destruct (Qle_bool (rect_side e) (rect_side x)).
    + apply Permutation_refl.
    + apply perm_trans with (x :: e :: rest).
      * apply perm_skip, IH.
      * apply perm_swap.
Qed.

Lemma sort_entries_perm (l : list Entry) : Permutation (sort_entries l) l.
Proof.
  induction l as [| e rest IH]; cbn.
  - apply perm_nil.
  - apply perm_trans with (e :: sort_entries rest).
    + apply insert_entry_perm.
    + apply perm_skip, IH.
Qed.

Lemma measure_from_targets (scroll : Q) (n : nat) (cs : list Container) :
  map target (measure_from scroll n cs) = seq n (List.length cs).
Proof.
  revert n. induction cs as [| c rest IH]; intros n; cbn.
  - reflexivity.
  - rewrite IH. reflexivity.
Qed.

Lemma measure_from_nth (scroll : Q) (n : nat) (cs : list Container)
      (k : nat) (c : Container) :
  nth_error cs k = Some c ->
  In {| rect_side := getBoundingClientRect_side scroll c; target := n + k |}
     (measure_from scroll n cs).
Proof.
  revert n k. induction cs as [| x rest IH]; intros n k H.
  - destruct k; discriminate.
  - destruct k as [| k]; cbn in *.
    + injection H as ->. left. f_equal. lia.
    + right. replace (n + S k) with (S n + k) by lia. apply IH, H.
Qed.

Lemma computeSorted_targets (scroll : Q) (cs : list Container) :
  NoDup (map target (__computeSorted scroll cs)).
Proof.
  unfold __computeSorted.
  apply Permutation_NoDup with (map target (measure_from scroll 0 cs)).
  - apply Permutation_map, Permutation_sym, sort_entries_perm.
  - rewrite measure_from_targets. apply seq_NoDup.
Qed.

Lemma computeSorted_nth (scroll : Q) (cs : list Container) (k : nat)
      (c : Container) :
  nth_error cs k = Some c ->
  In {| rect_side := getBoundingClientRect_side scroll c; target := k |}
     (__computeSorted scroll cs).
Proof.
  intros H. unfold __computeSorted.
  apply Permutation_in with (measure_from scroll 0 cs).
  - apply Permutation_sym, sort_entries_perm.
  - apply (measure_from_nth scroll 0 cs k c H).
Qed.

(** *** Visiting the entries *)

Lemma set_nth_length (n : nat) (c : Container) (l : list Container) :
  List.length (set_nth n c l) = List.length l.
Proof.
  revert n. induction l as [| x rest IH]; intros [| n]; cbn;
    try reflexivity.
  rewrite IH. reflexivity.
Qed.

Lemma set_nth_same (n : nat) (c x : Container) (l : list Container) :
  nth_error l n = Some x -> nth_error (set_nth n c l) n = Some c.
Proof.
  revert n. induction l as [| y rest IH]; intros [| n] H; cbn in *;
    try discriminate.
  - reflexivity.
  - apply IH, H.
Qed.

Lemma set_nth_other (n k : nat) (c : Container) (l : list Container) :
  n <> k -> nth_error (set_nth n c l) k = nth_error l k.
Proof.
  revert n k. induction l as [| y rest IH]; intros [| n] [| k] H; cbn;
    try reflexivity.
  - contradiction.
  - apply IH. lia.
Qed.

Section Visit.

Variable place : Q -> Container -> Container.

Let visit := fold_left (reposition_entry place).

Lemma visit_length (entries : list Entry) (cs : list Container) :
  List.length (visit entries cs) = List.length cs.
Proof.
  unfold visit. revert cs.
  induction entries as [| e rest IH]; intros cs; cbn.
  - reflexivity.
  - rewrite IH. unfold reposition_entry.
    destruct (nth_error cs (target e)); [apply set_nth_length |].
    reflexivity.
Qed.

(** A container that no entry names is left alone. *)
Lemma visit_untouched (entries : list Entry) (cs : list Container)
      (k : nat) :
  ~ In k (map target entries) ->
  nth_error (visit entries cs) k = nth_error cs k.
Proof.
  unfold visit. revert cs.
  induction entries as [| e rest IH]; intros cs Hk; cbn.
  - reflexivity.
  - rewrite IH by (intros H; apply Hk; right; exact H).
    unfold reposition_entry.
    destruct (nth_error cs (target e)); [| reflexivity].
    apply set_nth_other. intros E. apply Hk. left. exact E.
Qed.

(** A container named by one entry is placed with that entry's box. *)
Lemma visit_placed (entries : list Entry) (cs : list Container)
      (e : Entry) (c : Container) :
  NoDup (map target entries) ->
  In e entries ->
  nth_error cs (target e) = Some c ->
  nth_error (visit entries cs) (target e)
  = Some (place (rect_side e) c).
Proof.
  unfold visit. revert cs.
  induction entries as [| e0 rest IH]; intros cs Hnd Hin Hc;
    [contradiction |].
  cbn in Hnd. apply NoDup_cons_iff in Hnd as [Hfresh Hnd].
  cbn [fold_left].
  destruct Hin as [-> | Hin].
  - fold (visit rest (reposition_entry place cs e)).
    rewrite visit_untouched by assumption.
    unfold reposition_entry. rewrite Hc.
    apply set_nth_same with c. exact Hc.
  - apply IH; try assumption.
    unfold reposition_entry.
    destruct (nth_error cs (target e0)) eqn:E0; [| exact Hc].
    rewrite set_nth_other; [exact Hc |].
    intros E. apply Hfresh. rewrite E.
    apply in_map. exact Hin.
Qed.

(** Visiting the entries measured from the containers places every
    container with its own box. *)
Lemma visit_sorted (scroll : Q) (cs : list Container) :
  visit (__computeSorted scroll cs) cs
  = map (fun c => place (getBoundingClientRect_side scroll c) c) cs.
Proof.
  apply nth_error_ext. intros k.
  rewrite nth_error_map.
  destruct (nth_error cs k) as [c |] eqn:E; cbn [option_map].
  - apply (visit_placed (__computeSorted scroll cs) cs
             {| rect_side := getBoundingClientRect_side scroll c;
                target := k |} c).
    + apply computeSorted_targets.
    + apply computeSorted_nth. exact E.
    + exact E.
  - apply nth_error_None. rewrite visit_length.
    apply nth_error_None. exact E.
Qed.

End Visit.

(** *** Placing a container twice *)

Local Open Scope Q_scope.

Lemma or_zero_some (q : Q) : or_zero (Some q) == q.
Proof.
  unfold or_zero, falsyQ.
  destruct (Qeq_bool q 0) eqn:E; [| reflexivity].
  symmetry. apply Qeq_bool_eq. exact E.
Qed.

(** The choice of a position only depends on the value of the
    placement. *)
Lemma getPosition_compat (p : Props) (s : Shift) (a b : Q) :
  a == b -> getPosition p s a = getPosition p s b.
Proof.
  intros H. unfold getPosition, Qltb, Qgeb_undef, Qgeb.
  rewrite (Qleb_comp _ _ (Qeq_refl (startPosition s)) _ _ H).
  destruct (_maxSize p) as [m |]; [| reflexivity].
  rewrite (Qleb_comp _ _ (Qeq_refl m) _ _ H). reflexivity.
Qed.

(** Later revision: a container placed from its measured box stays where
    it is when placed again from its new box. *)
Lemma place_container_twice (p : Props) (s : Shift) (c : Container) :
  synced c ->
  let place c :=
    place_container p s (getBoundingClientRect_side (_scroll p) c) c in
  place (place c) = place c.
Proof.
  intros Hsync place.
  remember (place c) as c' eqn:Hc'.
  unfold place, place_container in Hc'.
  destruct (getPosition p s _) as [pos |] eqn:G in Hc'.
  - destruct (falsyQ pos) eqn:F in Hc'; subst c'.
    + unfold place, place_container. rewrite G, F. reflexivity.
    + unfold place, place_container.
      erewrite getPosition_compat; [rewrite G, F; reflexivity |].
      unfold getBoundingClientRect_side. cbn [__move transform previous base].
      unfold synced in Hsync. pose proof (or_zero_some pos) as Hp.
      lra.
  - subst c'. unfold place, place_container. rewrite G. reflexivity.
Qed.

(** Earlier revision: the same. *)
Lemma place_container_twice_early (p : Props) (position_ : Q)
      (c : Container) :
  synced c ->
  let place c :=
    LiteListEarly.place_container
      p position_ (getBoundingClientRect_side (_scroll p) c) c in
  place (place c) = place c.
Proof.
  intros Hsync place.
  remember (place c) as c' eqn:Hc'.
  unfold place, LiteListEarly.place_container in Hc'.
  destruct (negb (infinite p) && _)%bool eqn:G in Hc'; subst c'.
  - unfold place, LiteListEarly.place_container. rewrite G. reflexivity.
  - unfold place, LiteListEarly.place_container.
    replace (negb (infinite p)
             && Qgeb_undef
                  (getBoundingClientRect_side (_scroll p)
                                              (__move c position_)
                   + (position_ - or_zero (previous (__move c position_)))
                   + _scroll p) (_maxSize p))%bool
      with false; [reflexivity |].
    rewrite <- G. f_equal.
    unfold Qgeb_undef, Qgeb.
    destruct (_maxSize p) as [m |]; [| reflexivity].
    apply (Qleb_comp _ _ (Qeq_refl m)).
    unfold getBoundingClientRect_side. cbn [__move transform previous base].
    unfold synced in Hsync. pose proof (or_zero_some position_) as Hp.
    lra.
Qed.

(** *** The cached translation stays the applied one *)

Lemma move_synced (c : Container) (position_ : Q) :
  synced (__move c position_).
Proof.
  unfold synced. cbn [__move transform previous].
  symmetry. apply or_zero_some.
Qed.

Lemma place_container_synced (p : Props) (s : Shift) (rect : Q)
      (c : Container) :
  synced c -> synced (place_container p s rect c).
Proof.
  intros H. unfold place_container.
  destruct (getPosition p s _) as [pos |]; [| exact H].
  destruct (falsyQ pos); [exact H | apply move_synced].
Qed.

Lemma place_container_early_synced (p : Props) (position_ rect : Q)
      (c : Container) :
  synced c -> synced (LiteListEarly.place_container p position_ rect c).
Proof.
  intros H. unfold LiteListEarly.place_container.
  destruct (negb (infinite p) && _)%bool; [exact H | apply move_synced].
Qed.

Lemma reset_synced (c : Container) : synced (reset_container c).
Proof. unfold synced. cbn. reflexivity. Qed.

(** Containers as stamped, with no translation cached or applied. *)
Lemma fresh_synced (i : Z) (b : Q) : synced (mkContainer i b None None).
Proof. unfold synced. cbn. reflexivity. Qed.

(** Reposition keeps the agreement, in either revision. *)
Lemma reposition_synced (p : Props) (cs : list Container) :
  Forall synced cs ->
  Forall synced (reposition p cs)
  /\ Forall synced (LiteListEarly.reposition p cs).
Proof.
  intros H. split.
  - unfold reposition, __reposition.
    destruct (_containerIndex p); [| exact H].
    destruct (falsyZ (_virtualIndex p)); [exact H |].
    rewrite visit_sorted. apply Forall_map.
    apply (Forall_impl _ (fun c Hc => place_container_synced p _ _ c Hc) H).
  - unfold LiteListEarly.reposition, LiteListEarly.__reposition.
    destruct (_containerIndex p); [| exact H].
    destruct (falsyZ (_virtualIndex p)); [exact H |].
    rewrite visit_sorted. apply Forall_map.
    apply (Forall_impl _
             (fun c Hc => place_container_early_synced p _ _ c Hc) H).
Qed.

(** *** Reposition twice *)

(** With every sum, product and quotient taken exactly: for fixed
    properties of the element (virtual index, container count, scroll
    position and the rest) and containers whose applied translation is
    the cached one, Reposition applied twice in a row leaves exactly the
    containers, offsets included, that Reposition applied once leaves, in
    the later revision of [__reposition] and in the earlier one. The
    arithmetic of the numbers does not keep this, see
    [RepositionDoubleFacts]. *)
Lemma reposition_idempotent (p : Props) (cs : list Container) :
  Forall synced cs ->
  reposition p (reposition p cs) = reposition p cs
  /\ LiteListEarly.reposition p (LiteListEarly.reposition p cs)
     = LiteListEarly.reposition p cs.
Proof.
  intros Hsync. split.
  - unfold reposition, __reposition.
    destruct (_containerIndex p); [| reflexivity].
    destruct (falsyZ (_virtualIndex p)); [reflexivity |].
    rewrite !visit_sorted, map_map.
    apply map_ext_in. intros c Hin.
    apply (place_container_twice p (compute_shift p) c).
    exact (proj1 (Forall_forall synced cs) Hsync c Hin).
  - unfold LiteListEarly.reposition, LiteListEarly.__reposition.
    destruct (_containerIndex p) as [containerIndex |]; [| reflexivity].
    destruct (falsyZ (_virtualIndex p)); [reflexivity |].
    rewrite !visit_sorted, map_map.
    apply map_ext_in. intros c Hin.
    apply (place_container_twice_early
             p (LiteListEarly.reposition_target p containerIndex) c).
    exact (proj1 (Forall_forall synced cs) Hsync c Hin).
Qed.

(** Whole pixels: the first container is sent one jump ahead, to
    1200px, the others to the current shift, 800px; a second Reposition
    changes nothing. *)
Lemma reposition_idempotent_whole_pixels :
  Forall synced sample_containers /\
  map previous (reposition sample_props sample_containers)
  = [Some (1200 # 1); Some (800 # 1); Some (800 # 1); Some (800 # 1)] /\
  reposition sample_props (reposition sample_props sample_containers)
  = reposition sample_props sample_containers.
Proof.
  assert (H : Forall synced sample_containers)
    by (repeat constructor).
  split; [exact H | split].
  - vm_compute. reflexivity.
  - exact (proj1 (reposition_idempotent sample_props sample_containers H)).
Qed.

End RepositionFacts.

(** ** More on the array primitives *)

Module JsMoreFacts.

Import JsArray JsArrayFacts JsMore.

Lemma floor_div_pos (a b : Z) : 0 < b -> floor_div a b = a / b.
Proof.
  intros Hb. unfold floor_div.
  destruct b as [| p | p]; try lia.
  unfold Qdiv, Qinv, inject_Z, Qmult, Qfloor. cbn [Qnum Qden].
  rewrite Z.mul_1_r, Pos.mul_1_l. reflexivity.
Qed.

Lemma ceil_div_pos (a b : Z) : 0 < b -> ceil_div a b = - ((- a) / b).
Proof.
  intros Hb. unfold ceil_div, Qceiling.
  destruct b as [| p | p]; try lia.
  unfold Qdiv, Qinv, inject_Z, Qmult, Qopp, Qfloor. cbn [Qnum Qden].
  rewrite Z.mul_1_r, Pos.mul_1_l. reflexivity.
Qed.

Section Facts.

Context {A : Type}.

Lemma get_nth (l : list (option A)) (k : nat) :
  get l (Z.of_nat k)
  = match nth_error l k with Some v => v | None => None end.
Proof.
  unfold get. destruct (Z.ltb_spec (Z.of_nat k) 0); [lia |].
  rewrite Nat2Z.id. reflexivity.
Qed.

Lemma get_beyond (l : list (option A)) (i : Z) :
  length l <= i -> get l i = None.
Proof.
  intros H. unfold get. pose proof (length_nonneg l).
  destruct (Z.ltb_spec i 0); [reflexivity |].
  replace (nth_error l (Z.to_nat i)) with (@None (option A));
    [reflexivity |].
  symmetry. apply nth_error_None. unfold length in *. lia.
Qed.

Lemma get_negative (l : list (option A)) (i : Z) : i < 0 -> get l i = None.
Proof.
  intros H. unfold get. destruct (Z.ltb_spec i 0); [reflexivity | lia].
Qed.

(** A written place reads back what was written. *)
Lemma get_assign_same (l : list (option A)) (i : Z) (v : option A) :
  0 <= i -> get (assign l i v) i = v.
Proof.
  intros Hi. unfold get, assign.
  destruct (Z.ltb_spec i 0); [lia |].
  destruct (Z.ltb_spec i (length l)) as [Hin | Hout]; unfold length in *.
  - rewrite nth_error_app2 by (rewrite List.length_firstn; lia).
    rewrite List.length_firstn.
    replace (Z.to_nat i - Nat.min (Z.to_nat i) (List.length l))%nat
      with 0%nat by lia.
    reflexivity.
  - rewrite nth_error_app2 by lia.
    rewrite nth_error_app2 by (rewrite repeat_length; lia).
    rewrite repeat_length.
    replace (Z.to_nat i - List.length l
             - Z.to_nat (i - Z.of_nat (List.length l)))%nat
      with 0%nat by lia.
    reflexivity.
Qed.

(** The other places read as before. *)
Lemma get_assign_other (l : list (option A)) (i j : Z) (v : option A) :
  i <> j -> get (assign l i v) j = get l j.
Proof.
  intros Hij. unfold get, assign.
  destruct (Z.ltb_spec j 0); [reflexivity |].
  destruct (Z.ltb_spec i 0); [reflexivity |].
  destruct (Z.ltb_spec i (length l)) as [Hin | Hout]; unfold length in *.
  - destruct (Z.lt_ge_cases j i) as [Hlt | Hge].
    + rewrite nth_error_app1 by (rewrite List.length_firstn; lia).
      rewrite nth_error_firstn.
      destruct (Nat.ltb_spec (Z.to_nat j) (Z.to_nat i)); [reflexivity | lia].
    + rewrite nth_error_app2 by (rewrite List.length_firstn; lia).
      rewrite List.length_firstn.
      replace (Z.to_nat j - Nat.min (Z.to_nat i) (List.length l))%nat
        with (S (Z.to_nat j - S (Z.to_nat i)))%nat by lia.
      cbn [nth_error]. rewrite nth_error_skipn.
      replace (S (Z.to_nat i) + (Z.to_nat j - S (Z.to_nat i)))%nat
        with (Z.to_nat j) by lia.
      reflexivity.
  - destruct (Z.lt_ge_cases j (Z.of_nat (List.length l))) as [Hlt | Hge].
    + rewrite nth_error_app1 by lia. reflexivity.
    + rewrite nth_error_app2 by lia.
      replace (nth_error l (Z.to_nat j)) with (@None (option A))
        by (symmetry; apply nth_error_None; lia).
      destruct (Z.lt_ge_cases j i) as [Hlt' | Hge'].
      * rewrite nth_error_app1 by (rewrite repeat_length; lia).
        rewrite nth_error_repeat by lia. reflexivity.
      * rewrite nth_error_app2 by (rewrite repeat_length; lia).
        rewrite repeat_length.
        replace (Z.to_nat j - List.length l
                 - Z.to_nat (i - Z.of_nat (List.length l)))%nat
          with (S (Z.to_nat j - S (Z.to_nat i)))%nat by lia.
        cbn [nth_error]. destruct (Z.to_nat j - S (Z.to_nat i))%nat;
          reflexivity.
Qed.

(** A write below the length keeps the length; a write at or past it
    makes the written place the last one. *)
Lemma length_assign (l : list (option A)) (i : Z) (v : option A) :
  0 <= i -> length (assign l i v) = Z.max (length l) (i + 1).
Proof.
  intros Hi. unfold assign.
  destruct (Z.ltb_spec i 0); [lia |].
  destruct (Z.ltb_spec i (length l)) as [Hin | Hout]; unfold length in *.
  - rewrite List.length_app, List.length_firstn. cbn [List.length].
    rewrite List.length_skipn. lia.
  - rewrite !List.length_app, repeat_length. cbn [List.length]. lia.
Qed.

(** Reading a slice. *)
Lemma get_slice (l : list (option A)) (a b k : Z) :
  0 <= a -> a <= b -> b <= length l -> 0 <= k < b - a ->
  get (slice l a b) k = get l (a + k).
Proof.
  intros Ha Hab Hb Hk. rewrite slice_inside by lia.
  unfold get, length in *.
  destruct (Z.ltb_spec k 0); [lia |].
  destruct (Z.ltb_spec (a + k) 0); [lia |].
  rewrite nth_error_firstn.
  destruct (Nat.ltb_spec (Z.to_nat k) (Z.to_nat (b - a))); [| lia].
  rewrite nth_error_skipn.
  replace (Z.to_nat a + Z.to_nat k)%nat with (Z.to_nat (a + k)) by lia.
  reflexivity.
Qed.

Lemma get_app_l (l1 l2 : list (option A)) (k : Z) :
  k < length l1 -> get (l1 ++ l2) k = get l1 k.
Proof.
  intros Hk. unfold get, length in *.
  destruct (Z.ltb_spec k 0); [reflexivity |].
  rewrite nth_error_app1 by lia. reflexivity.
Qed.

Lemma get_app_r (l1 l2 : list (option A)) (k : Z) :
  length l1 <= k -> get (l1 ++ l2) k = get l2 (k - length l1).
Proof.
  intros Hk. unfold get, length in *.
  pose proof (Zle_0_nat (List.length l1)).
  destruct (Z.ltb_spec k 0); [lia |].
  destruct (Z.ltb_spec (k - Z.of_nat (List.length l1)) 0); [lia |].
  rewrite nth_error_app2 by lia.
  replace (Z.to_nat (k - Z.of_nat (List.length l1)))
    with (Z.to_nat k - List.length l1)%nat by lia.
  reflexivity.
Qed.

(** [findIndex] finds the first match. *)
Lemma findIndex_from_found (f : A -> bool) (l : list A) (n : Z) (x : A) :
  In x l -> f x = true ->
  exists k y,
    findIndex_from f l n = n + Z.of_nat k
    /\ nth_error l k = Some y /\ f y = true.
Proof.
  revert n. induction l as [| z rest IH]; intros n Hin Hf; [contradiction |].
  cbn [findIndex_from]. destruct (f z) eqn:Ez.
  - exists 0%nat, z. repeat split; [lia | assumption].
  - destruct Hin as [-> | Hin]; [congruence |].
    destruct (IH (n + 1) Hin Hf) as (k & y & Hk & Hy & Hfy).
    exists (S k), y. repeat split; [lia | assumption | assumption].
Qed.

Lemma findIndex_from_none (f : A -> bool) (l : list A) (n : Z) :
  (forall x, In x l -> f x = false) -> findIndex_from f l n = -1.
Proof.
  revert n. induction l as [| z rest IH]; intros n H; [reflexivity |].
  cbn [findIndex_from]. rewrite (H z (or_introl eq_refl)).
  apply IH. intros x Hx. apply H. right. exact Hx.
Qed.

End Facts.

End JsMoreFacts.

(** ** [lite-list]: from the virtual index to what a container shows *)

Module LiteListItemsFacts.

Import Js JsArray JsArrayFacts JsMore JsMoreFacts DataWindow DataWindowFacts.
Import LiteListItems.

Lemma computeStart_inside (infinite : bool) (L vs : Z) :
  0 <= vs < L -> __computeStart infinite L vs = vs.
Proof.
  intros H. unfold __computeStart, falsyZ.
  destruct (Z.eqb_spec L 0); [lia |].
  rewrite floor_div_pos by lia. rewrite Z.div_small by lia.
  cbn. lia.
Qed.

Lemma computeStart_range (infinite : bool) (L vs : Z) :
  0 <= L -> 0 <= __computeStart infinite L vs <= L.
Proof.
  intros HL. unfold __computeStart, falsyZ.
  destruct (Z.eqb_spec L 0); [lia |].
  rewrite floor_div_pos by lia.
  destruct (negb (vs / L =? 0) && negb infinite); [lia |].
  pose proof (Z.mod_pos_bound vs L ltac:(lia)) as Hm.
  rewrite Z.mod_eq in Hm by lia. lia.
Qed.

Lemma computeStart_infinite (L vs : Z) :
  0 < L -> __computeStart true L vs = vs mod L.
Proof.
  intros H. unfold __computeStart, falsyZ.
  destruct (Z.eqb_spec L 0); [lia |].
  rewrite floor_div_pos by lia. rewrite andb_false_r.
  rewrite Z.mod_eq by lia. reflexivity.
Qed.

Lemma computeStart_finite (L vs : Z) :
  0 <= L -> 0 <= vs -> __computeStart false L vs = Z.min vs L.
Proof.
  intros HL Hvs. unfold __computeStart, falsyZ.
  destruct (Z.eqb_spec L 0) as [-> | HL0]; [lia |].
  rewrite floor_div_pos by lia. rewrite andb_true_r.
  destruct (Z.eqb_spec (vs / L) 0) as [E | E]; cbn [negb].
  - rewrite E. apply Z.div_small_iff in E; lia.
  - assert (L <= vs).
    { destruct (Z.lt_ge_cases vs L); [| assumption].
      exfalso. apply E. apply Z.div_small. lia. }
    lia.
Qed.

(** X1. For a collection of [L >= 0] items and a virtual start
    [vs >= 0], [__computeStart] returns [min(vs, L)] outside of
    [infinite] mode and [vs mod L] in it: always a start at which the
    window can be cut. *)
Theorem computeStart_value (L vs : Z) :
  0 <= L -> 0 <= vs ->
  __computeStart false L vs = Z.min vs L
  /\ (0 < L -> __computeStart true L vs = vs mod L)
  /\ (forall infinite, 0 <= __computeStart infinite L vs <= L).
Proof.
  intros HL Hvs.
  pose proof (computeStart_finite L vs HL Hvs) as Hfin.
  split; [exact Hfin | split; [apply computeStart_infinite |]].
  intros [|].
  - destruct (Z.eq_dec L 0) as [-> | HL0]; [cbn; lia |].
    rewrite computeStart_infinite by lia.
    pose proof (Z.mod_pos_bound vs L). lia.
  - rewrite Hfin. lia.
Qed.

Lemma computeStart_value_witness :
  0 <= 100 /\ 0 <= 250 /\
  __computeStart false 100 250 = 100 /\ __computeStart true 100 250 = 50.
Proof.
  assert (H1 : 0 <= 100) by discriminate.
  assert (H2 : 0 <= 250) by discriminate.
  split; [exact H1 | split; [exact H2 |]].
  destruct (computeStart_value 100 250 H1 H2) as (Hf & Hi & _).
  split; [rewrite Hf; reflexivity | rewrite Hi; reflexivity].
Defined.

Section Window.

Context {A : Type}.

(** X2. With the container count that [__computeContainerCount] derives
    from the number of items and the maximum ([min(L, max)]) and the
    start that [__computeStart] derives from a virtual start [vs >= 0]:
    in [infinite] mode the data window always holds exactly [count] items;
    outside of it, [min(count, L - start)] items. *)
Theorem window_holds_count (items : list A) (max vs count : Z) :
  0 <= max -> 0 <= vs ->
  DomObserversMixin.__computeContainerCount (Some (length items)) (Some max)
  = Some count ->
  (exists w,
      __computeData true (Some items) count
                    (Some (__computeStart true (length items) vs)) = Some w
      /\ length w = count)
  /\ (exists w,
        __computeData false (Some items) count
                      (Some (__computeStart false (length items) vs))
        = Some w
        /\ length w
           = Z.min count
                   (length items - __computeStart false (length items) vs)).
Proof.
  intros Hmax Hvs Hcount. injection Hcount as <-.
  pose proof (length_nonneg items) as HL.
  set (L := length items) in *.
  set (count := Z.min L max).
  assert (Hc : 0 <= count <= L) by (unfold count; lia).
  split.
  - destruct (Z.eq_dec L 0) as [HL0 | HL0].
    + assert (Hs : __computeStart true L vs = 0)
        by (unfold __computeStart, falsyZ; rewrite HL0; reflexivity).
      rewrite Hs. eexists. split.
      * apply computeData_infinite_fits. fold L. lia.
      * rewrite length_slice; fold L; lia.
    + rewrite computeStart_infinite by lia.
      pose proof (Z.mod_pos_bound vs L ltac:(lia)) as Hs.
      destruct (Z.le_gt_cases (vs mod L + count) L) as [Hfit | Hover].
      * eexists. split; [apply computeData_infinite_fits; fold L; lia |].
        rewrite length_slice; fold L; lia.
      * eexists. split; [apply computeData_wrapped; fold L; lia |].
        rewrite length_app, length_slice_from, length_slice; fold L; lia.
  - rewrite (computeStart_finite L vs HL Hvs). set (s := Z.min vs L).
    eexists. split; [apply computeData_finite |].
    destruct (Z.le_gt_cases (s + count) L) as [Hfit | Hover].
    + rewrite length_slice; fold L; unfold s; lia.
    + rewrite slice_clamped by (fold L; unfold s; lia).
      rewrite length_slice_from by (fold L; unfold s; lia).
      fold L. lia.
Qed.

(** X3. Outside of [infinite] mode, with items and containers present
    and a virtual start [vs >= 0]: [__computeStopRecycling] answers true
    exactly when the window reaches the last item ([vs + count >= L]);
    while it answers false the data window is full, [count] items none of
    which is the last. *)
Theorem stopRecycling_window (items : list A) (count vs : Z) :
  0 < length items -> 0 < count -> 0 <= vs ->
  (__computeStopRecycling false (length items) count vs = true
   <-> length items <= vs + count)
  /\ (__computeStopRecycling false (length items) count vs = false ->
      exists w,
        __computeData false (Some items) count
                      (Some (__computeStart false (length items) vs))
        = Some w
        /\ length w = count
        /\ __computeStart false (length items) vs + count < length items).
Proof.
  intros HL Hc Hvs.
  assert (Hstop : __computeStopRecycling false (length items) count vs
                  = (length items - 1 <? vs + count)).
  { unfold __computeStopRecycling, falsyZ.
    destruct (Z.eqb_spec (length items) 0); [lia |].
    destruct (Z.eqb_spec count 0); [lia |]. reflexivity. }
  rewrite Hstop. split.
  - destruct (Z.ltb_spec (length items - 1) (vs + count)); split;
      intros; (lia || discriminate || reflexivity).
  - intros Hf.
    destruct (Z.ltb_spec (length items - 1) (vs + count)); [discriminate |].
    rewrite computeStart_inside by lia.
    eexists. split; [apply computeData_finite |].
    rewrite length_slice by lia. lia.
Qed.

End Window.

Lemma window_holds_count_witness :
  let items := [1; 2; 3; 4; 5]%nat in
  0 <= 3 /\ 0 <= 9 /\
  DomObserversMixin.__computeContainerCount (Some (length items)) (Some 3)
  = Some 3 /\
  exists w,
    __computeData true (Some items) 3
                  (Some (__computeStart true (length items) 9)) = Some w
    /\ length w = 3.
Proof.
  intro items.
  assert (H1 : 0 <= 3) by discriminate.
  assert (H2 : 0 <= 9) by discriminate.
  assert (H3 : DomObserversMixin.__computeContainerCount
                 (Some (length items)) (Some 3) = Some 3) by reflexivity.
  split; [exact H1 | split; [exact H2 | split; [exact H3 |]]].
  exact (proj1 (window_holds_count items 3 9 3 H1 H2 H3)).
Defined.

Lemma stopRecycling_window_witness :
  let items := [1; 2; 3; 4; 5; 6; 7; 8]%nat in
  0 < length items /\ 0 < 3 /\ 0 <= 2 /\
  __computeStopRecycling false (length items) 3 2 = false /\
  exists w,
    __computeData false (Some items) 3
                  (Some (__computeStart false (length items) 2)) = Some w
    /\ length w = 3.
Proof.
  intro items.
  assert (H1 : 0 < length items) by reflexivity.
  assert (H2 : 0 < 3) by reflexivity.
  assert (H3 : 0 <= 2) by discriminate.
  assert (H4 : __computeStopRecycling false (length items) 3 2 = false)
    by reflexivity.
  split; [exact H1 | split; [exact H2 | split; [exact H3 |]]].
  split; [exact H4 |].
  destruct (proj2 (stopRecycling_window items 3 2 H1 H2 H3) H4)
    as (w & Hw & Hl & _).
  exists w. split; assumption.
Defined.

(** X4. For [count > 0] containers and a virtual index [vi >= 0],
    [__computeContainerIndex] names one of the containers
    ([0 <= index < count]) and differs from [vi] by a multiple of
    [count]. *)
Theorem computeContainerIndex_range (count vi : Z) :
  0 < count -> 0 <= vi ->
  0 <= LiteList.__computeContainerIndex count vi < count
  /\ (vi - LiteList.__computeContainerIndex count vi) mod count = 0.
Proof.
  intros Hc Hvi. unfold LiteList.__computeContainerIndex, falsyZ.
  destruct (Z.eqb_spec count 0); [lia |]. cbn [orb].
  destruct (Z.eqb_spec vi 0) as [-> | Hne].
  - split; [lia |]. apply Z.mod_0_l. lia.
  - rewrite Z.rem_mod_nonneg by lia.
    pose proof (Z.mod_pos_bound vi count Hc). split; [lia |].
    replace (vi - vi mod count) with ((vi / count) * count)
      by (rewrite (Z.mod_eq vi count) by lia; lia).
    apply Z.mod_mul. lia.
Qed.

Lemma computeContainerIndex_range_witness :
  0 < 4 /\ 0 <= 10 /\
  0 <= LiteList.__computeContainerIndex 4 10 < 4.
Proof.
  assert (H1 : 0 < 4) by reflexivity.
  assert (H2 : 0 <= 10) by discriminate.
  split; [exact H1 | split; [exact H2 |]].
  exact (proj1 (computeContainerIndex_range 4 10 H1 H2)).
Defined.

(** *** Arranging the window by container *)

Section Arrange.

Context {A : Type}.

(** A place that no entry names keeps what the accumulator held. *)
Lemma arrange_from_untouched (sorted : list Z) (data : list (option A))
      (n : Z) (accum : list (option A)) (j : Z) :
  ~ In j sorted -> get (arrange_from sorted data n accum) j = get accum j.
Proof.
  revert n accum. induction sorted as [| i rest IH]; intros n accum Hj.
  - reflexivity.
  - cbn [arrange_from]. rewrite IH by (intros H; apply Hj; right; exact H).
    apply get_assign_other. intros E. apply Hj. left. exact E.
Qed.

(** The place named by the [k]-th entry receives the [k]-th datum. *)
Lemma arrange_from_placed (sorted : list Z) (data : list (option A))
      (n : Z) (accum : list (option A)) (k : nat) (i : Z) :
  NoDup sorted -> (forall x, In x sorted -> 0 <= x) ->
  nth_error sorted k = Some i ->
  get (arrange_from sorted data n accum) i = get data (n + Z.of_nat k).
Proof.
  revert n accum k. induction sorted as [| i0 rest IH];
    intros n accum k Hnd Hpos Hk; [destruct k; discriminate |].
  apply NoDup_cons_iff in Hnd as [Hfresh Hnd].
  cbn [arrange_from]. destruct k as [| k]; cbn [nth_error] in Hk.
  - injection Hk as ->.
    rewrite arrange_from_untouched by assumption.
    rewrite get_assign_same by (apply Hpos; left; reflexivity).
    f_equal. lia.
  - rewrite (IH (n + 1) _ k Hnd); [f_equal; lia | | exact Hk].
    intros x Hx. apply Hpos. right. exact Hx.
Qed.

Lemma updateCurrentItems_places (sorted : list Z) (data : list (option A)) :
  NoDup sorted -> (forall i, In i sorted -> 0 <= i) ->
  length data = length sorted ->
  exists cur,
    __updateCurrentItems (Some sorted) (Some data) = Some cur
    /\ (forall k i,
          nth_error sorted k = Some i -> get cur i = get data (Z.of_nat k)).
Proof.
  intros Hnd Hpos Hlen. unfold __updateCurrentItems.
  rewrite Hlen, Z.eqb_refl. cbn [negb].
  eexists. split; [reflexivity |].
  intros k i Hk.
  rewrite (arrange_from_placed sorted data 0 [] k i Hnd Hpos Hk).
  reflexivity.
Qed.

(** X5. With the containers' indices pairwise distinct and not negative,
    and as many data as containers, [__updateCurrentItems] writes an array
    in which the place of the [k]-th sorted container holds the [k]-th
    datum and every place that is no container's index is a hole; with a
    different number of data it writes nothing. *)
Theorem updateCurrentItems_arranged (sorted : list Z)
        (data : list (option A)) :
  NoDup sorted -> (forall i, In i sorted -> 0 <= i) ->
  (length data = length sorted ->
   exists cur,
     __updateCurrentItems (Some sorted) (Some data) = Some cur
     /\ (forall k i,
           nth_error sorted k = Some i -> get cur i = get data (Z.of_nat k))
     /\ (forall j, ~ In j sorted -> get cur j = None))
  /\ (length data <> length sorted ->
      __updateCurrentItems (Some sorted) (Some data) = None).
Proof.
  intros Hnd Hpos. split.
  - intros Hlen. unfold __updateCurrentItems.
    rewrite Hlen, Z.eqb_refl. cbn [negb].
    eexists. split; [reflexivity | split].
    + intros k i Hk.
      rewrite (arrange_from_placed sorted data 0 [] k i Hnd Hpos Hk).
      reflexivity.
    + intros j Hj. rewrite arrange_from_untouched by assumption.
      unfold get. destruct (j <? 0); [reflexivity |].
      destruct (Z.to_nat j); reflexivity.
  - intros Hlen. unfold __updateCurrentItems.
    destruct (Z.eqb_spec (length data) (length sorted)); [contradiction |].
    reflexivity.
Qed.

(** The place of a container among the sorted ones. *)
Lemma findIndex_container (sorted : list Z) (c : Z) :
  In c sorted ->
  exists k,
    findIndex (fun i => i =? c) sorted = Z.of_nat k
    /\ nth_error sorted k = Some c.
Proof.
  intros Hin.
  destruct (findIndex_from_found (fun i => i =? c) sorted 0 c Hin
                                 (Z.eqb_refl c))
    as (k & y & Hk & Hy & Hfy).
  apply Z.eqb_eq in Hfy. subst y.
  exists k. split; [exact Hk | exact Hy].
Qed.

(** Reading the [infinite] window: place [k] holds the item [k] places
    after the start, counted around the collection. *)
Lemma computeData_get_wrapped (items : list (option A)) (count s k : Z) :
  0 <= s < length items -> 0 <= k < count -> count <= length items ->
  exists w,
    __computeData true (Some items) count (Some s) = Some w
    /\ length w = count
    /\ get w k = get items ((s + k) mod length items).
Proof.
  intros Hs Hk Hc. set (L := length items) in *.
  destruct (Z.le_gt_cases (s + count) L) as [Hfit | Hover].
  - eexists. split; [apply computeData_infinite_fits; fold L; lia |].
    split; [rewrite length_slice; fold L; lia |].
    rewrite get_slice by (fold L; lia).
    rewrite Z.mod_small by lia. reflexivity.
  - eexists. split; [apply computeData_wrapped; fold L; lia |].
    split.
    { rewrite length_app, length_slice_from, length_slice; fold L; lia. }
    destruct (Z.lt_ge_cases k (L - s)) as [Htail | Hhead].
    + rewrite get_app_l by (rewrite length_slice_from; fold L; lia).
      unfold slice_from. rewrite get_slice by (fold L; lia).
      rewrite Z.mod_small by lia. reflexivity.
    + rewrite get_app_r by (rewrite length_slice_from; fold L; lia).
      rewrite length_slice_from by (fold L; lia). fold L.
      rewrite get_slice by (fold L; lia).
      replace ((s + k) mod L) with (s + k - L).
      * f_equal. lia.
      * apply Z.mod_unique with 1; lia.
Qed.

(** X6. Where the window does not run past the end ([vs + count <= L]
    for the virtual start [vs >= 0] that [__updateVirtualStart] derives),
    in either mode: after [__computeStart], [__computeData] and
    [__updateCurrentItems], the [k]-th of the sorted containers shows the
    item [k] places after the virtual start. For a virtual index other
    than 0 the container whose index is the container index therefore
    shows the item at the virtual index; at the virtual index 0 the
    virtual start is 0 whatever the order of the containers, and the
    [k]-th sorted container shows item [k]. *)
Theorem container_shows_virtual_index (infinite : bool)
        (items : list (option A)) (sorted : list Z) (vi c : Z) :
  NoDup sorted -> (forall i, In i sorted -> 0 <= i) ->
  let count := length sorted in
  let vs := __updateVirtualStart (Some sorted) vi c in
  0 <= vs -> vs + count <= length items ->
  exists cur,
    __updateCurrentItems
      (Some sorted)
      (__computeData infinite (Some items) count
                     (Some (__computeStart infinite (length items) vs)))
    = Some cur
    /\ (forall k c',
          nth_error sorted k = Some c' ->
          get cur c' = get items (vs + Z.of_nat k))
    /\ (vi <> 0 -> In c sorted -> get cur c = get items vi)
    /\ (vi = 0 -> vs = 0).
Proof.
  intros Hnd Hpos count vs Hvs Hfit.
  assert (Hvi0 : vi = 0 -> vs = 0) by (intros ->; reflexivity).
  destruct sorted as [| c0 rest].
  { pose proof (computeStart_range infinite (length items) vs
                                   ltac:(unfold length; lia)) as Hs.
    set (s := __computeStart infinite (length items) vs) in *.
    assert (Hdata : __computeData infinite (Some items) 0 (Some s)
                    = Some (slice items s (s + 0))).
    { destruct infinite; [apply computeData_infinite_fits; lia |].
      apply computeData_finite. }
    unfold count. change (length (@nil Z)) with 0. rewrite Hdata.
    destruct (updateCurrentItems_places [] (slice items s (s + 0)) Hnd Hpos)
      as (cur & Hcur & _).
    { rewrite length_slice by lia. change (length (@nil Z)) with 0. lia. }
    exists cur. split; [exact Hcur |]. split; [| split].
    - intros [| k] c' Hk; discriminate Hk.
    - intros _ [].
    - exact Hvi0. }
  assert (Hc : 0 < count).
  { unfold count, length. cbn [List.length]. lia. }
  rewrite computeStart_inside by lia.
  assert (Hdata : __computeData infinite (Some items) count (Some vs)
                  = Some (slice items vs (vs + count))).
  { destruct infinite; [apply computeData_infinite_fits; lia |].
    apply computeData_finite. }
  rewrite Hdata.
  destruct (updateCurrentItems_places (c0 :: rest)
              (slice items vs (vs + count)) Hnd Hpos)
    as (cur & Hcur & Hplaced).
  { rewrite length_slice by lia. fold count. lia. }
  assert (Hshow : forall k c',
             nth_error (c0 :: rest) k = Some c' ->
             get cur c' = get items (vs + Z.of_nat k)).
  { intros k c' Hk.
    assert (Hkc : Z.of_nat k < count).
    { unfold count, length.
      apply Nat2Z.inj_lt. apply nth_error_Some. congruence. }
    rewrite (Hplaced k c' Hk).
    rewrite get_slice by lia. reflexivity. }
  exists cur. split; [exact Hcur |]. split; [exact Hshow |]. split.
  - intros Hvi Hin.
    destruct (findIndex_container (c0 :: rest) c Hin) as (k & Hoff & Hk).
    rewrite (Hshow k c Hk). f_equal.
    unfold vs, __updateVirtualStart, falsyZ.
    destruct (Z.eqb_spec vi 0); [contradiction |].
    rewrite Hoff. lia.
  - exact Hvi0.
Qed.

(** X7. In [infinite] mode, with items present, no more containers than
    items and a virtual start [vs >= 0]: after [__computeStart],
    [__computeData] and [__updateCurrentItems], the [k]-th of the sorted
    containers shows the item [k] places after the virtual start, counted
    around the collection. For a virtual index other than 0 the container
    whose index is the container index therefore shows [items[vi mod L]];
    at the virtual index 0 the virtual start is 0 and the [k]-th sorted
    container shows item [k]. *)
Theorem container_shows_wrapped_index (items : list (option A))
        (sorted : list Z) (vi c : Z) :
  NoDup sorted -> (forall i, In i sorted -> 0 <= i) ->
  let count := length sorted in
  let vs := __updateVirtualStart (Some sorted) vi c in
  0 <= vs -> 0 < length items -> count <= length items ->
  exists cur,
    __updateCurrentItems
      (Some sorted)
      (__computeData true (Some items) count
                     (Some (__computeStart true (length items) vs)))
    = Some cur
    /\ (forall k c',
          nth_error sorted k = Some c' ->
          get cur c' = get items ((vs + Z.of_nat k) mod length items))
    /\ (vi <> 0 -> In c sorted -> get cur c = get items (vi mod length items))
    /\ (vi = 0 -> vs = 0).
Proof.
  intros Hnd Hpos count vs Hvs HL Hcount.
  rewrite computeStart_infinite by lia.
  pose proof (Z.mod_pos_bound vs (length items) HL) as Hs.
  assert (Hc0 : 0 <= count) by (unfold count, length; lia).
  assert (Hw : exists w,
             __computeData true (Some items) count
                           (Some (vs mod length items)) = Some w
             /\ length w = count
             /\ forall k,
                 0 <= k < count ->
                 get w k = get items ((vs + k) mod length items)).
  { destruct (Z.le_gt_cases count 0) as [Hnone | Hsome].
    - destruct (Z.le_gt_cases (vs mod length items + count) (length items)).
      + eexists. split; [apply computeData_infinite_fits; lia |].
        split; [rewrite length_slice; lia |]. intros k Hk. lia.
      + lia.
    - destruct (computeData_get_wrapped items count (vs mod length items) 0)
        as (w & Hw & Hlen & _); [lia | lia | lia |].
      exists w. split; [exact Hw |]. split; [exact Hlen |].
      intros k Hk.
      destruct (computeData_get_wrapped items count (vs mod length items) k)
        as (w' & Hw' & _ & Hget); [lia | lia | lia |].
      rewrite Hw in Hw'. injection Hw' as <-.
      rewrite Hget. rewrite Z.add_mod_idemp_l by lia. reflexivity. }
  destruct Hw as (w & Hw & Hlen & Hget).
  rewrite Hw.
  destruct (updateCurrentItems_places sorted w Hnd Hpos)
    as (cur & Hcur & Hplaced); [fold count; lia |].
  assert (Hshow : forall k c',
             nth_error sorted k = Some c' ->
             get cur c' = get items ((vs + Z.of_nat k) mod length items)).
  { intros k c' Hk.
    assert (Hkc : Z.of_nat k < count).
    { unfold count, length.
      apply Nat2Z.inj_lt. apply nth_error_Some. congruence. }
    rewrite (Hplaced k c' Hk). apply Hget. lia. }
  exists cur. split; [exact Hcur |]. split; [exact Hshow |]. split.
  - intros Hvi Hin.
    destruct (findIndex_container sorted c Hin) as (k & Hoff & Hk).
    rewrite (Hshow k c Hk). f_equal. f_equal.
    unfold vs, __updateVirtualStart, falsyZ.
    destruct (Z.eqb_spec vi 0); [contradiction |].
    rewrite Hoff. lia.
  - intros ->. reflexivity.
Qed.

End Arrange.

Lemma updateCurrentItems_arranged_witness :
  let sorted := [2; 0; 1] in
  let data := [Some 10; Some 11; Some 12]%nat in
  NoDup sorted /\ (forall i, In i sorted -> 0 <= i) /\
  length data = length sorted /\
  __updateCurrentItems (Some sorted) (Some data)
  = Some [Some 11; Some 12; Some 10]%nat.
Proof.
  intros sorted data.
  assert (H1 : NoDup sorted).
  { repeat constructor; cbn; intros H; repeat destruct H as [H | H];
      try discriminate H; exact H. }
  assert (H2 : forall i, In i sorted -> 0 <= i).
  { intros i H. cbn in H. repeat destruct H as [H | H];
      try (subst i; discriminate). contradiction. }
  assert (H3 : length data = length sorted) by reflexivity.
  split; [exact H1 | split; [exact H2 | split; [exact H3 |]]].
  destruct (proj1 (updateCurrentItems_arranged sorted data H1 H2) H3)
    as (cur & Hcur & _).
  rewrite Hcur. cbv in Hcur. exact (eq_sym Hcur).
Defined.

Lemma container_shows_virtual_index_witness :
  let sorted := [2; 0; 1] in
  let items := map (fun n => Some n) (seq 0 10) in
  let c := LiteList.__computeContainerIndex 3 5 in
  NoDup sorted /\ In c sorted /\
  exists cur,
    __updateCurrentItems
      (Some sorted)
      (__computeData false (Some items) (length sorted)
         (Some (__computeStart false (length items)
                               (__updateVirtualStart (Some sorted) 5 c))))
    = Some cur
    /\ get cur c = Some 5%nat.
Proof.
  intros sorted items c.
  assert (H1 : NoDup sorted).
  { repeat constructor; cbn; intros H; repeat destruct H as [H | H];
      try discriminate H; exact H. }
  assert (H2 : forall i, In i sorted -> 0 <= i).
  { intros i H. cbn in H. repeat destruct H as [H | H];
      try (subst i; discriminate). contradiction. }
  assert (H3 : In c sorted) by (left; reflexivity).
  split; [exact H1 | split; [exact H3 |]].
  destruct (container_shows_virtual_index false items sorted 5 c H1 H2)
    as (cur & Hcur & _ & Hget & _);
    [vm_compute; discriminate | vm_compute; discriminate |].
  exists cur. split; [exact Hcur |].
  apply Hget; [discriminate | exact H3].
Defined.

Lemma container_shows_wrapped_index_witness :
  let sorted := [2; 0; 1] in
  let items := map (fun n => Some n) (seq 0 5) in
  let c := LiteList.__computeContainerIndex 3 8 in
  NoDup sorted /\ In c sorted /\
  exists cur,
    __updateCurrentItems
      (Some sorted)
      (__computeData true (Some items) (length sorted)
         (Some (__computeStart true (length items)
                               (__updateVirtualStart (Some sorted) 8 c))))
    = Some cur
    /\ get cur c = Some 3%nat.
Proof.
  intros sorted items c.
  assert (H1 : NoDup sorted).
  { repeat constructor; cbn; intros H; repeat destruct H as [H | H];
      try discriminate H; exact H. }
  assert (H2 : forall i, In i sorted -> 0 <= i).
  { intros i H. cbn in H. repeat destruct H as [H | H];
      try (subst i; discriminate). contradiction. }
  assert (H3 : In c sorted) by (left; reflexivity).
  split; [exact H1 | split; [exact H3 |]].
  destruct (container_shows_wrapped_index items sorted 8 c H1 H2)
    as (cur & Hcur & _ & Hget & _);
    [vm_compute; discriminate | reflexivity | vm_compute; discriminate |].
  exists cur. split; [exact Hcur |].
  apply Hget; [discriminate | exact H3].
Defined.

End LiteListItemsFacts.

(** ** [drag-drop-list] *)

Module DragDropListFacts.

Import JsArray JsArrayFacts JsMore JsMoreFacts DragDropList.

Section Facts.

Context {A : Type}.

(** The array without its element at place [o]. *)
Let without (o : nat) (a : list (option A)) : list (option A) :=
  firstn o a ++ skipn (S o) a.

Lemma without_length (o : nat) (a : list (option A)) :
  (o < List.length a)%nat ->
  List.length (without o a) = (List.length a - 1)%nat.
Proof.
  intros H. unfold without.
  rewrite List.length_app, List.length_firstn, List.length_skipn. lia.
Qed.

Lemma splice_out (a : list (option A)) (o : nat) :
  (o < List.length a)%nat ->
  splice a (Z.of_nat o) 1 [] = without o a.
Proof.
  intros H. rewrite DbListFacts.splice_inside by lia.
  unfold without. rewrite Nat2Z.id. cbn [app].
  replace (Z.to_nat (Z.of_nat o + 1)) with (S o) by lia. reflexivity.
Qed.

Lemma spliced_one (a : list (option A)) (o : nat) (x : option A) :
  nth_error a o = Some x -> spliced a (Z.of_nat o) 1 = [x].
Proof.
  intros H.
  assert (Ho : (o < List.length a)%nat)
    by (apply nth_error_Some; congruence).
  unfold spliced. rewrite rel_index_inside by (unfold length; lia).
  rewrite Nat2Z.id.
  replace (Z.to_nat (Z.min (Z.max 1 0) (length a - Z.of_nat o))) with 1%nat
    by (unfold length; lia).
  rewrite <- (firstn_skipn_middle o a H) at 1.
  rewrite skipn_app, List.length_firstn.
  replace (o - Nat.min o (List.length a))%nat with 0%nat by lia.
  rewrite skipn_all2 by (rewrite List.length_firstn; lia).
  reflexivity.
Qed.

(** What a move inside the array leaves: the item taken out of its
    place and put in at the new one. *)
Lemma moveItemArray_inside (a : list (option A)) (o n : nat)
      (x : option A) :
  nth_error a o = Some x -> (n < List.length a)%nat ->
  __moveItemArray a (Z.of_nat o) (Z.of_nat n)
  = firstn n (without o a) ++ x :: skipn n (without o a).
Proof.
  intros Hx Hn.
  assert (Ho : (o < List.length a)%nat)
    by (apply nth_error_Some; congruence).
  unfold __moveItemArray.
  destruct (Z.leb_spec (length a) (Z.of_nat n)); [unfold length in *; lia |].
  rewrite (spliced_one a o x Hx), splice_out by assumption.
  rewrite DbListFacts.splice_inside by lia.
  rewrite Z.add_0_r, Nat2Z.id. reflexivity.
Qed.

Lemma firstn_insert (r : list (option A)) (n : nat) (x : option A) :
  (n <= List.length r)%nat ->
  without n (firstn n r ++ x :: skipn n r) = r
  /\ nth_error (firstn n r ++ x :: skipn n r) n = Some x.
Proof.
  intros H. unfold without. split.
  - rewrite firstn_app, List.length_firstn.
    replace (n - Nat.min n (List.length r))%nat with 0%nat by lia.
    rewrite firstn_firstn, Nat.min_id. cbn [firstn]. rewrite app_nil_r.
    rewrite skipn_app, List.length_firstn.
    rewrite skipn_all2 by (rewrite List.length_firstn; lia).
    replace (S n - Nat.min n (List.length r))%nat with 1%nat by lia.
    cbn [skipn app]. apply firstn_skipn.
  - rewrite nth_error_app2 by (rewrite List.length_firstn; lia).
    rewrite List.length_firstn.
    replace (n - Nat.min n (List.length r))%nat with 0%nat by lia.
    reflexivity.
Qed.

(** X10. Moving the item at [oldIndex] to [newIndex], both inside the
    array: the array keeps its length and its elements (it is a
    permutation of what it was), the item is found at [newIndex], and
    moving it back from [newIndex] to [oldIndex] restores the array. *)
Theorem moveItemArray_moves (a : list (option A)) (o n : nat) :
  (o < List.length a)%nat -> (n < List.length a)%nat ->
  let moved := __moveItemArray a (Z.of_nat o) (Z.of_nat n) in
  List.length moved = List.length a
  /\ nth_error moved n = nth_error a o
  /\ Permutation moved a
  /\ __moveItemArray moved (Z.of_nat n) (Z.of_nat o) = a.
Proof.
  intros Ho Hn moved.
  destruct (nth_error a o) as [x |] eqn:Hx;
    [| apply nth_error_None in Hx; lia].
  pose proof (without_length o a Ho) as Hr.
  assert (Hm : moved = firstn n (without o a) ++ x :: skipn n (without o a))
    by (apply moveItemArray_inside; assumption).
  destruct (firstn_insert (without o a) n x) as [Hback Hat]; [lia |].
  assert (Hlen : List.length moved = List.length a).
  { rewrite Hm, List.length_app, List.length_firstn. cbn [List.length].
    rewrite List.length_skipn. lia. }
  split; [exact Hlen | split; [rewrite Hm; exact Hat | split]].
  - rewrite Hm.
    apply perm_trans with (x :: without o a).
    + apply Permutation_sym.
      rewrite <- (firstn_skipn n (without o a)) at 1.
      apply Permutation_middle.
    + unfold without. rewrite <- (firstn_skipn_middle o a Hx) at 3.
      apply Permutation_middle.
  - rewrite (moveItemArray_inside moved n o x);
      [| rewrite Hm; exact Hat | lia].
    rewrite Hm, Hback. unfold without.
    rewrite firstn_app, List.length_firstn, firstn_firstn, Nat.min_id.
    replace (o - Nat.min o (List.length a))%nat with 0%nat by lia.
    cbn [firstn]. rewrite app_nil_r.
    rewrite skipn_app, List.length_firstn.
    rewrite skipn_all2 by (rewrite List.length_firstn; lia).
    replace (o - Nat.min o (List.length a))%nat with 0%nat by lia.
    cbn [skipn app]. apply (firstn_skipn_middle o a Hx).
Qed.

(** X11. Moving the item at [oldIndex] to a [newIndex] at or past the
    end: the array grows to [newIndex + 1] elements, the item is its last
    one, and the places from the old last one up to [newIndex] are
    [undefined]. *)
Theorem moveItemArray_grows (a : list (option A)) (o n : nat) :
  (o < List.length a)%nat -> (List.length a <= n)%nat ->
  let moved := __moveItemArray a (Z.of_nat o) (Z.of_nat n) in
  List.length moved = S n
  /\ nth_error moved n = nth_error a o
  /\ (forall k,
        (List.length a - 1 <= k < n)%nat -> nth_error moved k = Some None).
Proof.
  intros Ho Hn moved.
  destruct (nth_error a o) as [x |] eqn:Hx;
    [| apply nth_error_None in Hx; lia].
  set (padded := a ++ repeat None (n - List.length a + 1)).
  assert (Hpl : List.length padded = S n)
    by (unfold padded; rewrite List.length_app, repeat_length; lia).
  assert (Hpx : nth_error padded o = Some x)
    by (unfold padded; rewrite nth_error_app1 by lia; exact Hx).
  assert (Hm : moved = without o padded ++ [x]).
  { unfold moved, __moveItemArray.
    destruct (Z.leb_spec (length a) (Z.of_nat n));
      [| unfold length in *; lia].
    replace (Z.to_nat (Z.of_nat n - length a + 1))
      with (n - List.length a + 1)%nat by (unfold length; lia).
    fold padded.
    rewrite (spliced_one padded o x Hpx), splice_out by lia.
    rewrite DbListFacts.splice_inside by lia.
    rewrite Z.add_0_r, Nat2Z.id.
    pose proof (without_length o padded ltac:(lia)) as Hw.
    rewrite firstn_all2, skipn_all2 by lia. reflexivity. }
  pose proof (without_length o padded ltac:(lia)) as Hw.
  split; [rewrite Hm, List.length_app; cbn [List.length]; lia | split].
  - rewrite Hm, nth_error_app2 by lia.
    replace (n - List.length (without o padded))%nat with 0%nat by lia.
    reflexivity.
  - intros k Hk. rewrite Hm, nth_error_app1 by lia.
    unfold without.
    rewrite nth_error_app2 by (rewrite List.length_firstn; lia).
    rewrite List.length_firstn, nth_error_skipn.
    replace (S o + (k - Nat.min o (List.length padded)))%nat with (S k)
      by lia.
    unfold padded. rewrite nth_error_app2 by lia.
    apply nth_error_repeat. lia.
Qed.

End Facts.

Lemma moveItemArray_moves_witness :
  let a := [Some 1; Some 2; Some 3; Some 4]%nat in
  (0 < List.length a)%nat /\ (2 < List.length a)%nat /\
  __moveItemArray a 0 2 = [Some 2; Some 3; Some 1; Some 4]%nat /\
  __moveItemArray (__moveItemArray a 0 2) 2 0 = a.
Proof.
  intro a.
  assert (H1 : (0 < List.length a)%nat) by (cbn; lia).
  assert (H2 : (2 < List.length a)%nat) by (cbn; lia).
  split; [exact H1 | split; [exact H2 | split; [reflexivity |]]].
  exact (proj2 (proj2 (proj2 (moveItemArray_moves a 0 2 H1 H2)))).
Defined.

Lemma moveItemArray_grows_witness :
  let a := [Some 1; Some 2]%nat in
  (0 < List.length a)%nat /\ (List.length a <= 4)%nat /\
  __moveItemArray a 0 4 = [Some 2; None; None; None; Some 1]%nat /\
  List.length (__moveItemArray a 0 4) = 5%nat.
Proof.
  intro a.
  assert (H1 : (0 < List.length a)%nat) by (cbn; lia).
  assert (H2 : (List.length a <= 4)%nat) by (cbn; lia).
  split; [exact H1 | split; [exact H2 | split; [reflexivity |]]].
  exact (proj1 (moveItemArray_grows a 0 4 H1 H2)).
Defined.

End DragDropListFacts.

(** ** [lite-list]: recycling in reverse *)

Module LiteListRecycleFacts.

Import Js Geometry LiteList LiteListRecycle RepositionFacts.

Section Visit.

Variable f : Container -> Container.

Lemma visit_target_length (cs : list Container) (e : SortedEntry) :
  List.length (visit_target f cs e) = List.length cs.
Proof.
  unfold visit_target.
  destruct (nth_error cs (entry_target e)); [apply set_nth_length |].
  reflexivity.
Qed.

Lemma visits_length (es : list SortedEntry) (cs : list Container) :
  List.length (fold_left (visit_target f) es cs) = List.length cs.
Proof.
  revert cs. induction es as [| e rest IH]; intros cs; cbn [fold_left].
  - reflexivity.
  - rewrite IH. apply visit_target_length.
Qed.

(** A container that no entry names is left alone. *)
Lemma visits_untouched (es : list SortedEntry) (cs : list Container)
      (k : nat) :
  ~ In k (map entry_target es) ->
  nth_error (fold_left (visit_target f) es cs) k = nth_error cs k.
Proof.
  revert cs. induction es as [| e rest IH]; intros cs Hk; cbn [fold_left].
  - reflexivity.
  - rewrite IH by (intros H; apply Hk; right; exact H).
    unfold visit_target.
    destruct (nth_error cs (entry_target e)); [| reflexivity].
    apply set_nth_other. intros E. apply Hk. left. exact E.
Qed.

(** A container that the step does not change is left as it is. *)
Lemma visits_fixed (es : list SortedEntry) (cs : list Container) (k : nat)
      (c : Container) :
  f c = c -> nth_error cs k = Some c ->
  nth_error (fold_left (visit_target f) es cs) k = Some c.
Proof.
  intros Hf. revert cs. induction es as [| e rest IH]; intros cs Hc;
    cbn [fold_left]; [exact Hc |].
  apply IH. unfold visit_target.
  destruct (nth_error cs (entry_target e)) as [t |] eqn:Et; [| exact Hc].
  destruct (Nat.eq_dec (entry_target e) k) as [E | E].
  - rewrite E in *. rewrite Hc in Et. injection Et as <-.
    rewrite Hf. apply set_nth_same with c. exact Hc.
  - rewrite set_nth_other by exact E. exact Hc.
Qed.

(** A property that the step keeps holds of all containers
    afterwards. *)
Lemma visits_keep (P : Container -> Prop) (es : list SortedEntry)
      (cs : list Container) :
  (forall c, P c -> P (f c)) ->
  Forall P cs -> Forall P (fold_left (visit_target f) es cs).
Proof.
  intros Hf. revert cs. induction es as [| e rest IH]; intros cs Hcs;
    cbn [fold_left]; [exact Hcs |].
  apply IH. unfold visit_target.
  destruct (nth_error cs (entry_target e)) as [t |] eqn:Et; [| exact Hcs].
  apply Forall_forall. intros c Hin.
  apply In_nth_error in Hin as [k Hk].
  destruct (Nat.eq_dec (entry_target e) k) as [E | E].
  - rewrite <- E in Hk.
    rewrite (set_nth_same _ (f t) t cs Et) in Hk. injection Hk as <-.
    apply Hf. apply (proj1 (Forall_forall P cs) Hcs).
    apply nth_error_In with (entry_target e). exact Et.
  - rewrite set_nth_other in Hk by exact E.
    apply (proj1 (Forall_forall P cs) Hcs).
    apply nth_error_In with k. exact Hk.
Qed.

End Visit.

Local Open Scope Q_scope.

Lemma reverse_container_nonneg (travel : Q) (c : Container) :
  0 <= or_zero (previous c) ->
  0 <= or_zero (previous (reverse_container travel c)).
Proof.
  intros H. unfold reverse_container.
  destruct (falsyQ (or_zero (previous c))); [exact H |].
  unfold Qltb.
  destruct (Qle_bool 0 (or_zero (previous c) - travel)) eqn:E;
    cbn [negb]; [| exact H].
  cbn [__move previous]. rewrite or_zero_some.
  apply Qle_bool_iff. exact E.
Qed.

Lemma reverse_container_synced (travel : Q) (c : Container) :
  synced c -> synced (reverse_container travel c).
Proof.
  intros H. unfold reverse_container.
  destruct (falsyQ _); [exact H |].
  destruct (Qltb _ 0); [exact H | apply move_synced].
Qed.

Lemma reverse_container_rest (travel : Q) (c : Container) :
  or_zero (previous c) == 0 -> reverse_container travel c = c.
Proof.
  intros H. unfold reverse_container.
  apply Qeq_bool_iff in H. unfold falsyQ. rewrite H. reflexivity.
Qed.

(** X12. Whatever is hidden and whatever the travel, [__reverse] keeps
    the number of containers, never leaves a container at a negative
    offset when none was, keeps the applied translation equal to the
    cached one, moves no container other than the hidden ones, and never
    moves a container that rests at offset 0. *)
Theorem reverse_keeps_offsets (layout : string) (travel : Q)
        (hidden visible : list SortedEntry) (cs cs' : list Container) :
  __reverse layout travel hidden visible cs = Some cs' ->
  List.length cs' = List.length cs
  /\ (Forall (fun c => 0 <= or_zero (previous c)) cs ->
      Forall (fun c => 0 <= or_zero (previous c)) cs')
  /\ (Forall synced cs -> Forall synced cs')
  /\ (forall k,
        ~ In k (map entry_target hidden) ->
        nth_error cs' k = nth_error cs k)
  /\ (forall k c,
        nth_error cs k = Some c -> or_zero (previous c) == 0 ->
        nth_error cs' k = Some c).
Proof.
  unfold __reverse, filterAvailable.
  destruct (tail visible) as [reference |]; [| discriminate].
  intros [= <-].
  set (available := filter _ hidden).
  split; [apply visits_length | split; [| split; [| split]]].
  - apply visits_keep. apply reverse_container_nonneg.
  - apply visits_keep. apply reverse_container_synced.
  - intros k Hk. apply visits_untouched.
    intros Hin. apply Hk.
    apply in_map_iff in Hin as (e & He & Hin).
    apply in_map_iff. exists e. split; [exact He |].
    apply (proj1 (filter_In _ _ _) Hin).
  - intros k c Hc Hz. apply visits_fixed; [| exact Hc].
    apply reverse_container_rest. exact Hz.
Qed.

Lemma reverse_keeps_offsets_witness :
  let box t := {| r_bottom := t + 100; r_left := 0; r_right := 100;
                  r_top := t |} in
  let cs := [ mkContainer 0 0 (Some 400) (Some 400);
              mkContainer 1 100 None None;
              mkContainer 2 200 (Some 300) (Some 300) ] in
  let visible := [ mkSortedEntry (box 0) 1 ] in
  let hidden := [ mkSortedEntry (box 300) 0; mkSortedEntry (box 400) 2 ] in
  exists cs',
    __reverse "vertical" 400 hidden visible cs = Some cs'
    /\ map previous cs' = [Some (0 # 1); None; Some (300 # 1)]
    /\ List.length cs' = List.length cs.
Proof.
  intros box cs visible hidden.
  eexists. split; [reflexivity |].
  split; [reflexivity |].
  refine (proj1 (reverse_keeps_offsets "vertical" 400 hidden visible cs
                                       _ _)).
  reflexivity.
Defined.

End LiteListRecycleFacts.

(** ** [DomObserversMixin] *)

Module DomObserversFacts.

Import Js Geometry JsMore DomObserversMixin.

Local Open Scope Q_scope.

(** X14. For sizes that are not negative, the threshold of the earlier
    revision lies in [[0, 1)], and it is 0 when the host is larger than
    the sample. *)
Theorem computeThreshold_range (hostSize sampleSize : Q) :
  0 <= hostSize -> 0 <= sampleSize ->
  let threshold := __computeThreshold (Some hostSize) (Some sampleSize) in
  0 <= threshold /\ threshold < 1
  /\ (sampleSize < hostSize -> threshold = 0).
Proof.
  intros Hh Hs threshold. unfold threshold, __computeThreshold.
  destruct (falsyQ hostSize) eqn:Fh; cbn [orb];
    [repeat split; (discriminate || reflexivity) |].
  destruct (falsyQ sampleSize) eqn:Fs;
    [repeat split; (discriminate || reflexivity) |].
  unfold Qltb.
  destruct (Qle_bool hostSize sampleSize) eqn:E; cbn [negb];
    [| repeat split; (discriminate || reflexivity)].
  apply Qle_bool_iff in E.
  assert (Hh' : 0 < hostSize).
  { apply Qle_lteq in Hh as [H | H]; [exact H |].
    unfold falsyQ in Fh. apply Qeq_bool_neq in Fh. exfalso. apply Fh.
    symmetry. exact H. }
  assert (Hs' : 0 < sampleSize)
    by (apply Qlt_le_trans with hostSize; assumption).
  assert (Hr1 : hostSize / sampleSize <= 1).
  { apply Qle_shift_div_r; [exact Hs' |]. rewrite Qmult_1_l. exact E. }
  assert (Hr0 : 0 < hostSize / sampleSize).
  { apply Qlt_shift_div_l; [exact Hs' |]. rewrite Qmult_0_l. exact Hh'. }
  split; [lra | split; [lra |]].
  intros Hlt. exfalso. exact (Qlt_irrefl _ (Qlt_le_trans _ _ _ Hlt E)).
Qed.

Lemma computeThreshold_range_witness :
  0 <= 300 /\ 0 <= 400 /\
  __computeThreshold (Some 300) (Some 400) == 1 # 4.
Proof.
  assert (H1 : 0 <= 300) by discriminate.
  assert (H2 : 0 <= 400) by discriminate.
  split; [exact H1 | split; [exact H2 |]].
  pose proof (proj1 (computeThreshold_range 300 400 H1 H2)) as H.
  reflexivity.
Defined.

Lemma round_monotone (a b : Q) : a <= b -> (round a <= round b)%Z.
Proof.
  intros H. unfold round. apply Qfloor_resp_le.
  apply Qplus_le_compat; [exact H | apply Qle_refl].
Qed.

(** X15. [__computeHidden] only ever hides entries of the list it is
    given, and never one whose intersection ratio reaches the threshold:
    with a threshold of 0 the hidden entries have ratio 0, with any other
    threshold they have a ratio below it. *)
Theorem computeHidden_below_threshold (entries hidden : list IOEntry)
        (threshold : Q) (e : IOEntry) :
  __computeHidden (Some entries) (Some threshold) = Some hidden ->
  In e hidden ->
  In e entries
  /\ (threshold == 0 -> intersectionRatio e == 0)
  /\ (~ threshold == 0 -> intersectionRatio e < threshold).
Proof.
  unfold __computeHidden.
  destruct (Qeq_bool threshold 0) eqn:E; intros [= <-] Hin;
    apply filter_In in Hin as [Hin Hf].
  - split; [exact Hin | split].
    + intros _. apply Qeq_bool_eq. exact Hf.
    + intros Hne. exfalso. apply Hne. apply Qeq_bool_eq. exact E.
  - split; [exact Hin | split].
    + intros Hz. apply Qeq_bool_neq in E. contradiction.
    + intros _. apply Z.ltb_lt in Hf.
      apply Qnot_le_lt. intros Hle.
      assert (threshold * 1000 <= intersectionRatio e * 1000)
        by (apply Qmult_le_compat_r; [exact Hle | discriminate]).
      pose proof (round_monotone _ _ H). unfold signifigantFigures in Hf.
      lia.
Qed.

Lemma computeHidden_below_threshold_witness :
  let seen := {| intersectionRatio := 1; io_target := 0 |} in
  let part := {| intersectionRatio := 1 # 10; io_target := 1 |} in
  let gone := {| intersectionRatio := 0; io_target := 2 |} in
  __computeHidden (Some [seen; part; gone]) (Some (1 # 4))
  = Some [part; gone]
  /\ intersectionRatio part < 1 # 4.
Proof.
  intros seen part gone.
  assert (H : __computeHidden (Some [seen; part; gone]) (Some (1 # 4))
              = Some [part; gone]) by reflexivity.
  split; [exact H |].
  apply (computeHidden_below_threshold _ _ _ part H).
  - left. reflexivity.
  - discriminate.
Defined.

(** X16. When the observer reports changes for some containers only (not
    one entry per container), the callback of [__observeContainers] keeps
    one entry per container, in the same order: an entry whose target has
    an update is replaced by an update for that target, every other entry
    is kept as it was. *)
Theorem observe_callback_merges (containerCount : Z)
        (current entries merged : list IOEntry) :
  JsArray.length entries <> containerCount ->
  observe_callback containerCount (Some current) entries = Some merged ->
  map io_target merged = map io_target current
  /\ Forall2
       (fun old new =>
          ((forall update,
               In update entries -> io_target update <> io_target old) ->
           new = old)
          /\ ((exists update,
                  In update entries /\ io_target update = io_target old) ->
              In new entries /\ io_target new = io_target old))
       current merged.
Proof.
  intros Hcount. unfold observe_callback.
  destruct (Z.eqb_spec (JsArray.length entries) containerCount);
    [contradiction |].
  intros [= <-].
  set (pick := fun entry : IOEntry =>
                 match find (fun update =>
                               Nat.eqb (io_target update)
                                       (io_target entry)) entries with
                 | Some match_ => match_
                 | None => entry
                 end).
  assert (Hpick : forall old,
             io_target (pick old) = io_target old
             /\ ((forall update,
                     In update entries ->
                     io_target update <> io_target old) ->
                 pick old = old)
             /\ ((exists update,
                     In update entries
                     /\ io_target update = io_target old) ->
                 In (pick old) entries
                 /\ io_target (pick old) = io_target old)).
  { intros old. unfold pick, find.
    destruct (List.find _ entries) as [u |] eqn:F.
    - apply find_some in F as [Hin Heq]. apply Nat.eqb_eq in Heq.
      split; [exact Heq | split].
      + intros Hnone. exfalso. exact (Hnone u Hin Heq).
      + intros _. split; assumption.
    - split; [reflexivity | split; [reflexivity |]].
      intros (u & Hin & Heq). exfalso.
      pose proof (find_none _ _ F u Hin) as Hn. cbn in Hn.
      apply Nat.eqb_neq in Hn. contradiction. }
  split.
  - rewrite map_map. apply map_ext. intros old.
    exact (proj1 (Hpick old)).
  - induction current as [| old rest IH]; cbn [map]; constructor.
    + exact (proj2 (Hpick old)).
    + exact IH.
Qed.

Lemma observe_callback_merges_witness :
  let e (r : Q) (t : nat) := {| intersectionRatio := r; io_target := t |} in
  let current := [e 1%Q 0%nat; e 1%Q 1%nat; e 0%Q 2%nat] in
  let entries := [e 0%Q 0%nat; e 1%Q 2%nat] in
  let merged := [e 0%Q 0%nat; e 1%Q 1%nat; e 1%Q 2%nat] in
  JsArray.length entries <> 3%Z /\
  observe_callback 3 (Some current) entries = Some merged /\
  map io_target merged = map io_target current.
Proof.
  intros e current entries merged.
  assert (H1 : JsArray.length entries <> 3%Z) by discriminate.
  assert (H2 : observe_callback 3 (Some current) entries = Some merged)
    by reflexivity.
  split; [exact H1 | split; [exact H2 |]].
  exact (proj1 (observe_callback_merges 3 current entries merged H1 H2)).
Defined.

End DomObserversFacts.

(** ** [DbListMixin]: anchors, collection and subscriptions *)

Module DbListMoreFacts.

Import Js Geometry JsArray JsArrayFacts JsMore DbListMixin DbListMixinOps.
Import Samples.

(** *** The anchor of the live window *)

Lemma half_ceiling (c : Z) : Qceiling (inject_Z c / 2) = - ((- c) / 2).
Proof. exact (JsMoreFacts.ceil_div_pos c 2 eq_refl). Qed.

(** X18. With a pagination stored whose index is not negative and a
    visible count [v] that is not negative, the anchor [_index] of the
    subscription is defined and not negative; scrolling forward it trails
    the pagination index by half of [v], rounded up (less where that
    would pass the start of the list); scrolling in reverse it leads the
    pagination index by [v] and half of [v], rounded up. *)
Theorem index_trails_scroll (st : State) (p : Pagination) :
  _pagination st = Some p ->
  0 <= index p -> 0 <= _visibleCount st ->
  exists i,
    _index st = Some i
    /\ 0 <= i
    /\ match direction p with
       | forward =>
           i <= index p
           /\ 2 * (index p - i) <= _visibleCount st + 1
           /\ (0 < i -> _visibleCount st <= 2 * (index p - i))
       | reverse =>
           index p + _visibleCount st <= i
           /\ 3 * _visibleCount st <= 2 * (i - index p)
              <= 3 * _visibleCount st + 1
       end.
Proof.
  intros Hp Hi Hv. unfold _index, _lag. rewrite Hp. cbn [option_map].
  revert Hv. generalize (_visibleCount st). intros v Hv.
  unfold __computeIndex, __computeLag. rewrite half_ceiling.
  eexists. split; [reflexivity |].
  destruct (direction p); Z.div_mod_to_equations; lia.
Qed.

Lemma index_trails_scroll_witness :
  let st := set_pagination (Some (sample_pagination reverse 40))
                           sample_state in
  _pagination st = Some (sample_pagination reverse 40) /\
  0 <= index (sample_pagination reverse 40) /\
  0 <= _visibleCount st /\
  exists i, _index st = Some i /\ 0 <= i.
Proof.
  intros st.
  assert (H1 : _pagination st = Some (sample_pagination reverse 40))
    by reflexivity.
  assert (H2 : 0 <= index (sample_pagination reverse 40)) by discriminate.
  assert (H3 : 0 <= _visibleCount st) by discriminate.
  split; [exact H1 | split; [exact H2 | split; [exact H3 |]]].
  destruct (index_trails_scroll st _ H1 H2 H3) as (i & Hi & Hpos & _).
  exists i. split; assumption.
Defined.

(** *** Batches and garbage collection *)

Lemma batchSize_small (st : State) :
  (forall m, _max st = Some m -> m <= 20) ->
  _batchSize st = 20.
Proof.
  intros Hmax. unfold _batchSize, __computeBatchSize, _min.
  destruct (_max st) as [m |]; [| reflexivity].
  specialize (Hmax m eq_refl). lia.
Qed.

(** X19. As long as the list has reported no more than 20 containers (or
    none yet), batches hold 20 records, a new window is requested every
    10 indices, and [__garbageCollect] leaves the state as it is for
    every anchor and direction: nothing is ever cleared. *)
Theorem small_lists_not_collected (st : State) (index : option Z)
        (direction : Direction) :
  (forall m, _max st = Some m -> m <= 20) ->
  _batchSize st = 20
  /\ _resolution st = 10
  /\ __garbageCollect index direction (_batchSize st) st = Normal st.
Proof.
  intros Hmax. pose proof (batchSize_small st Hmax) as Hb.
  split; [exact Hb |]. split.
  - unfold _resolution. rewrite Hb. reflexivity.
  - rewrite Hb. unfold __garbageCollect.
    destruct index; [| reflexivity].
    destruct (_pagination st); reflexivity.
Qed.

Lemma small_lists_not_collected_witness :
  let record := Some {| uid := Some "u"%string; doc := Some 7%nat |} in
  let st :=
    set_listItems (Some (repeat record 200))
      (mkState (constraints sample_state) (layout sample_state)
               (reverseConstraints sample_state) true true false None
               (Some 12) (_pagination sample_state) None
               (_ref sample_state) None None []) in
  (forall m, _max st = Some m -> m <= 20) /\
  __garbageCollect (Some 150) forward (_batchSize st) st = Normal st.
Proof.
  intros record st.
  assert (H : forall m, _max st = Some m -> m <= 20).
  { intros m [= <-]. discriminate. }
  split; [exact H |].
  exact (proj2 (proj2 (small_lists_not_collected st (Some 150) forward H))).
Defined.

(** Over an existing array a collection ends normally, with an array. *)
Lemma garbageCollect_normal (index : option Z) (direction : Direction)
      (batchSize : Z) (st : State) (items : list (option Item)) :
  _listItems st = Some items ->
  exists items',
    __garbageCollect index direction batchSize st
    = Normal (set_listItems (Some items') st).
Proof.
  intros Hitems.
  assert (Hnoop : exists items',
             Normal st = Normal (set_listItems (Some items') st)).
  { exists items. rewrite <- Hitems, DbListFacts.set_listItems_same.
    reflexivity. }
  unfold __garbageCollect.
  destruct index as [i |]; [| exact Hnoop].
  destruct (_pagination st); [| exact Hnoop].
  destruct (batchSize <=? _min); [exact Hnoop |].
  rewrite Hitems.
  destruct direction; cbn [option_map];
    (destruct (_ <? 0); [exact Hnoop |]);
    (destruct (_ || _)%bool; [exact Hnoop |]);
    eexists; reflexivity.
Qed.

Lemma clear_run_again {A : Type} (l : list A) (run : list A) (s c : nat) :
  (s + c <= List.length l)%nat -> List.length run = c ->
  let l' := firstn s l ++ run ++ skipn (s + c) l in
  firstn s l' ++ run ++ skipn (s + c) l' = l'.
Proof.
  intros Hl Hrun l'. subst l'.
  assert (Hf : List.length (firstn s l) = s)
    by (rewrite List.length_firstn; lia).
  f_equal.
  - rewrite firstn_app, Hf, Nat.sub_diag, firstn_O, app_nil_r.
    rewrite firstn_firstn. f_equal. lia.
  - f_equal.
    rewrite skipn_app, Hf.
    rewrite (skipn_all2 (firstn s l)) by lia.
    replace (s + c - s)%nat with (List.length run) by lia.
    rewrite skipn_app, skipn_all, Nat.sub_diag. reflexivity.
Qed.

(** A collection over an array, once the guards on the anchor, the
    pagination and the batch size are passed. *)
Lemma garbageCollect_array (i : Z) (direction : Direction) (batchSize : Z)
      (st : State) (p : Pagination) (items : list (option Item)) :
  _pagination st = Some p -> _min < batchSize ->
  __garbageCollect (Some i) direction batchSize
                   (set_listItems (Some items) st)
  = let garbageIndex :=
      match direction with
      | forward => i - batchSize * 2
      | reverse => i + batchSize * 2
      end in
    let count :=
      clamp 0 batchSize
            match direction with
            | forward => garbageIndex
            | reverse => length items - garbageIndex
            end in
    let start :=
      match direction with
      | forward => garbageIndex - count
      | reverse => garbageIndex
      end in
    if (start <? 0) || (length items <? start + count) || (count =? 0)
    then Normal (set_listItems (Some items) st)
    else Normal
           (set_listItems
              (Some (splice items start count (fill count None))) st).
Proof.
  intros Hp Hb. unfold __garbageCollect.
  change (_pagination (set_listItems (Some items) st))
    with (_pagination st).
  rewrite Hp.
  destruct (Z.leb_spec batchSize _min); [lia |].
  change (_listItems (set_listItems (Some items) st)) with (Some items).
  cbv zeta.
  destruct direction; cbn [option_map];
    (destruct (_ <? 0); [reflexivity |]); cbn [orb];
    destruct (_ || _)%bool; reflexivity.
Qed.

Lemma garbageCollect_array_again (index : option Z) (direction : Direction)
      (batchSize : Z) (st : State) (items : list (option Item)) :
  let once :=
    state_of (__garbageCollect index direction batchSize
                               (set_listItems (Some items) st)) in
  state_of (__garbageCollect index direction batchSize once) = once.
Proof.
  intros once. subst once.
  pose proof (length_nonneg items) as Hlen.
  assert (Hnoop :
            __garbageCollect index direction batchSize
                             (set_listItems (Some items) st)
            = Normal (set_listItems (Some items) st) ->
            state_of
              (__garbageCollect index direction batchSize
                 (state_of
                    (__garbageCollect index direction batchSize
                                      (set_listItems (Some items) st))))
            = state_of
                (__garbageCollect index direction batchSize
                                  (set_listItems (Some items) st))).
  { intros E. rewrite E. cbn [state_of]. rewrite E. reflexivity. }
  destruct index as [i |]; [| apply Hnoop; reflexivity].
  destruct (_pagination st) as [p |] eqn:Hp.
  2: { apply Hnoop. unfold __garbageCollect.
       change (_pagination (set_listItems (Some items) st))
         with (_pagination st).
       rewrite Hp. reflexivity. }
  destruct (Z.leb_spec batchSize _min) as [Hsmall | Hb].
  { apply Hnoop. unfold __garbageCollect.
    change (_pagination (set_listItems (Some items) st))
      with (_pagination st).
    rewrite Hp.
    destruct (Z.leb_spec batchSize _min); [reflexivity | lia]. }
  pose proof (garbageCollect_array i direction batchSize st p items Hp Hb)
    as Hgc.
  cbv zeta in Hgc.
  set (garbageIndex :=
         match direction with
         | forward => i - batchSize * 2
         | reverse => i + batchSize * 2
         end) in *.
  set (count :=
         clamp 0 batchSize
               match direction with
               | forward => garbageIndex
               | reverse => length items - garbageIndex
               end) in *.
  set (start :=
         match direction with
         | forward => garbageIndex - count
         | reverse => garbageIndex
         end) in *.
  destruct (Z.ltb_spec start 0) as [Hneg | Hstart];
    [apply Hnoop; exact Hgc |].
  destruct (Z.ltb_spec (length items) (start + count)) as [Hout | Hend];
    [apply Hnoop; exact Hgc |].
  destruct (Z.eqb_spec count 0) as [Hzero | Hcount];
    [apply Hnoop; exact Hgc |].
  cbn [orb] in Hgc. rewrite Hgc. cbn [state_of].
  assert (Hrange : 0 <= count <= batchSize)
    by (apply DbListFacts.clamp_range; unfold _min in Hb; lia).
  assert (Hfill : length (fill count (@None Item)) = count)
    by (apply DbListFacts.length_fill; lia).
  assert (Hsame : length (splice items start count (fill count None))
                  = length items).
  { unfold length. f_equal.
    apply DbListFacts.splice_same_length; assumption. }
  rewrite (garbageCollect_array i direction batchSize st p _ Hp Hb).
  cbv zeta. rewrite Hsame.
  fold garbageIndex. fold count. fold start.
  destruct (Z.ltb_spec start 0); [lia |].
  destruct (Z.ltb_spec (length items) (start + count)); [lia |].
  destruct (Z.eqb_spec count 0); [lia |].
  cbn [orb state_of]. do 2 f_equal.
  rewrite !DbListFacts.splice_inside by lia.
  replace (Z.to_nat (start + count))
    with (Z.to_nat start + Z.to_nat count)%nat by lia.
  apply clear_run_again.
  - unfold length in Hend. lia.
  - unfold fill. apply repeat_length.
Qed.

(** X20. For batches of more than 20 records, a stored pagination and an
    existing backing array, [__garbageCollect] clears exactly one run of
    elements or nothing. With [g = i - 2 * batchSize] for the anchor [i],
    scrolling forward it clears the [min(g, batchSize)] elements right in
    front of index [g] when [1 <= g <= length]; with
    [g = i + 2 * batchSize], in reverse it clears the
    [min(length - g, batchSize)] elements from index [g] on when
    [0 <= g < length]; every other element keeps its place, and in every
    other case the state is left as it is. *)
Theorem garbageCollect_clears_one_run (i : Z) (direction : Direction)
        (batchSize : Z) (st : State) (p : Pagination)
        (items : list (option Item)) :
  _listItems st = Some items -> _pagination st = Some p -> 20 < batchSize ->
  let g :=
    match direction with
    | forward => i - 2 * batchSize
    | reverse => i + 2 * batchSize
    end in
  let count :=
    match direction with
    | forward => Z.min g batchSize
    | reverse => Z.min (length items - g) batchSize
    end in
  let start :=
    match direction with
    | forward => g - count
    | reverse => g
    end in
  let reached :=
    match direction with
    | forward => 1 <= g <= length items
    | reverse => 0 <= g < length items
    end in
  (reached ->
   1 <= count <= batchSize
   /\ 0 <= start
   /\ start + count <= length items
   /\ __garbageCollect (Some i) direction batchSize st
      = Normal
          (set_listItems
             (Some (firstn (Z.to_nat start) items
                    ++ repeat None (Z.to_nat count)
                    ++ skipn (Z.to_nat (start + count)) items)) st))
  /\ (~ reached ->
      __garbageCollect (Some i) direction batchSize st = Normal st).
Proof.
  intros Hitems Hp Hb g count start reached.
  assert (Est : st = set_listItems (Some items) st)
    by (rewrite <- Hitems; symmetry; apply DbListFacts.set_listItems_same).
  pose proof (garbageCollect_array i direction batchSize st p items Hp Hb)
    as Hgc.
  rewrite <- Est in Hgc. cbv zeta in Hgc.
  pose proof (length_nonneg items) as Hlen.
  unfold clamp in Hgc.
  split.
  - intros Hreached.
    assert (Hfacts : 1 <= count <= batchSize /\ 0 <= start
                     /\ start + count <= length items)
      by (unfold reached, start, count, g in *; destruct direction; lia).
    destruct Hfacts as (Hc & Hs & He).
    split; [exact Hc |]. split; [exact Hs |]. split; [exact He |].
    rewrite Hgc.
    replace (Z.min (Z.max 0 match direction with
                            | forward =>
                                match direction with
                                | forward => i - batchSize * 2
                                | reverse => i + batchSize * 2
                                end
                            | reverse =>
                                length items
                                - match direction with
                                  | forward => i - batchSize * 2
                                  | reverse => i + batchSize * 2
                                  end
                            end) batchSize)
      with count
      by (unfold reached, start, count, g in *; destruct direction; lia).
    replace (match direction with
             | forward =>
                 match direction with
                 | forward => i - batchSize * 2
                 | reverse => i + batchSize * 2
                 end - count
             | reverse =>
                 match direction with
                 | forward => i - batchSize * 2
                 | reverse => i + batchSize * 2
                 end
             end)
      with start
      by (unfold start, g; destruct direction; lia).
    destruct (Z.ltb_spec start 0); [lia |].
    destruct (Z.ltb_spec (length items) (start + count)); [lia |].
    destruct (Z.eqb_spec count 0); [lia |].
    cbn [orb].
    rewrite DbListFacts.splice_inside by lia.
    reflexivity.
  - intros Hnot. rewrite Hgc.
    destruct direction; unfold reached, g in Hnot;
      repeat match goal with
             | |- context [Z.ltb ?a ?b] => destruct (Z.ltb_spec a b)
             | |- context [Z.eqb ?a ?b] => destruct (Z.eqb_spec a b)
             end;
      cbn [orb]; try reflexivity; exfalso; lia.
Qed.

Lemma garbageCollect_clears_one_run_witness :
  let record := Some {| uid := Some "u"%string; doc := Some 7%nat |} in
  let items := repeat record 200 in
  let st := set_listItems (Some items) sample_state in
  _listItems st = Some items /\
  _pagination st = Some (sample_pagination forward 0) /\
  20 < 25 /\ 1 <= 80 - 2 * 25 <= length items /\
  __garbageCollect (Some 80) forward 25 st
  = Normal
      (set_listItems
         (Some (repeat record 5 ++ repeat None 25 ++ repeat record 170))
         st).
Proof.
  intros record items st.
  assert (H1 : _listItems st = Some items) by reflexivity.
  assert (H2 : _pagination st = Some (sample_pagination forward 0))
    by reflexivity.
  assert (H3 : 20 < 25) by reflexivity.
  assert (H4 : 1 <= 80 - 2 * 25 <= length items)
    by (split; discriminate).
  split; [exact H1 | split; [exact H2 | split; [exact H3 |]]].
  split; [exact H4 |].
  destruct (proj1 (garbageCollect_clears_one_run 80 forward 25 st _ items
                                                 H1 H2 H3) H4)
    as (_ & _ & _ & Hgc).
  rewrite Hgc. reflexivity.
Defined.

(** X21. Collecting twice for the same anchor, direction and batch size
    is collecting once: the second call finds the run already cleared
    and leaves the state of the first, whether or not a backing array
    exists. *)
Theorem garbageCollect_idempotent (index : option Z) (direction : Direction)
        (batchSize : Z) (st : State) :
  let once := state_of (__garbageCollect index direction batchSize st) in
  state_of (__garbageCollect index direction batchSize once) = once.
Proof.
  intros once. subst once.
  destruct (_listItems st) as [items |] eqn:Hitems.
  - assert (Est : st = set_listItems (Some items) st)
      by (rewrite <- Hitems; symmetry;
          apply DbListFacts.set_listItems_same).
    rewrite Est. apply garbageCollect_array_again.
  - rewrite (DbListFacts.garbageCollect_no_array _ _ _ st Hitems).
    apply DbListFacts.garbageCollect_no_array. exact Hitems.
Qed.

(** *** Pagination events while a fetch is in flight *)

(** While a fetch is in flight a pagination event is dropped or parked. *)
Lemma handler_busy (pagination : Pagination) (st : State) :
  _busy st = true ->
  __paginationChangedHandler pagination st = st
  \/ __paginationChangedHandler pagination st
     = set_paginationWaiting (Some pagination) st.
Proof.
  intros Hbusy. unfold __paginationChangedHandler.
  destruct (_endDetected st && _)%bool; [left; reflexivity |].
  destruct (_ && _ && _)%bool; [left; reflexivity |].
  destruct (_ && _)%bool; [left; reflexivity |].
  destruct (_ && _ && _)%bool; [left; reflexivity |].
  rewrite Hbusy. right. reflexivity.
Qed.

Lemma handler_busy_index (pagination : Pagination) (st : State) :
  _busy st = true ->
  _index (__paginationChangedHandler pagination st) = _index st.
Proof.
  intros Hbusy.
  destruct (handler_busy pagination st Hbusy) as [-> | ->]; reflexivity.
Qed.

(** X22. While a fetch is in flight ([_busy]), a pagination event never
    replaces the stored pagination: it is either dropped or parked in
    [_paginationWaiting]. The anchor stays where it is, so the
    subscription observer does not run: nothing is unsubscribed and
    nothing is subscribed. *)
Theorem busy_parks_pagination (pagination : Pagination) (st : State) :
  _busy st = true ->
  let st' := __paginationChangedHandler pagination st in
  (st' = st \/ st' = set_paginationWaiting (Some pagination) st)
  /\ _pagination st' = _pagination st
  /\ _index st' = _index st
  /\ pagination_changed pagination st = Normal st'
  /\ effects st' = effects st
  /\ _unsubscribe st' = _unsubscribe st.
Proof.
  intros Hbusy st'.
  pose proof (handler_busy pagination st Hbusy) as Hcases.
  pose proof (handler_busy_index pagination st Hbusy) as Hindex.
  fold st' in Hcases, Hindex.
  split; [exact Hcases |].
  split; [destruct Hcases as [-> | ->]; reflexivity |].
  split; [exact Hindex |].
  split.
  - unfold pagination_changed, run_observers. fold st'.
    rewrite Hindex, DbListFacts.optZ_eqb_refl. reflexivity.
  - destruct Hcases as [-> | ->]; split; reflexivity.
Qed.

Lemma busy_parks_pagination_witness :
  let request := sample_pagination forward 10 in
  _busy sample_state = true /\
  pagination_changed request sample_state
  = Normal (set_paginationWaiting (Some request) sample_state).
Proof.
  intros request.
  assert (H : _busy sample_state = true) by reflexivity.
  split; [exact H |].
  exact (proj1 (proj2 (proj2 (proj2
           (busy_parks_pagination request sample_state H))))).
Defined.

(** What a response that is not stale leaves in the properties that
    drive pagination. *)
Lemma callback_completes (index : option Z) (direction : Direction)
      (raw : list Item) (st : State) :
  optZ_eqb index (_index st) = true ->
  let st' := callback index direction raw st in
  _busy st' = false
  /\ _paginationWaiting st' = None
  /\ _pagination st'
     = match _paginationWaiting st with
       | Some waiting => Some waiting
       | None => _pagination st
       end
  /\ effects st' = effects st
  /\ _unsubscribe st' = _unsubscribe st.
Proof.
  intros Hfresh. unfold callback. rewrite Hfresh. cbn [negb].
  set (results := match direction with
                  | forward => filter has_uid raw
                  | reverse => rev (filter has_uid raw)
                  end).
  set (counted := assign_resultsCount (length results) st).
  assert (Hc : _paginationWaiting counted = _paginationWaiting st
               /\ _pagination counted = _pagination st
               /\ effects counted = effects st
               /\ _unsubscribe counted = _unsubscribe st).
  { unfold counted, assign_resultsCount.
    destruct (optZ_eqb (_resultsCount st) _); [repeat split |].
    unfold __resultsCountChanged.
    destruct (_ && _)%bool; cbn; repeat split; reflexivity. }
  destruct Hc as (Hw & Hp & He & Hu).
  destruct (_listItems counted); cbn; rewrite Hw;
    destruct (_paginationWaiting st); cbn; repeat split; assumption.
Qed.

(** *** What a response writes *)

Lemma firstn_subset {A : Type} (x : A) (n : nat) (l : list A) :
  In x (firstn n l) -> In x l.
Proof.
  intros H. rewrite <- (firstn_skipn n l). apply in_or_app. left. exact H.
Qed.

Lemma skipn_subset {A : Type} (x : A) (n : nat) (l : list A) :
  In x (skipn n l) -> In x l.
Proof.
  intros H. rewrite <- (firstn_skipn n l). apply in_or_app. right. exact H.
Qed.

Lemma index_nonneg (st : State) (i : Z) : _index st = Some i -> 0 <= i.
Proof.
  unfold _index, __computeIndex.
  destruct (option_map index (_pagination st)); [| discriminate].
  intros [= <-]. lia.
Qed.

Lemma splice_start_nonneg (direction : Direction) (index : option Z)
      (count : Z) (st : State) :
  optZ_eqb index (_index st) = true ->
  0 <= splice_start direction index count.
Proof.
  intros Hfresh. apply DbListFacts.optZ_eqb_eq in Hfresh.
  unfold splice_start.
  destruct direction, index as [i |]; try lia.
  apply (index_nonneg st). symmetry. exact Hfresh.
Qed.

Lemma results_valid (direction : Direction) (raw : list Item) (item : Item) :
  In item match direction with
          | forward => filter has_uid raw
          | reverse => rev (filter has_uid raw)
          end
  <-> In item raw /\ has_uid item = true.
Proof.
  destruct direction.
  - apply filter_In.
  - rewrite <- in_rev. apply filter_In.
Qed.

(** *** Starting and cancelling a subscription *)

Lemma no_length_nonempty {A : Type} (l : list A) :
  l <> [] -> no_length (Some l) = false.
Proof. destruct l; [contradiction | reflexivity]. Qed.

Lemma unsub_fields (st : State) :
  _unsubscribe (__unsub st) = None
  /\ effects (__unsub st)
     = effects st ++ match _unsubscribe st with
                     | Some old => [Unsubscribed old]
                     | None => []
                     end
  /\ _busy (__unsub st) = _busy st
  /\ _listItems (__unsub st) = _listItems st
  /\ _pagination (__unsub st) = _pagination st.
Proof.
  unfold __unsub. destruct (_unsubscribe st) eqn:E; cbn.
  - repeat split.
  - rewrite app_nil_r. repeat split. exact E.
Qed.

(** The guard of [__updateItems] lets a call through. *)
Lemma updateItems_guard (cs rcs : list QueryConstraint) (batchSize : Z)
      (index : option Z) (st : State) :
  cs <> [] -> rcs <> [] -> batchSize <> 0 ->
  (forall i, index = Some i -> 0 < i -> anchor_doc st index <> None) ->
  no_length (Some cs) || no_length (Some rcs) || falsyZ batchSize
  || (match index with Some i => 0 <? i | None => false end
      && match anchor_doc st index with None => true | _ => false end)
  = false.
Proof.
  intros Hcs Hrcs Hb Hanchor.
  rewrite (no_length_nonempty cs Hcs), (no_length_nonempty rcs Hrcs).
  unfold falsyZ. destruct (Z.eqb_spec batchSize 0); [contradiction |].
  cbn [orb].
  destruct index as [i |]; [| reflexivity].
  destruct (Z.ltb_spec 0 i) as [Hi |]; [| reflexivity].
  specialize (Hanchor i eq_refl Hi).
  destruct (anchor_doc st (Some i)); [reflexivity | contradiction].
Qed.

(** X25. Called for a visible list with constraints for both directions,
    a collection reference, a batch size other than 0 and, past the
    start, a record with its document at the anchor, [__updateItems]
    over an existing array ends normally with one live subscription: the
    previous subscription, if any, is cancelled first and the new one is
    started after it, [_busy] is set, and the subscription is the stored
    one. Its query ends with the limit [batchSize]; past the start it
    is the constraints of the scroll direction followed by a cursor at
    the document of the anchor record; at the start (or without an
    anchor) it is the forward constraints without a cursor, whatever the
    direction. *)
Theorem updateItems_subscribes (cs rcs : list QueryConstraint) (ref : Ref)
        (batchSize : Z) (index : option Z) (st : State)
        (items : list (option Item)) :
  cs <> [] -> rcs <> [] -> batchSize <> 0 ->
  _listItems st = Some items ->
  (forall i, index = Some i -> 0 < i -> anchor_doc st index <> None) ->
  exists st' sub,
    __updateItems true (Some cs) (Some rcs) (Some ref) batchSize index st
    = Normal st'
    /\ _busy st' = true
    /\ _unsubscribe st' = Some sub
    /\ effects st'
       = effects st ++ match _unsubscribe st with
                       | Some old => [Unsubscribed old; Subscribed sub]
                       | None => [Subscribed sub]
                       end
    /\ sub_ref sub = ref
    /\ sub_index sub = index
    /\ sub_direction sub
       = match _pagination st with
         | Some p => direction p
         | None => forward
         end
    /\ (forall i,
           index = Some i -> 0 < i ->
           exists d,
             anchor_doc st index = Some d
             /\ sub_query sub
                = match sub_direction sub with
                  | forward => cs
                  | reverse => rcs
                  end ++ [startAt (Some d); limit batchSize])
    /\ ((forall i, index = Some i -> i <= 0) ->
        sub_query sub = cs ++ [limit batchSize]).
Proof.
  intros Hcs Hrcs Hb Hitems Hanchor.
  unfold __updateItems.
  rewrite (updateItems_guard cs rcs batchSize index st Hcs Hrcs Hb Hanchor).
  cbn [negb].
  destruct (unsub_fields st) as (Hu & He & _ & Hl & Hp).
  set (st1 := set_busy true (__unsub st)).
  assert (Hp1 : _pagination st1 = _pagination st) by exact Hp.
  assert (Hl1 : _listItems st1 = Some items)
    by (rewrite <- Hitems; exact Hl).
  rewrite Hp1.
  set (dir := match _pagination st with
              | Some p => direction p
              | None => forward
              end).
  destruct (garbageCollect_normal index dir batchSize st1 items Hl1)
    as (items' & Hgc).
  rewrite Hgc.
  do 2 eexists. split; [reflexivity |].
  split; [reflexivity |]. split; [reflexivity |].
  split.
  { unfold st1.
    cbn [effects set_unsubscribe emit set_listItems set_busy].
    rewrite He.
    destruct (_unsubscribe st); cbn [app].
    - rewrite <- app_assoc. reflexivity.
    - rewrite app_nil_r. reflexivity. }
  split; [reflexivity |]. split; [reflexivity |]. split; [reflexivity |].
  cbn [sub_query sub_direction]. unfold getQueryConstraints. split.
  - intros i -> Hi. specialize (Hanchor i eq_refl Hi).
    destruct (anchor_doc st (Some i)) as [d |]; [| contradiction].
    exists d. split; [reflexivity |].
    destruct (Z.ltb_spec 0 i); [| lia].
    rewrite <- app_assoc. destruct dir; reflexivity.
  - intros Hstart.
    destruct index as [i |].
    + specialize (Hstart i eq_refl).
      destruct (Z.ltb_spec 0 i); [lia |].
      destruct dir; reflexivity.
    + destruct dir; reflexivity.
Qed.

Lemma updateItems_subscribes_witness :
  let loaded n := Some {| uid := Some "u"%string; doc := Some n |} in
  let items := [loaded 0; loaded 1; loaded 2; loaded 3; loaded 4]%nat in
  let old := {| sub_ref := 0%nat; sub_query := [limit 25];
                sub_index := Some 0; sub_direction := forward |} in
  let st := set_unsubscribe (Some old)
                            (set_listItems (Some items) sample_state) in
  [userConstraint 0] <> [] /\ [userConstraint 1] <> [] /\ 25 <> 0 /\
  _listItems st = Some items /\
  (forall i, Some 3 = Some i -> 0 < i -> anchor_doc st (Some 3) <> None) /\
  exists st' sub,
    __updateItems true (Some [userConstraint 0]) (Some [userConstraint 1])
                  (Some 0%nat) 25 (Some 3) st
    = Normal st'
    /\ effects st' = [Unsubscribed old; Subscribed sub].
Proof.
  intros loaded items old st.
  assert (H1 : [userConstraint 0] <> []) by discriminate.
  assert (H2 : [userConstraint 1] <> []) by discriminate.
  assert (H3 : 25 <> 0) by discriminate.
  assert (H4 : _listItems st = Some items) by reflexivity.
  assert (H5 : forall i, Some 3 = Some i -> 0 < i ->
                         anchor_doc st (Some 3) <> None)
    by (intros i _ _; discriminate).
  split; [exact H1 | split; [exact H2 | split; [exact H3 |]]].
  split; [exact H4 | split; [exact H5 |]].
  destruct (updateItems_subscribes [userConstraint 0] [userConstraint 1]
              0%nat 25 (Some 3) st items H1 H2 H3 H4 H5)
    as (st' & sub & Hrun & _ & _ & Heff & _).
  exists st', sub. split; [exact Hrun | exact Heff].
Defined.

(** X26. Called for a list that is not visible, with arguments that pass
    its guard, [__updateItems] cancels the live subscription, if any,
    and starts none: no subscription is stored afterwards, [_busy] and
    the backing array are as they were, and nothing is collected. *)
Theorem updateItems_invisible_cancels (cs rcs : list QueryConstraint)
        (ref : Ref) (batchSize : Z) (index : option Z) (st : State) :
  cs <> [] -> rcs <> [] -> batchSize <> 0 ->
  (forall i, index = Some i -> 0 < i -> anchor_doc st index <> None) ->
  exists st',
    __updateItems false (Some cs) (Some rcs) (Some ref) batchSize index st
    = Normal st'
    /\ _unsubscribe st' = None
    /\ effects st'
       = effects st ++ match _unsubscribe st with
                       | Some old => [Unsubscribed old]
                       | None => []
                       end
    /\ _busy st' = _busy st
    /\ _listItems st' = _listItems st
    /\ _pagination st' = _pagination st.
Proof.
  intros Hcs Hrcs Hb Hanchor.
  unfold __updateItems.
  rewrite (updateItems_guard cs rcs batchSize index st Hcs Hrcs Hb Hanchor).
  cbn [negb].
  exists (__unsub st). split; [reflexivity |]. apply unsub_fields.
Qed.

Lemma updateItems_invisible_cancels_witness :
  let old := {| sub_ref := 0%nat; sub_query := [limit 25];
                sub_index := Some 0; sub_direction := forward |} in
  let st := set_unsubscribe (Some old) sample_state in
  [userConstraint 0] <> [] /\ [userConstraint 1] <> [] /\ 25 <> 0 /\
  (forall i, Some 0 = Some i -> 0 < i -> anchor_doc st (Some 0) <> None) /\
  exists st',
    __updateItems false (Some [userConstraint 0]) (Some [userConstraint 1])
                  (Some 0%nat) 25 (Some 0) st
    = Normal st'
    /\ _unsubscribe st' = None
    /\ effects st' = [Unsubscribed old].
Proof.
  intros old st.
  assert (H1 : [userConstraint 0] <> []) by discriminate.
  assert (H2 : [userConstraint 1] <> []) by discriminate.
  assert (H3 : 25 <> 0) by discriminate.
  assert (H4 : forall i, Some 0 = Some i -> 0 < i ->
                         anchor_doc st (Some 0) <> None)
    by (intros i [= <-] Hi; discriminate Hi).
  split; [exact H1 | split; [exact H2 | split; [exact H3 |]]].
  split; [exact H4 |].
  destruct (updateItems_invisible_cancels [userConstraint 0]
              [userConstraint 1] 0%nat 25 (Some 0) st H1 H2 H3 H4)
    as (st' & Hrun & Hu & He & _).
  exists st'. split; [exact Hrun | split; [exact Hu | exact He]].
Defined.

(** *** The response callback with the observers it triggers *)

Lemma unsub_waiting (st : State) :
  _paginationWaiting (__unsub st) = _paginationWaiting st.
Proof. unfold __unsub. destruct (_unsubscribe st); reflexivity. Qed.

(** What [__updateItems] can do over an existing array: return at its
    guard, cancel the subscription of a list that is not visible, or
    start a subscription after a collection that only clears. *)
Lemma updateItems_over_array (visible : bool)
      (cs rcs : option (list QueryConstraint)) (ref : option Ref)
      (batchSize : Z) (index : option Z) (st : State)
      (items : list (option Item)) :
  _listItems st = Some items ->
  exists st' items',
    __updateItems visible cs rcs ref batchSize index st = Normal st'
    /\ _listItems st' = Some items'
    /\ List.length items' = List.length items
    /\ (forall k,
          nth_error items' k = nth_error items k
          \/ nth_error items' k = Some None)
    /\ _pagination st' = _pagination st
    /\ _paginationWaiting st' = _paginationWaiting st
    /\ ((items' = items /\ (st' = st \/ st' = __unsub st))
        \/ (_busy st' = true
            /\ exists sub,
                _unsubscribe st' = Some sub
                /\ effects st' = effects (__unsub st) ++ [Subscribed sub])).
Proof.
  intros Hitems.
  assert (Hsame : exists st' items',
             Normal st = Normal st'
             /\ _listItems st' = Some items'
             /\ List.length items' = List.length items
             /\ (forall k,
                   nth_error items' k = nth_error items k
                   \/ nth_error items' k = Some None)
             /\ _pagination st' = _pagination st
             /\ _paginationWaiting st' = _paginationWaiting st
             /\ ((items' = items /\ (st' = st \/ st' = __unsub st))
                 \/ (_busy st' = true
                     /\ exists sub,
                         _unsubscribe st' = Some sub
                         /\ effects st'
                            = effects (__unsub st) ++ [Subscribed sub]))).
  { exists st, items. repeat split; auto. }
  unfold __updateItems.
  destruct cs as [cs |]; [| exact Hsame].
  destruct rcs as [rcs |]; [| exact Hsame].
  destruct ref as [ref |]; [| exact Hsame].
  destruct (_ || _ || _ || _)%bool; [exact Hsame |].
  destruct (unsub_fields st) as (Hu & He & Hb & Hl & Hp).
  pose proof (unsub_waiting st) as Hw.
  destruct visible; cbn [negb].
  2: { exists (__unsub st), items.
       split; [reflexivity |].
       split; [rewrite Hl; exact Hitems |].
       repeat split; auto. }
  set (st1 := set_busy true (__unsub st)).
  assert (Hl1 : _listItems st1 = Some items)
    by (rewrite <- Hitems; exact Hl).
  set (dir := match _pagination st1 with
              | Some p => direction p
              | None => forward
              end).
  destruct (DbListFacts.garbageCollect_window_later index dir batchSize st1
                                                     items Hl1)
    as (items' & Hgc & Hlen & Hclear & _).
  rewrite Hgc.
  do 2 eexists. split; [reflexivity |].
  split; [reflexivity |].
  split; [exact Hlen |]. split; [exact Hclear |].
  split; [exact Hp |]. split; [exact Hw |].
  right. split; [reflexivity |].
  eexists. split; reflexivity.
Qed.

(** The array right after the callback's write to [_listItems]. *)
Lemma callback_splice_array (index : option Z) (direction : Direction)
      (raw : list Item) (st : State) :
  optZ_eqb index (_index st) = true ->
  let results :=
    match direction with
    | forward => filter has_uid raw
    | reverse => rev (filter has_uid raw)
    end in
  let count := length results in
  let start := splice_start direction index count in
  _listItems (DbListMixinCascade.callback_splice index direction raw st)
  = match _listItems st with
    | Some items =>
        Some (firstn (Z.to_nat start) items ++ map Some results
              ++ skipn (Z.to_nat (start + count)) items)
    | None => Some (map Some results)
    end.
Proof.
  intros Hfresh results count start.
  unfold DbListMixinCascade.callback_splice.
  fold results. fold count.
  set (counted := assign_resultsCount count st).
  assert (Hc : _listItems counted = _listItems st)
    by apply DbListFacts.assign_resultsCount_listItems.
  rewrite Hc.
  destruct (_listItems st) as [items |]; [| reflexivity].
  fold start.
  pose proof (splice_start_nonneg direction index count st Hfresh) as Hs.
  pose proof (length_nonneg results) as Hcount.
  fold start in Hs. fold count in Hcount.
  cbn [_listItems set_listItems].
  rewrite DbListFacts.polymer_splice_nonneg by assumption.
  rewrite DbListFacts.splice_inside by assumption.
  reflexivity.
Qed.

(** The properties that drive pagination, right after the write to
    [_listItems]. *)
Lemma callback_splice_fields (index : option Z) (direction : Direction)
      (raw : list Item) (st : State) :
  let st' := DbListMixinCascade.callback_splice index direction raw st in
  _paginationWaiting st' = _paginationWaiting st
  /\ _pagination st' = _pagination st
  /\ effects st' = effects st
  /\ _unsubscribe st' = _unsubscribe st
  /\ layout st' = layout st.
Proof.
  unfold DbListMixinCascade.callback_splice.
  set (counted := assign_resultsCount _ st).
  assert (Hc : _paginationWaiting counted = _paginationWaiting st
               /\ _pagination counted = _pagination st
               /\ effects counted = effects st
               /\ _unsubscribe counted = _unsubscribe st
               /\ layout counted = layout st).
  { unfold counted, assign_resultsCount.
    destruct (optZ_eqb (_resultsCount st) _); [repeat split |].
    unfold __resultsCountChanged.
    destruct (_ && _)%bool; cbn; repeat split; reflexivity. }
  destruct (_listItems counted); exact Hc.
Qed.

(** Without a parked pagination the whole callback is its own
    statements. *)
Lemma callback_nothing_parked (index : option Z) (direction : Direction)
      (raw : list Item) (st : State) :
  _paginationWaiting st = None ->
  DbListMixinCascade.callback index direction raw st
  = Normal (callback index direction raw st).
Proof.
  intros Hnone. unfold DbListMixinCascade.callback, callback.
  destruct (negb (optZ_eqb index (_index st))); [reflexivity |].
  fold (DbListMixinCascade.callback_splice index direction raw st).
  destruct (callback_splice_fields index direction raw st) as (Hw & _).
  change (_paginationWaiting
            (set_busy false
               (DbListMixinCascade.callback_splice index direction raw st)))
    with (_paginationWaiting
            (DbListMixinCascade.callback_splice index direction raw st)).
  rewrite Hw, Hnone. reflexivity.
Qed.

(** The whole callback for a response that is not stale: it ends
    normally; the array it leaves is the spliced one but for what the
    collection of a triggered subscription cleared; the parked
    pagination is applied; and [_busy] is set again only by a
    subscription started after the cancelling of the previous one. *)
Lemma callback_cascade (index : option Z) (direction : Direction)
      (raw : list Item) (st : State) :
  optZ_eqb index (_index st) = true ->
  exists st' spliced items',
    DbListMixinCascade.callback index direction raw st = Normal st'
    /\ _listItems (DbListMixinCascade.callback_splice index direction raw st)
       = Some spliced
    /\ _listItems st' = Some items'
    /\ List.length items' = List.length spliced
    /\ (forall k,
          nth_error items' k = nth_error spliced k
          \/ nth_error items' k = Some None)
    /\ (_paginationWaiting st = None -> items' = spliced)
    /\ _paginationWaiting st' = None
    /\ _pagination st'
       = match _paginationWaiting st with
         | Some waiting => Some waiting
         | None => _pagination st
         end
    /\ ((_busy st' = false /\ items' = spliced)
        \/ (_busy st' = true
            /\ exists sub,
                _unsubscribe st' = Some sub
                /\ effects st'
                   = effects st
                     ++ match _unsubscribe st with
                        | Some old => [Unsubscribed old; Subscribed sub]
                        | None => [Subscribed sub]
                        end)).
Proof.
  intros Hfresh.
  pose proof (callback_splice_array index direction raw st Hfresh) as Harr.
  cbv zeta in Harr.
  destruct (callback_splice_fields index direction raw st)
    as (Hw & Hp & He & Hu & _).
  unfold DbListMixinCascade.callback. rewrite Hfresh. cbn [negb].
  set (s1 := DbListMixinCascade.callback_splice index direction raw st) in *.
  assert (Hsome : exists spliced, _listItems s1 = Some spliced)
    by (rewrite Harr; destruct (_listItems st); eexists; reflexivity).
  destruct Hsome as (spliced & Hspliced).
  set (s2 := set_busy false s1).
  change (_paginationWaiting s2) with (_paginationWaiting s1).
  rewrite Hw.
  destruct (_paginationWaiting st) as [waiting |] eqn:Hwait.
  - set (after := set_pagination (Some waiting) s2).
    unfold run_observers.
    destruct (optZ_eqb (_index s2) (_index after)).
    + exists (set_paginationWaiting None after), spliced, spliced.
      split; [reflexivity |]. split; [exact Hspliced |].
      split; [exact Hspliced |]. split; [reflexivity |].
      split; [left; reflexivity |]. split; [discriminate |].
      split; [reflexivity |]. split; [reflexivity |].
      left. split; reflexivity.
    + assert (Hl : _listItems after = Some spliced) by exact Hspliced.
      destruct (updateItems_over_array
                  (visible after) (constraints after)
                  (reverseConstraints after) (_ref after)
                  (_batchSize after) (_index after) after spliced Hl)
        as (s3 & items' & Hrun & Hl3 & Hlen & Hclear & Hp3 & Hw3 & Hcases).
      rewrite Hrun.
      exists (set_paginationWaiting None s3), spliced, items'.
      split; [reflexivity |]. split; [exact Hspliced |].
      split; [exact Hl3 |]. split; [exact Hlen |].
      split; [exact Hclear |]. split; [discriminate |].
      split; [reflexivity |].
      split; [cbn [_pagination set_paginationWaiting]; exact Hp3 |].
      destruct (unsub_fields after) as (_ & Hea & Hba & _ & _).
      destruct Hcases as [[-> [-> | ->]] | (Hb & sub & Hsub & Heff)].
      * left. split; reflexivity.
      * left. split; [exact Hba | reflexivity].
      * right. split; [exact Hb |]. exists sub. split; [exact Hsub |].
        cbn [effects set_paginationWaiting]. rewrite Heff, Hea.
        change (effects after) with (effects s1).
        change (_unsubscribe after) with (_unsubscribe s1).
        rewrite He, Hu.
        destruct (_unsubscribe st); cbn [app].
        -- rewrite <- app_assoc. reflexivity.
        -- rewrite app_nil_r. reflexivity.
  - exists s2, spliced, spliced.
    split; [reflexivity |]. split; [exact Hspliced |].
    split; [exact Hspliced |]. split; [reflexivity |].
    split; [left; reflexivity |]. split; [reflexivity |].
    split; [cbn; rewrite Hw; reflexivity |].
    split; [cbn; exact Hp |].
    left. split; reflexivity.
Qed.

(** X23. A pagination event that arrives while a fetch is in flight
    takes effect when the response of that fetch arrives: the response
    is still accepted (the event has not moved the anchor) and its
    callback ends normally; a parked pagination becomes the stored one
    and the waiting slot is emptied, and the subscription observer runs
    for it before the callback returns. [_busy] is therefore left clear
    when nothing was parked, and otherwise it is either clear or set
    again together with a new subscription, started after the previous
    one was cancelled. *)
Theorem parked_pagination_applied (pagination : Pagination) (st : State)
        (direction : Direction) (raw : list Item) :
  _busy st = true ->
  let parked := __paginationChangedHandler pagination st in
  exists st',
    DbListMixinCascade.callback (_index st) direction raw parked = Normal st'
    /\ _paginationWaiting st' = None
    /\ (_paginationWaiting parked = Some pagination ->
        _pagination st' = Some pagination)
    /\ (_paginationWaiting parked = None ->
        _pagination st' = _pagination st
        /\ _busy st' = false
        /\ effects st' = effects st)
    /\ (_busy st' = false
        \/ (_busy st' = true
            /\ exists sub,
                _unsubscribe st' = Some sub
                /\ effects st'
                   = effects st
                     ++ match _unsubscribe st with
                        | Some old => [Unsubscribed old; Subscribed sub]
                        | None => [Subscribed sub]
                        end)).
Proof.
  intros Hbusy parked.
  assert (Hfresh : optZ_eqb (_index st) (_index parked) = true).
  { unfold parked. rewrite (handler_busy_index pagination st Hbusy).
    apply DbListFacts.optZ_eqb_refl. }
  assert (Hfields : _pagination parked = _pagination st
                    /\ effects parked = effects st
                    /\ _unsubscribe parked = _unsubscribe st).
  { destruct (handler_busy pagination st Hbusy) as [E | E];
      fold parked in E; rewrite E; repeat split. }
  destruct Hfields as (Hp & He & Hu).
  destruct (callback_cascade (_index st) direction raw parked Hfresh)
    as (st' & spliced & items' & Hrun & _ & _ & _ & _ & _ & Hw' & Hp'
        & Hcases).
  exists st'. split; [exact Hrun |]. split; [exact Hw' |].
  split; [| split].
  - intros Hparked. rewrite Hp', Hparked. reflexivity.
  - intros Hnone.
    rewrite (callback_nothing_parked _ _ _ _ Hnone) in Hrun.
    injection Hrun as <-.
    destruct (callback_completes (_index st) direction raw parked Hfresh)
      as (Hb & _ & Hpc & Hec & _).
    rewrite Hpc, Hnone, Hec, Hp, He. repeat split. exact Hb.
  - rewrite He, Hu in Hcases.
    destruct Hcases as [[Hb _] | Hagain]; [left; exact Hb | right].
    exact Hagain.
Qed.

Lemma parked_pagination_applied_witness :
  let request := sample_pagination forward 10 in
  let parked := __paginationChangedHandler request sample_state in
  _busy sample_state = true /\
  _paginationWaiting parked = Some request /\
  exists st',
    DbListMixinCascade.callback (_index sample_state) forward
                                (sample_batch 20) parked
    = Normal st'
    /\ _pagination st' = Some request
    /\ _busy st' = true.
Proof.
  intros request parked.
  assert (H : _busy sample_state = true) by reflexivity.
  assert (Hp : _paginationWaiting parked = Some request) by reflexivity.
  split; [exact H | split; [exact Hp |]].
  destruct (parked_pagination_applied request sample_state forward
                                      (sample_batch 20) H)
    as (st' & Hrun & _ & Happlied & _).
  exists st'. split; [exact Hrun |]. split; [exact (Happlied Hp) |].
  apply (f_equal (fun c => _busy (state_of c))) in Hrun.
  symmetry. exact Hrun.
Defined.

(** X24. After a response that is not stale the callback ends normally
    and there is a backing array. It is not shorter than the one before;
    every record in it was either in the array before or is a record of
    the response with a [uid], so that a record without [uid] never
    enters the array; and unless a parked pagination made the callback
    start a new subscription, whose collection may clear records, it
    holds every record of the response that has a [uid]. *)
Theorem callback_keeps_records (index : option Z) (direction : Direction)
        (raw : list Item) (st : State) :
  optZ_eqb index (_index st) = true ->
  exists st' items',
    DbListMixinCascade.callback index direction raw st = Normal st'
    /\ _listItems st' = Some items'
    /\ (forall items,
           _listItems st = Some items -> length items <= length items')
    /\ (forall item,
           In (Some item) items' ->
           (exists items, _listItems st = Some items /\ In (Some item) items)
           \/ (In item raw /\ has_uid item = true))
    /\ (_busy st' = false ->
        forall item,
          In item raw -> has_uid item = true -> In (Some item) items').
Proof.
  intros Hfresh.
  pose proof (results_valid direction raw) as Hvalid.
  pose proof (callback_splice_array index direction raw st Hfresh) as Harr.
  cbv zeta in Harr.
  set (results := match direction with
                  | forward => filter has_uid raw
                  | reverse => rev (filter has_uid raw)
                  end) in *.
  pose proof (splice_start_nonneg direction index (length results) st
                                  Hfresh) as Hstart.
  destruct (callback_cascade index direction raw st Hfresh)
    as (st' & spliced & items' & Hrun & Hspliced & Hl & Hlen & Hclear & _
        & _ & _ & Hcases).
  rewrite Hspliced in Harr.
  exists st', items'. split; [exact Hrun |]. split; [exact Hl |].
  assert (Hfrom : forall item,
             In (Some item) spliced ->
             (exists items,
                 _listItems st = Some items /\ In (Some item) items)
             \/ (In item raw /\ has_uid item = true)).
  { intros item Hin.
    destruct (_listItems st) as [items |]; injection Harr as ->.
    - apply in_app_or in Hin as [Hin | Hin].
      { left. exists items. split; [reflexivity |].
        exact (firstn_subset _ _ _ Hin). }
      apply in_app_or in Hin as [Hin | Hin].
      { right. apply in_map_iff in Hin as (x & [= ->] & Hin).
        apply Hvalid. exact Hin. }
      left. exists items. split; [reflexivity |].
      exact (skipn_subset _ _ _ Hin).
    - right. apply in_map_iff in Hin as (x & [= ->] & Hin).
      apply Hvalid. exact Hin. }
  split; [| split].
  - intros items Hitems. rewrite Hitems in Harr. injection Harr as Hs.
    revert Hs Hstart.
    generalize (splice_start direction index (length results)).
    intros start Hs Hstart.
    unfold length in *. rewrite Hlen, Hs.
    rewrite !List.length_app, List.length_firstn, List.length_skipn,
      List.length_map.
    lia.
  - intros item Hin. apply Hfrom.
    apply In_nth_error in Hin as (k & Hk).
    destruct (Hclear k) as [E | E]; rewrite Hk in E; [| discriminate E].
    apply nth_error_In with k. symmetry. exact E.
  - intros Hidle item Hin Huid.
    destruct Hcases as [[_ ->] | [Hb _]]; [| congruence].
    assert (Hres : In (Some item) (map Some results))
      by (apply in_map; apply Hvalid; split; assumption).
    destruct (_listItems st) as [items |]; injection Harr as ->.
    + apply in_or_app. right. apply in_or_app. left. exact Hres.
    + exact Hres.
Qed.

Lemma callback_keeps_records_witness :
  let orphan := {| uid := None; doc := Some 9%nat |} in
  let raw := orphan :: sample_batch 3 in
  optZ_eqb (Some 0) (_index sample_state) = true /\
  exists st' items',
    DbListMixinCascade.callback (Some 0) forward raw sample_state
    = Normal st'
    /\ _listItems st' = Some items'
    /\ ~ In (Some orphan) items'.
Proof.
  intros orphan raw.
  assert (H : optZ_eqb (Some 0) (_index sample_state) = true)
    by reflexivity.
  split; [exact H |].
  destruct (callback_keeps_records (Some 0) forward raw sample_state H)
    as (st' & items' & Hrun & Hitems & _ & Hfrom & _).
  exists st', items'. split; [exact Hrun |]. split; [exact Hitems |].
  intros Hin. destruct (Hfrom orphan Hin) as [(items & Hsome & _) | [_ Hu]];
    discriminate.
Defined.

(** *** Programmatic moves *)

(** X28. [moveTo] with placeholders, over an existing array that reaches
    up to the place of the first placeholder, overwrites in place: the
    element at [index - tempIndex + j] becomes the [j]-th placeholder,
    every other element keeps its index, and the array is not shorter
    than before. The record at [index] is then the placeholder at
    [tempIndex], whose document the next subscription reads as its
    cursor. *)
Theorem moveTo_primes_anchor (index tempIndex : Z)
        (tempItems items : list (option Item)) (placeholder : Item)
        (d : Doc) (st : State) :
  _listItems st = Some items ->
  0 <= tempIndex <= index ->
  index - tempIndex <= length items ->
  nth_error tempItems (Z.to_nat tempIndex) = Some (Some placeholder) ->
  doc placeholder = Some d ->
  exists items',
    moveTo index (Some tempIndex) (Some tempItems) st
    = Normal (set_listItems (Some items') st)
    /\ length items <= length items'
    /\ (forall k : nat,
           nth_error items' k
           = if (index - tempIndex <=? Z.of_nat k)
                && (Z.of_nat k <? index - tempIndex + length tempItems)
             then nth_error tempItems
                            (k - Z.to_nat (index - tempIndex))
             else nth_error items k)
    /\ anchor_doc (set_listItems (Some items') st) (Some index) = Some d.
Proof.
  intros Hitems Htemp Hstart Hplace Hdoc.
  pose proof (length_nonneg tempItems) as Hlen.
  unfold moveTo. rewrite Hitems.
  rewrite DbListFacts.polymer_splice_nonneg by lia.
  rewrite DbListFacts.splice_inside by lia.
  set (start := index - tempIndex) in *.
  set (items' := firstn (Z.to_nat start) items ++ tempItems
                 ++ skipn (Z.to_nat (start + length tempItems)) items).
  assert (Hf : List.length (firstn (Z.to_nat start) items) = Z.to_nat start)
    by (rewrite List.length_firstn; unfold length in Hstart; lia).
  assert (Hnth : forall k : nat,
             nth_error items' k
             = if (start <=? Z.of_nat k)
                  && (Z.of_nat k <? start + length tempItems)
               then nth_error tempItems (k - Z.to_nat start)
               else nth_error items k).
  { intros k. unfold items'.
    destruct (Z.leb_spec start (Z.of_nat k)) as [Hge | Hlt]; cbn [andb].
    - rewrite nth_error_app2 by lia. rewrite Hf.
      destruct (Z.ltb_spec (Z.of_nat k) (start + length tempItems))
        as [Hin | Hout].
      + rewrite nth_error_app1 by (unfold length in Hin; lia).
        reflexivity.
      + rewrite nth_error_app2 by (unfold length in Hout; lia).
        rewrite nth_error_skipn. f_equal.
        unfold length in *. lia.
    - rewrite nth_error_app1 by lia.
      rewrite nth_error_firstn.
      destruct (Nat.ltb_spec k (Z.to_nat start)); [reflexivity | lia]. }
  exists items'. split; [reflexivity |]. split; [| split].
  - unfold items', length in *.
    rewrite !List.length_app, Hf, List.length_skipn. lia.
  - exact Hnth.
  - unfold anchor_doc.
    change (_listItems (set_listItems (Some items') st)) with (Some items').
    unfold at_.
    destruct (Z.ltb_spec index 0); [lia |].
    destruct (Z.ltb_spec index 0); [lia |].
    rewrite Hnth. rewrite Z2Nat.id by lia.
    assert (Hlt : (Z.to_nat tempIndex < List.length tempItems)%nat)
      by (apply nth_error_Some; congruence).
    destruct (Z.leb_spec start index); [| lia].
    destruct (Z.ltb_spec index (start + length tempItems));
      [| unfold length in *; lia].
    cbn [andb].
    replace (Z.to_nat index - Z.to_nat start)%nat with (Z.to_nat tempIndex)
      by lia.
    rewrite Hplace. exact Hdoc.
Qed.

Lemma moveTo_primes_anchor_witness :
  let loaded n := Some {| uid := Some "u"%string; doc := Some n |} in
  let temp n := Some {| uid := None; doc := Some n |} in
  let items := [loaded 0; loaded 1; None; None; None; None]%nat in
  let tempItems := [temp 3; temp 4]%nat in
  let st := set_listItems (Some items) sample_state in
  _listItems st = Some items /\ 0 <= 1 <= 4 /\ 4 - 1 <= length items /\
  nth_error tempItems (Z.to_nat 1)
  = Some (Some {| uid := None; doc := Some 4%nat |}) /\
  exists items',
    moveTo 4 (Some 1) (Some tempItems) st
    = Normal (set_listItems (Some items') st)
    /\ anchor_doc (set_listItems (Some items') st) (Some 4) = Some 4%nat.
Proof.
  intros loaded temp items tempItems st.
  assert (H1 : _listItems st = Some items) by reflexivity.
  assert (H2 : 0 <= 1 <= 4) by lia.
  assert (H3 : 4 - 1 <= length items) by discriminate.
  assert (H4 : nth_error tempItems (Z.to_nat 1)
               = Some (Some {| uid := None; doc := Some 4%nat |}))
    by reflexivity.
  split; [exact H1 | split; [exact H2 | split; [exact H3 |]]].
  split; [exact H4 |].
  destruct (moveTo_primes_anchor 4 1 tempItems items _ 4%nat st
                                 H1 H2 H3 H4 eq_refl)
    as (items' & Hrun & _ & _ & Hdoc).
  exists items'. split; [exact Hrun | exact Hdoc].
Defined.

End DbListMoreFacts.

(** ** The virtual index in the arithmetic of the numbers *)

Module VirtualIndexDoubleFacts.

Import Js Geometry.

Local Open Scope Q_scope.

Lemma nearest_even_nonneg (n d : Z) :
  (0 <= n)%Z -> (0 < d)%Z -> (0 <= Double.nearest_even n d)%Z.
Proof.
  intros Hn Hd. unfold Double.nearest_even.
  assert (0 <= n / d)%Z by (apply Z.div_pos; assumption).
  destruct (2 * (n mod d) ?= d)%Z; [destruct (Z.even (n / d)) | |]; lia.
Qed.

Lemma round_pos_nonneg (n d : positive) :
  (0 <= Qnum (Double.round_pos n d))%Z.
Proof.
  unfold Double.round_pos.
  set (e := Z.max (Double.log2_floor n d - (Double.prec - 1)) Double.emin).
  assert (Hm : (0 <= if (0 <=? e)%Z
                     then Double.nearest_even (Zpos n) (Zpos d * 2 ^ e)
                     else Double.nearest_even (Zpos n * 2 ^ (- e)) (Zpos d))%Z).
  { destruct (Z.leb_spec 0 e).
    - apply nearest_even_nonneg; [lia |].
      apply Z.mul_pos_pos; [lia | apply Z.pow_pos_nonneg; lia].
    - apply nearest_even_nonneg; [| lia].
      apply Z.mul_nonneg_nonneg; [lia | apply Z.pow_nonneg; lia]. }
  revert Hm. generalize (if (0 <=? e)%Z
                         then Double.nearest_even (Zpos n) (Zpos d * 2 ^ e)
                         else Double.nearest_even (Zpos n * 2 ^ (- e))
                                                  (Zpos d)).
  intros m Hm. unfold Double.scale.
  destruct (Z.leb_spec 0 e); cbn [Qnum inject_Z].
  - apply Z.mul_nonneg_nonneg; [exact Hm | apply Z.pow_nonneg; lia].
  - exact Hm.
Qed.

Lemma Qabs_nonneg_num (q : Q) : (0 <= Qnum q)%Z -> Qabs q = q.
Proof.
  destruct q as [n d]. cbn [Qnum]. intros H. unfold Qabs.
  rewrite Z.abs_eq by assumption. reflexivity.
Qed.

(** Rounding commutes with the absolute value: the format is symmetric
    about 0. *)
Lemma round_abs (q : Q) : Qabs (Double.round q) = Double.round (Qabs q).
Proof.
  destruct q as [[| n | n] d]; unfold Double.round; cbn [Qnum Qden Qabs Z.abs].
  - reflexivity.
  - apply Qabs_nonneg_num, round_pos_nonneg.
  - pose proof (round_pos_nonneg n d) as H.
    destruct (Double.round_pos n d) as [m k]. cbn [Qnum] in H.
    unfold Qopp, Qabs. cbn [Qnum Qden].
    rewrite Z.abs_opp, Z.abs_eq by assumption. reflexivity.
Qed.

(** [Math.abs(x / size)] is [|x| / size] for a positive size, number for
    number. *)
Lemma Qabs_div_pos_eq (x size : Q) :
  0 < size -> Qabs (x / size) = Qabs x / size.
Proof.
  destruct size as [[| s | s] k]; intros H; try discriminate H.
  destruct x as [n d].
  unfold Qdiv, Qinv, Qmult, Qabs. cbn [Qnum Qden].
  rewrite Z.abs_mul. reflexivity.
Qed.

Lemma section_abs (x size : Q) :
  0 < size ->
  Qabs (Double.div x size) = Double.div (Qabs x) size.
Proof.
  intros H. unfold Double.div.
  rewrite round_abs, Qabs_div_pos_eq by assumption. reflexivity.
Qed.

(** C2. With the geometry measured (a layout, and a sample box of positive
    height and width) [__computeVirtualIndex] returns
    [floor(|scroll - itemStart| / itemSize) * itemsPerLine], the
    subtraction and the division being those of the numbers, in the
    later and in the earlier [lite-list], and in [recycled-list], which
    lays out one item per line; each of them returns 0 whenever the item
    size is 0 and whenever the sample box, the layout or the scroll offset
    is still undefined. Being functions of their arguments alone they
    have no effect on anything else. *)
Theorem computeVirtualIndex_formula (layout : string) (b : Bbox) (per : Z)
        (scroll : Q) :
  let section :=
    Qfloor (Double.div (Qabs (Double.sub scroll (leading_edge layout b)))
                       (extent layout b)) in
  (layout <> EmptyString -> 0 < height b -> 0 < width b ->
   LiteListDouble.__computeVirtualIndex (Some layout) (Some b) per
                                        (Some scroll)
   = (section * per)%Z
   /\ LiteListEarlyDouble.__computeVirtualIndex (Some layout) (Some b) per
                                                (Some scroll)
      = (section * per)%Z
   /\ RecycledListDouble.__computeVirtualIndex (Some layout) (Some b)
                                               (Some scroll)
      = section)
  /\ (extent layout b == 0 ->
      forall scroll',
        LiteListDouble.__computeVirtualIndex (Some layout) (Some b) per
                                             scroll'
        = 0%Z
        /\ LiteListEarlyDouble.__computeVirtualIndex (Some layout) (Some b)
                                                     per scroll'
           = 0%Z
        /\ RecycledListDouble.__computeVirtualIndex (Some layout) (Some b)
                                                    scroll'
           = 0%Z)
  /\ (forall layout' scroll',
        LiteListDouble.__computeVirtualIndex layout' None per scroll' = 0%Z
        /\ LiteListEarlyDouble.__computeVirtualIndex layout' None per
                                                     scroll'
           = 0%Z
        /\ RecycledListDouble.__computeVirtualIndex layout' None scroll'
           = 0%Z)
  /\ (forall b' scroll',
        LiteListDouble.__computeVirtualIndex None b' per scroll' = 0%Z
        /\ LiteListEarlyDouble.__computeVirtualIndex None b' per scroll'
           = 0%Z
        /\ RecycledListDouble.__computeVirtualIndex None b' scroll' = 0%Z)
  /\ (forall layout' b',
        LiteListDouble.__computeVirtualIndex layout' b' per None = 0%Z
        /\ LiteListEarlyDouble.__computeVirtualIndex layout' b' per None
           = 0%Z
        /\ RecycledListDouble.__computeVirtualIndex layout' b' None = 0%Z).
Proof.
  intros section.
  split; [| split; [| split; [| split]]].
  - intros Hl Hh Hw.
    assert (Hsize : 0 < extent layout b)
      by (unfold extent; destruct (is_vertical layout); assumption).
    assert (Hsec :
              Qfloor (Qabs (Double.div
                              (Double.sub scroll (leading_edge layout b))
                              (extent layout b)))
              = section)
      by (unfold section; rewrite section_abs by assumption; reflexivity).
    assert (Fl : falsy_string (Some layout) = false)
      by (destruct layout; [contradiction | reflexivity]).
    assert (Fh : falsyQ (height b) = false)
      by (apply VirtualIndexFacts.falsyQ_pos; assumption).
    assert (Fw : falsyQ (width b) = false)
      by (apply VirtualIndexFacts.falsyQ_pos; assumption).
    unfold LiteListDouble.__computeVirtualIndex,
      LiteListEarlyDouble.__computeVirtualIndex,
      RecycledListDouble.__computeVirtualIndex.
    rewrite Fl, Fh, Fw. cbn [orb].
    fold (leading_edge layout b). fold (extent layout b).
    rewrite Hsec.
    split; [| split; reflexivity].
    unfold falsyZ. destruct (Z.eqb_spec per 0) as [-> | _];
      [rewrite Z.mul_0_r |]; reflexivity.
  - intros Hz scroll'.
    assert (Hf : (falsyQ (height b) || falsyQ (width b))%bool = true).
    { unfold extent in Hz.
      destruct (is_vertical layout);
        apply VirtualIndexFacts.falsyQ_true_iff in Hz; rewrite Hz;
        [reflexivity | apply orb_true_r]. }
    unfold LiteListDouble.__computeVirtualIndex,
      LiteListEarlyDouble.__computeVirtualIndex,
      RecycledListDouble.__computeVirtualIndex.
    rewrite Hf.
    destruct (falsy_string (Some layout)); cbn [orb];
      [repeat split |].
    destruct (falsyZ per), scroll'; repeat split.
  - intros layout' scroll'.
    unfold LiteListDouble.__computeVirtualIndex,
      LiteListEarlyDouble.__computeVirtualIndex,
      RecycledListDouble.__computeVirtualIndex.
    destruct (falsy_string layout'); cbn [orb]; [repeat split |].
    destruct (falsyZ per), layout'; repeat split.
  - intros b' scroll'. repeat split.
  - intros layout' b'.
    unfold LiteListDouble.__computeVirtualIndex,
      LiteListEarlyDouble.__computeVirtualIndex,
      RecycledListDouble.__computeVirtualIndex.
    destruct (falsy_string layout'); cbn [orb]; [repeat split |].
    destruct (falsyZ per), layout', b'; repeat split.
Qed.

(** Witness of C2, the scenario of the design document: items 150px
    high, one per line, scrolled to 900px. *)
Lemma computeVirtualIndex_formula_witness :
  let b := {| height := 150; left := 0; top := 0; width := 300 |} in
  "vertical"%string <> EmptyString /\ 0 < height b /\ 0 < width b /\
  LiteListDouble.__computeVirtualIndex (Some "vertical"%string) (Some b) 1
                                       (Some 900)
  = 6%Z.
Proof.
  intro b.
  assert (Hl : "vertical"%string <> EmptyString) by discriminate.
  assert (Hh : 0 < height b) by reflexivity.
  assert (Hw : 0 < width b) by reflexivity.
  split; [exact Hl | split; [exact Hh | split; [exact Hw |]]].
  rewrite (proj1 (proj1 (computeVirtualIndex_formula "vertical" b 1 900)
                        Hl Hh Hw)).
  vm_compute. reflexivity.
Defined.

(** The division is that of the numbers: items of 20.8px scrolled to
    104px give the index 5 in all three scrollers, [104 / 20.8] being
    the number 5, although the number written 20.8 is a little more than
    20.8 and the exact quotient a little less than 5. *)
Example computeVirtualIndex_rounds :
  let size := Double.round (208 # 10) in
  let b := {| height := size; left := 0; top := 0; width := 300 |} in
  Qred (Double.div 104 size) = 5
  /\ Qfloor (104 / size) = 4%Z
  /\ LiteListDouble.__computeVirtualIndex (Some "vertical"%string) (Some b)
                                          1 (Some 104)
     = 5%Z
  /\ LiteListEarlyDouble.__computeVirtualIndex (Some "vertical"%string)
                                               (Some b) 1 (Some 104)
     = 5%Z
  /\ RecycledListDouble.__computeVirtualIndex (Some "vertical"%string)
                                              (Some b) (Some 104)
     = 5%Z.
Proof. vm_compute. repeat split. Qed.

End VirtualIndexDoubleFacts.

(** ** Reposition in the arithmetic of the numbers *)

Module RepositionDoubleFacts.

Import Js Geometry LiteList Samples.


End RepositionDoubleFacts.

(** ** [DbListMixin]: both revisions of the collection and of the
    response callback *)

Module DbListRevisionsFacts.

Import Js Geometry JsArray JsArrayFacts DbListMixin Samples.

(** *** Garbage collection *)







(** *** Splice-in of a resolved fetch *)

(** The array right after the write to [_listItems] of the earlier
    callback, for a start inside the array. *)
Lemma callback_splice_early (i : Z) (direction : option Direction)
      (current : option Z) (raw : list Item) (st : State)
      (items : list (option Item)) (start : Z) :
  _busy st = false \/ current = Some i ->
  _listItems st = Some items ->
  start = match direction with
          | Some reverse => i - (length (filter has_uid raw) - 1)
          | _ => i
          end ->
  0 <= start ->
  _listItems (DbListMixinEarly.callback_splice (Some i) direction current
                                               raw st)
  = Some (firstn (Z.to_nat start) items
          ++ map Some (filter has_uid raw)
          ++ skipn (Z.to_nat (start + length (filter has_uid raw))) items).
Proof.
  intros Hfresh Hitems Hstart Hs.
  unfold DbListMixinEarly.callback_splice.
  assert (Hgo : (_busy st && negb (optZ_eqb (Some i) current))%bool = false).
  { destruct Hfresh as [-> | ->]; [reflexivity |].
    rewrite DbListFacts.optZ_eqb_refl. apply andb_false_r. }
  rewrite Hgo.
  set (valid := filter has_uid raw) in *.
  set (counted := assign_resultsCount (length valid) st).
  assert (Hc : _listItems counted = Some items)
    by (unfold counted;
        rewrite DbListFacts.assign_resultsCount_listItems; assumption).
  rewrite Hc. cbn [_listItems set_listItems].
  replace (match direction with
           | Some reverse => i - (length valid - 1)
           | _ => i
           end) with start
    by (rewrite Hstart; destruct direction as [[|] |]; reflexivity).
  pose proof (length_nonneg valid).
  rewrite DbListFacts.polymer_splice_nonneg by assumption.
  rewrite DbListFacts.splice_inside by assumption.
  reflexivity.
Qed.

(** C5 (as amended). When a fetch anchored at index [i] resolves (its
    response not being stale) with [count] valid records over an existing
    backing array. In the later revision, for a fetch issued in reverse
    the batch is reversed and spliced in place of [count] elements from
    [max(0, i - (count - 1))] on: when at least one and at most [i + 1]
    records came back the spliced records end at the anchor, which
    receives the first record of the batch as fetched, and when more came
    back they start at 0 and run past the anchor; for a forward fetch the
    records are spliced in their order in place of [count] elements from
    [i] on. The array that the whole callback leaves is the spliced one
    but for elements cleared by the collection of a subscription that a
    parked pagination makes the callback start; with nothing parked it
    is the spliced one. In the earlier revision the batch is spliced in
    the order fetched, for a reverse fetch of at most [i + 1] records in
    place of the [count] elements that end at the anchor, for a forward
    fetch from [i] on. *)
Theorem callback_splices (i : Z) (raw : list Item) (st : State)
        (items : list (option Item)) :
  _index st = Some i ->
  _listItems st = Some items ->
  0 <= i <= length items ->
  let valid := filter has_uid raw in
  let count := length valid in
  let start := Z.max 0 (i - (count - 1)) in
  let reversed :=
    firstn (Z.to_nat start) items ++ map Some (rev valid)
    ++ skipn (Z.to_nat (start + count)) items in
  let appended :=
    firstn (Z.to_nat i) items ++ map Some valid
    ++ skipn (Z.to_nat (i + count)) items in
  _listItems (DbListMixinCascade.callback_splice (Some i) reverse raw st)
  = Some reversed
  /\ (1 <= count <= i + 1 ->
      start + count - 1 = i
      /\ nth_error reversed (Z.to_nat i) = option_map Some (hd_error valid))
  /\ (i + 1 < count -> start = 0 /\ i < start + count - 1)
  /\ _listItems (DbListMixinCascade.callback_splice (Some i) forward raw st)
     = Some appended
  /\ (forall direction,
         exists st' items',
           DbListMixinCascade.callback (Some i) direction raw st = Normal st'
           /\ _listItems st' = Some items'
           /\ List.length items'
              = List.length match direction with
                            | forward => appended
                            | reverse => reversed
                            end
           /\ (forall k,
                  nth_error items' k
                  = nth_error match direction with
                              | forward => appended
                              | reverse => reversed
                              end k
                  \/ nth_error items' k = Some None)
           /\ (_paginationWaiting st = None ->
               items' = match direction with
                        | forward => appended
                        | reverse => reversed
                        end))
  /\ (forall current,
         _busy st = false \/ current = Some i ->
         (count <= i + 1 ->
          _listItems (DbListMixinEarly.callback_splice
                        (Some i) (Some reverse) current raw st)
          = Some (firstn (Z.to_nat (i - (count - 1))) items
                  ++ map Some valid ++ skipn (Z.to_nat (i + 1)) items))
         /\ _listItems (DbListMixinEarly.callback_splice
                          (Some i) (Some forward) current raw st)
            = Some appended).
Proof.
  intros Hindex Hitems Hi valid count start reversed appended.
  assert (Hfresh : optZ_eqb (Some i) (_index st) = true)
    by (rewrite Hindex; apply DbListFacts.optZ_eqb_refl).
  assert (Hcount : 0 <= count) by apply length_nonneg.
  assert (Hrev :
            _listItems (DbListMixinCascade.callback_splice (Some i) reverse
                                                           raw st)
            = Some reversed).
  { rewrite (DbListMoreFacts.callback_splice_array (Some i) reverse raw st
                                                   Hfresh).
    rewrite Hitems. fold valid. rewrite DbListFacts.length_rev. fold count.
    reflexivity. }
  assert (Hfwd :
            _listItems (DbListMixinCascade.callback_splice (Some i) forward
                                                           raw st)
            = Some appended).
  { rewrite (DbListMoreFacts.callback_splice_array (Some i) forward raw st
                                                   Hfresh).
    rewrite Hitems. reflexivity. }
  split; [exact Hrev |].
  split; [| split; [| split; [exact Hfwd | split]]].
  - intros Hc. split; [lia |].
    assert (Hstart : start = i - (count - 1)) by lia.
    pose proof (length_nonneg items) as Hlen.
    unfold reversed, length in *.
    rewrite nth_error_app2 by (rewrite List.length_firstn; lia).
    rewrite List.length_firstn.
    replace (Z.to_nat i - Nat.min (Z.to_nat start) (List.length items))%nat
      with (List.length valid - 1)%nat
      by (unfold count, length in *; lia).
    rewrite nth_error_app1
      by (rewrite List.length_map, List.length_rev;
          unfold count, length in *; lia).
    rewrite nth_error_map, nth_error_rev.
    destruct (Nat.ltb_spec (List.length valid - 1) (List.length valid));
      [| unfold count, length in *; lia].
    replace (List.length valid - S (List.length valid - 1))%nat with 0%nat
      by (unfold count, length in *; lia).
    destruct valid; reflexivity.
  - intros Hmore. lia.
  - intros direction.
    destruct (DbListMoreFacts.callback_cascade (Some i) direction raw st
                                               Hfresh)
      as (st' & spliced & items' & Hrun & Hspliced & Hl & Hlen & Hclear
          & Hsame & _).
    assert (Es : spliced = match direction with
                           | forward => appended
                           | reverse => reversed
                           end).
    { destruct direction; [rewrite Hfwd in Hspliced | rewrite Hrev in Hspliced];
        injection Hspliced as <-; reflexivity. }
    rewrite <- Es.
    exists st', items'. repeat split; assumption.
  - intros current Hcur. split.
    + intros Hc.
      rewrite (callback_splice_early i (Some reverse) current raw st items
                                     (i - (count - 1)) Hcur Hitems eq_refl)
        by lia.
      fold valid. fold count.
      replace (i - (count - 1) + count) with (i + 1) by lia.
      reflexivity.
    + rewrite (callback_splice_early i (Some forward) current raw st items i
                                     Hcur Hitems eq_refl)
        by lia.
      reflexivity.
Qed.

(** Witness of C5: three valid records and an orphan, fetched in reverse
    from the anchor 4 of six loaded elements; they land on 2, 3 and 4 in
    ascending order. *)
Lemma callback_splices_witness :
  let old n := Some {| uid := Some "old"%string; doc := Some n |} in
  let rec s n := {| uid := Some s; doc := Some n |} in
  let orphan := {| uid := None; doc := Some 9%nat |} in
  let items := [old 0; old 1; None; None; old 4; old 5]%nat in
  let st :=
    set_listItems (Some items)
      (set_pagination (Some (sample_pagination forward 5)) sample_state) in
  let raw := [rec "c" 14; orphan; rec "b" 13; rec "a" 12]%nat%string in
  _index st = Some 4 /\ _listItems st = Some items /\
  0 <= 4 <= length items /\
  _listItems (DbListMixinCascade.callback_splice (Some 4) reverse raw st)
  = Some [old 0; old 1; Some (rec "a" 12); Some (rec "b" 13);
          Some (rec "c" 14); old 5]%nat%string.
Proof.
  intros old rec orphan items st raw.
  assert (H1 : _index st = Some 4) by reflexivity.
  assert (H2 : _listItems st = Some items) by reflexivity.
  assert (H3 : 0 <= 4 <= length items) by (vm_compute; split; discriminate).
  split; [exact H1 | split; [exact H2 | split; [exact H3 |]]].
  rewrite (proj1 (callback_splices 4 raw st items H1 H2 H3)).
  reflexivity.
Defined.

(** C5 as stated fails in both revisions. In the later one, where the
    clamp bites: three records fetched in reverse from the anchor 1 are
    spliced from [max(0, 1 - 2) = 0] on and end at index 2, past the
    anchor, which holds the second record and not the first of the batch
    as fetched. In the earlier one the batch is not reversed: three
    records fetched in reverse from the anchor 4 land on 2, 3 and 4 in
    the order fetched. *)
Lemma callback_splice_passes_anchor :
  let old n := Some {| uid := Some "old"%string; doc := Some n |} in
  let rec s n := {| uid := Some s; doc := Some n |} in
  let items := [old 0; old 1; old 2; old 3; old 4; old 5]%nat in
  let near :=
    set_listItems (Some items)
      (set_pagination (Some (sample_pagination forward 2)) sample_state) in
  let far :=
    set_listItems (Some items)
      (set_pagination (Some (sample_pagination forward 5)) sample_state) in
  let raw := [rec "c" 14; rec "b" 13; rec "a" 12]%nat%string in
  (_index near = Some 1
   /\ Z.max 0 (1 - (3 - 1)) + 3 - 1 <> 1
   /\ _listItems (DbListMixinCascade.callback_splice (Some 1) reverse raw
                                                     near)
      = Some [Some (rec "a" 12); Some (rec "b" 13); Some (rec "c" 14);
              old 3; old 4; old 5]%nat%string)
  /\ (_index far = Some 4
      /\ _listItems (DbListMixinEarly.callback_splice
                       (Some 4) (Some reverse) (Some 4) raw far)
         = Some [old 0; old 1; Some (rec "c" 14); Some (rec "b" 13);
                 Some (rec "a" 12); old 5]%nat%string).
Proof.
  cbv zeta. repeat split. discriminate.
Qed.

End DbListRevisionsFacts.
